(** * optuna_rapids.ipynb: a shallow embedding of the notebook's glue code

    The notebook sequences calls into external libraries (optuna, cuml,
    cudf, dask, joblib, mlflow) and into Python builtins.  The libraries
    are a parameter of the development (a [library]: a state type and a
    handler that answers each call); the notebook's own functions and cells
    are written in a small monad that threads the library state, stops at
    the first exception and records every call that leaves the notebook. *)

From Stdlib Require Import ZArith List String Ascii Bool Floats Lia.
Import ListNotations.
Open Scope string_scope.
Open Scope Z_scope.
Set Warnings "-register-all".

(** ** Python values *)

(** A reference to a Python object owned by a library (a dataframe, a
    series, a classifier, a study, a trial, a context manager, ...). *)
Definition ref := nat.

(** A raised exception: its class and its message. *)
Inductive exn := Exception (cls msg : string).

(** The values the notebook prints or hands over as dictionaries.  A string
    built with [%] or [str.format] is kept as its template and arguments. *)
Inductive pyval :=
| VNone
| VInt (z : Z)
| VFloat (f : float)
| VStr (s : string)
| VTuple (l : list pyval)
| VList (l : list pyval)
| VDict (items : list (string * pyval))
| VFormat (template : string) (args : list pyval).

(** optuna's FrozenTrial, as far as the notebook reads it. *)
Record FrozenTrial := { number : Z; value : option float; params : list (string * pyval) }.

(** ** Calls that leave the notebook *)

Inductive call :=
(* builtins *)
| print (args : list pyval)
| len
| float_ (s : string)
| dict_keys
| dict_items
| str_format (template : string) (args : list pyval)
| range (n : Z)
(* library code run by an import and by a with statement *)
| import_from (module name : string)
| ctx_enter (cm : ref)
| ctx_exit (cm : ref) (exc : option exn)
(* time *)
| time_time
(* dask, dask_cuda *)
| LocalCUDACluster (threads_per_worker : Z) (ip dashboard_address : string)
| Client (cluster : ref)
| has_what (client : ref)
| performance_report (filename : string)
| compute (obj : ref)
(* cudf, pandas, dask_cudf *)
| read_parquet (path : string)
| drop (df : ref) (labels : list string) (axis : Z)
| getitem (obj : ref) (key : string)
| getitem_int (obj : ref) (i : Z)
| astype (obj : ref) (dtype : string)
| from_cudf (data : ref) (npartitions : Z)
(* cuml *)
| train_test_split (X y : ref) (random_state : Z)
| RandomForestClassifier (max_depth n_estimators : Z)
| dask_RandomForestClassifier (max_depth n_estimators : Z)
| fit (classifier X y : ref)
| predict (classifier X : ref)
| accuracy_score (y_true y_pred : ref)
| persist_across_workers (client : ref) (objects : list ref) (workers : list string)
(* optuna *)
| TPESampler
| suggest_int (trial : ref) (name : string) (low high : Z)
| create_study (sampler : ref) (study_name storage direction : string) (load_if_exists : bool)
| optimize (study : ref) (n_trials : Z) (n_jobs : option Z) (callbacks : option nat)
| trials (study : ref)
| best_trial (study : ref)
| study_name (study : ref)
| trials_dataframe (study : ref)
(* joblib *)
| parallel_backend (backend : string) (n_jobs : Z) (client : option ref) (scatter : list ref)
| Parallel
| Parallel_call (p : ref)
| delayed
(* mlflow *)
| start_run (run_name : string)
| log_params (params : list (string * pyval))
| log_metrics (metrics : list (string * float)).

(** What each call returns when it returns normally. *)
Definition ret (c : call) : Type :=
  match c with
  | print _ => unit
  | len => Z
  | float_ _ => float
  | dict_keys => list string
  | dict_items => list (string * pyval)
  | str_format _ _ => pyval
  | range _ => list Z
  | import_from _ _ => unit
  | ctx_enter _ => unit
  | ctx_exit _ _ => bool
  | time_time => float
  | LocalCUDACluster _ _ _ => ref
  | Client _ => ref
  | has_what _ => list (string * pyval)
  | performance_report _ => ref
  | compute _ => ref
  | read_parquet _ => ref
  | drop _ _ _ => ref
  | getitem _ _ => ref
  | getitem_int _ _ => Z
  | astype _ _ => ref
  | from_cudf _ _ => ref
  | train_test_split _ _ _ => ref * ref * ref * ref
  | RandomForestClassifier _ _ => ref
  | dask_RandomForestClassifier _ _ => ref
  | fit _ _ _ => unit
  | predict _ _ => ref
  | accuracy_score _ _ => float
  | persist_across_workers _ _ _ => ref * ref * ref * ref
  | TPESampler => ref
  | suggest_int _ _ _ _ => Z
  | create_study _ _ _ _ _ => ref
  | optimize _ _ _ _ => unit
  | trials _ => list FrozenTrial
  | best_trial _ => FrozenTrial
  | study_name _ => string
  | trials_dataframe _ => ref
  | parallel_backend _ _ _ _ => ref
  | Parallel => ref
  | Parallel_call _ => list (float * Z * Z)
  | delayed => unit
  | start_run _ => ref
  | log_params _ => unit
  | log_metrics _ => unit
  end.

(** The callee's name, without its arguments. *)
Definition call_name (c : call) : string :=
  match c with
  | print _ => "print"
  | len => "len"
  | float_ _ => "float"
  | dict_keys => "keys"
  | dict_items => "items"
  | str_format _ _ => "format"
  | range _ => "range"
  | import_from _ _ => "import"
  | ctx_enter _ => "__enter__"
  | ctx_exit _ _ => "__exit__"
  | time_time => "time.time"
  | LocalCUDACluster _ _ _ => "LocalCUDACluster"
  | Client _ => "Client"
  | has_what _ => "has_what"
  | performance_report _ => "performance_report"
  | compute _ => "compute"
  | read_parquet _ => "cudf.read_parquet"
  | drop _ _ _ => "drop"
  | getitem _ _ => "__getitem__"
  | getitem_int _ _ => "__getitem__"
  | astype _ _ => "astype"
  | from_cudf _ _ => "dask_cudf.from_cudf"
  | train_test_split _ _ _ => "train_test_split"
  | RandomForestClassifier _ _ => "cuml.ensemble.RandomForestClassifier"
  | dask_RandomForestClassifier _ _ => "cuml.dask.ensemble.RandomForestClassifier"
  | fit _ _ _ => "fit"
  | predict _ _ => "predict"
  | accuracy_score _ _ => "accuracy_score"
  | persist_across_workers _ _ _ => "dask_utils.persist_across_workers"
  | TPESampler => "optuna.samplers.TPESampler"
  | suggest_int _ _ _ _ => "suggest_int"
  | create_study _ _ _ _ _ => "optuna.create_study"
  | optimize _ _ _ _ => "optimize"
  | trials _ => "trials"
  | best_trial _ => "best_trial"
  | study_name _ => "study_name"
  | trials_dataframe _ => "trials_dataframe"
  | parallel_backend _ _ _ _ => "parallel_backend"
  | Parallel => "Parallel"
  | Parallel_call _ => "Parallel.__call__"
  | delayed => "delayed"
  | start_run _ => "mlflow.start_run"
  | log_params _ => "mlflow.log_params"
  | log_metrics _ => "mlflow.log_metrics"
  end.

(** ** Results, the record of a run, and the monad *)

Inductive result (A : Type) := Ok (a : A) | Raise (e : exn).
Arguments Ok {A} a.
Arguments Raise {A} e.

(** One call as it happened: the call, how it ended, and (for a library
    function that calls back into the notebook) the calls made inside it. *)
Inductive entry := Entry (c : call) (r : result (ret c)) (sub : list entry).

Definition entry_call (e : entry) : call := let (c, _, _) := e in c.

Definition raised {A} (r : result A) : option exn :=
  match r with Ok _ => None | Raise e => Some e end.

Definition entry_raised (e : entry) : option exn :=
  match e with Entry _ r _ => raised r end.

Record outcome (W A : Type) := Outcome { res : result A; final : W; trace : list entry }.
Arguments Outcome {W A} res final trace.
Arguments res {W A} o.
Arguments final {W A} o.
Arguments trace {W A} o.

Definition M (W A : Type) : Type := W -> outcome W A.

Definition pure {W A} (a : A) : M W A := fun w => Outcome (Ok a) w [].

Definition raise {W A} (e : exn) : M W A := fun w => Outcome (Raise e) w [].

Definition bind {W A B} (m : M W A) (k : A -> M W B) : M W B :=
  fun w =>
    let o := m w in
    match res o with
    | Ok a => let o' := k a (final o) in
              Outcome (res o') (final o') (trace o ++ trace o')
    | Raise e => Outcome (Raise e) (final o) (trace o)
    end.

(** Run [m] and hand its result, normal or raised, to the continuation.  Only
    the [with] statement below uses it; the notebook has no [try]. *)
Definition attempt {W A} (m : M W A) : M W (result A) :=
  fun w => let o := m w in Outcome (Ok (res o)) (final o) (trace o).

Declare Scope py_scope.
Delimit Scope py_scope with py.
Notation "x <- m ;; k" := (bind m (fun x => k))
  (at level 61, m at next level, right associativity) : py_scope.
Notation "' p <- m ;; k" := (bind m (fun p => k))
  (at level 61, p pattern, m at next level, right associativity) : py_scope.
Notation "m ;;; k" := (bind m (fun _ => k))
  (at level 61, right associativity) : py_scope.
Open Scope py_scope.

Fixpoint for_each {W A} (l : list A) (body : A -> M W unit) : M W unit :=
  match l with
  | [] => pure tt
  | a :: l' => body a ;;; for_each l' body
  end.

(** ** The libraries *)

(** The state of everything outside the notebook, how each call is answered
    in it, and the two library functions that call back into the notebook.
    [handle] is consulted for the library's own first-order calls; builtins
    are answered by the notebook's runtime below. *)
Record library := Library {
  world : Type;
  handle : forall c : call, world -> result (ret c) * world;
  lib_optimize :
    ref -> (ref -> M world float) -> Z -> option Z ->
    option (list (ref -> FrozenTrial -> M world unit)) -> M world unit;
  lib_Parallel :
    ref -> list (M world (M world (float * Z * Z))) -> M world (list (float * Z * Z));
  (* observations of the state, used to state what the libraries promise *)
  data : Type;
  frame_data : world -> ref -> option data;
  study_direction : world -> ref -> option string
}.

(** ** The notebook *)

(** Cell 4: the two constants. *)
Definition N_TRIALS : Z := 20.
Definition INPUT_FILE : string := "/home/hyperopt/hyperopt/data/air_par.parquet".

(** The global names the functions below read; cells 3 and 4 bind them and
    no later cell rebinds them. *)
Record globals := Globals {
  c : ref;
  workers : list string;
  n_workers : Z;
  n_streams : Z;
  X : ref;
  y : ref
}.

(** Where [run_study] and the inline cells keep a study's trial history. *)
Definition storage_url (name : string) : string := "sqlite:///_" ++ name ++ ".db".

(** A value as [print] and [str.format] receive it. *)
Definition of_option_float (v : option float) : pyval :=
  match v with Some f => VFloat f | None => VNone end.

Definition of_result (r : float * Z * Z) : pyval :=
  let '(score, max_depth, n_estimators) := r in
  VTuple [VFloat score; VInt max_depth; VInt n_estimators].

Section Notebook.

Variable L : library.

Local Abbreviation W := (world L).
Local Abbreviation callback := (ref -> FrozenTrial -> M W unit).

(** A call into a library: [handle] answers it and the call is recorded. *)
Definition do_ (c : call) : M W (ret c) :=
  fun w => let (r, w') := handle L c w in Outcome r w' [Entry c r []].

(** A call of a builtin: it returns [v], leaves the libraries alone, and is
    recorded. *)
Definition builtin (c : call) (v : ret c) : M W (ret c) :=
  fun w => Outcome (Ok v) w [Entry c (Ok v) []].

Definition print_ (args : list pyval) : M W unit := builtin (print args) tt.
Definition len_ {A} (l : list A) : M W Z := builtin len (Z.of_nat (List.length l)).
Definition items_ (d : list (string * pyval)) : M W (list (string * pyval)) :=
  builtin dict_items d.
Definition keys_ (d : list (string * pyval)) : M W (list string) :=
  builtin dict_keys (map fst d).
Definition format_ (template : string) (args : list pyval) : M W pyval :=
  builtin (str_format template args) (VFormat template args).
Definition range_ (n : Z) : M W (list Z) :=
  builtin (range n) (map Z.of_nat (seq 0 (Z.to_nat n))).

(** [study.optimize(func, n_trials, n_jobs, callbacks)]: the library runs it,
    calling back [func] and the callbacks; what happens inside is recorded
    under the call. *)
Definition do_optimize (study : ref) (func : ref -> M W float) (n_trials : Z)
    (n_jobs : option Z) (callbacks : option (list callback)) : M W unit :=
  fun w =>
    let o := lib_optimize L study func n_trials n_jobs callbacks w in
    Outcome (res o) (final o)
      [Entry (optimize study n_trials n_jobs (option_map (@List.length _) callbacks))
             (res o) (trace o)].

(** [Parallel()(tasks)]: each task first evaluates its arguments, then is the
    delayed call itself. *)
Definition do_Parallel (p : ref) (tasks : list (M W (M W (float * Z * Z))))
    : M W (list (float * Z * Z)) :=
  fun w =>
    let o := lib_Parallel L p tasks w in
    Outcome (res o) (final o) [Entry (Parallel_call p) (res o) (trace o)].

(** *** The [with] statement *)

(** A context manager: [__enter__], and [__exit__] which is told the
    exception that ended the block (if one did) and answers whether to
    swallow it. *)
Record context_manager (S : Type) := {
  cm_enter : M W S;
  cm_exit : S -> option exn -> M W bool
}.
Arguments cm_enter {S} _.
Arguments cm_exit {S} _ _ _.

(** [with cm: body].  [None] is returned when the block was cut short by an
    exception that [__exit__] swallowed. *)
Definition with_ {S A} (cm : context_manager S) (body : M W A) : M W (option A) :=
  s <- cm_enter cm ;;
  r <- attempt body ;;
  match r with
  | Ok a => cm_exit cm s None ;;; pure (Some a)
  | Raise e =>
      swallow <- cm_exit cm s (Some e) ;;
      if swallow : bool then pure None else raise e
  end.

(** A context manager object that a library returned. *)
Definition lib_cm (cm : ref) : context_manager unit :=
  {| cm_enter := do_ (ctx_enter cm);
     cm_exit := fun _ exc => do_ (ctx_exit cm exc) |}.

(** [@contextmanager] applied to a generator with one [yield] that is not
    inside a [try]: [__enter__] runs the code before the [yield];
    [__exit__] without an exception runs the code after it; [__exit__] with
    an exception throws it into the generator at the [yield], where nothing
    catches it, so none of the code after the [yield] runs and the exception
    is not swallowed. *)
Definition contextmanager {S} (before : M W S) (after : S -> M W unit)
    : context_manager S :=
  {| cm_enter := before;
     cm_exit := fun s exc =>
       match exc with
       | None => after s ;;; pure false
       | Some _ => pure false
       end |}.

(** A name assigned inside a [with] block, read after the block: unbound
    ([UnboundLocalError] in a function, [NameError] in a cell) if the block
    was cut short. *)
Definition bound {A} (cls name : string) (v : option A) : M W A :=
  match v with
  | Some a => pure a
  | None => raise (Exception cls name)
  end.

(** *** Cell 2 *)

Definition timed (name : string) : context_manager float :=
  contextmanager
    (do_ time_time)
    (fun t0 =>
       t1 <- do_ time_time ;;
       print_ [VFormat "..%-24s:  %8.4f" [VStr name; VFloat (t1 - t0)%float]]).

(** *** Cell 5 *)

Definition train_and_eval (X_param y_param : ref) (max_depth n_estimators : Z)
    : M W float :=
  '(X_train, X_valid, y_train, y_valid) <-
     do_ (train_test_split X_param y_param 77) ;;
  classifier <- do_ (RandomForestClassifier max_depth n_estimators) ;;
  do_ (fit classifier X_train y_train) ;;;
  y_pred <- do_ (predict classifier X_valid) ;;
  score <- do_ (accuracy_score y_valid y_pred) ;;
  pure score.

(** *** Cell 7 *)

Definition objective (trial X_param y_param : ref) : M W float :=
  max_depth <- do_ (suggest_int trial "max_depth" 10 15) ;;
  n_estimators <- do_ (suggest_int trial "n_estimators" 200 700) ;;
  score <- train_and_eval X_param y_param max_depth n_estimators ;;
  pure score.

(** *** Cell 8 *)

Definition run_study (g : globals) (sampler : ref) (study_name : string)
    (callbacks : option (list callback)) : M W ref :=
  blk <- with_ (timed study_name)
    (study <- do_ (create_study sampler study_name
                     ("sqlite:///_" ++ study_name ++ ".db") "maximize" true) ;;
     pb <- do_ (parallel_backend "dask" (n_workers g) (Some (c g)) [X g; y g]) ;;
     with_ (lib_cm pb)
       (do_optimize study (fun trial => objective trial (X g) (y g))
          N_TRIALS (Some (n_workers g)) callbacks) ;;;
     pure study) ;;
  study <- bound "UnboundLocalError" "study" blk ;;
  ts <- do_ (trials study) ;;
  n <- len_ ts ;;
  print_ [VStr "Number of finished trials: "; VInt n] ;;;
  print_ [VStr "Best trial:"] ;;;
  trial <- do_ (best_trial study) ;;
  print_ [VStr "  Value: "; of_option_float (value trial)] ;;;
  print_ [VStr "  Params: "] ;;;
  kvs <- items_ (params trial) ;;
  for_each kvs (fun kv =>
    line <- format_ "    {}: {}" [VStr (fst kv); snd kv] ;;
    print_ [line]) ;;;
  pure study.

(** *** Cell 13 *)

Definition seq_call (X y : ref) (max_depth n_estimators : Z) : M W (float * Z * Z) :=
  score <- train_and_eval X y max_depth n_estimators ;;
  pure (score, max_depth, n_estimators).

(** *** Cell 16 *)

Definition mlflow_callback (study : ref) (trial : FrozenTrial) : M W unit :=
  trial_value <- match value trial with
                 | Some v => pure v
                 | None => builtin (float_ "nan") nan
                 end ;;
  run_name <- do_ (study_name study) ;;
  run <- do_ (start_run run_name) ;;
  with_ (lib_cm run)
    (print_ [VDict (params trial)] ;;;
     do_ (log_params (params trial)) ;;;
     do_ (log_metrics [("accuracy", trial_value)])) ;;;
  pure tt.

(** *** Cell 18 *)

Definition objective_mg (g : globals) (trial X y : ref) : M W float :=
  max_depth <- do_ (suggest_int trial "max_depth" 10 15) ;;
  n_estimators <- do_ (suggest_int trial "n_estimators" 200 700) ;;
  '(X_train, X_valid, y_train, y_valid) <- do_ (train_test_split X y 77) ;;
  do_ (import_from "cuml.dask.ensemble" "RandomForestClassifier") ;;;
  classifier <- do_ (dask_RandomForestClassifier max_depth n_estimators) ;;
  X_train_dask <- do_ (from_cudf X_train 2) ;;
  X_valid_dask <- do_ (from_cudf X_valid 2) ;;
  y_train_dask <- do_ (from_cudf y_train 2) ;;
  y_valid_dask <- do_ (from_cudf y_valid 2) ;;
  '(X_train_dask, X_valid_dask, y_train_dask, y_valid_dask) <-
     do_ (persist_across_workers (c g)
            [X_train_dask; X_valid_dask; y_train_dask; y_valid_dask]
            (workers g)) ;;
  do_ (fit classifier X_train_dask y_train_dask) ;;;
  y_pred <- do_ (predict classifier X_valid_dask) ;;
  y_pred_local <- do_ (compute y_pred) ;;
  score <- do_ (accuracy_score y_valid y_pred_local) ;;
  pure score.

(** *** The cells that run something *)

(** Cells 3 and 4: the cluster, its worker count, and the data.  (The last
    line of cell 3 only displays the client.) *)
Definition setup : M W globals :=
  cluster <- do_ (LocalCUDACluster 1 EmptyString "8002") ;;
  c <- do_ (Client cluster) ;;
  has <- do_ (has_what c) ;;
  workers <- keys_ has ;;
  n_workers <- len_ workers ;;
  df <- do_ (read_parquet INPUT_FILE) ;;
  X <- do_ (drop df ["ArrDelayBinary"] 1) ;;
  label <- do_ (getitem df "ArrDelayBinary") ;;
  y <- do_ (astype label "int32") ;;
  pure (Globals c workers n_workers 8 X y).

Section Cells.

Variable g : globals.

(** Cell 6. *)
Definition cell_6 : M W unit :=
  score <- train_and_eval (X g) (y g) 16 100 ;;
  print_ [VStr "Score with default parameters : "; VFloat score].

(** Cell 8 defines [run_study]; its default sampler is built when the [def]
    runs (every call below passes its own sampler). *)
Definition cell_8 : M W ref := do_ TPESampler.

(** Cell 9; [study_tpe] is bound only if the block ran to its end. *)
Definition cell_9 : M W (option ref) :=
  let name := "optuna-joblib-dask-backend" in
  report <- do_ (performance_report (name ++ "-dask_report.html")) ;;
  with_ (lib_cm report)
    (sampler <- do_ TPESampler ;;
     run_study g sampler name None).

(** Cell 10. *)
Definition cell_10 : M W (option ref) :=
  let name := "optuna-joblib-loky-backend" in
  with_ (timed name)
    (sampler <- do_ TPESampler ;;
     study <- do_ (create_study sampler name ("sqlite:///_" ++ name ++ ".db")
                     "maximize" true) ;;
     pb <- do_ (parallel_backend "loky" (n_workers g) None []) ;;
     with_ (lib_cm pb)
       (do_optimize study (fun trial => objective trial (X g) (y g))
          N_TRIALS (Some (n_workers g)) None) ;;;
     pure study).

(** Cell 11. *)
Definition cell_11 : M W (option ref) :=
  let name := "optuna-simple" in
  with_ (timed "no-dask-no-joblib")
    (sampler <- do_ TPESampler ;;
     study <- do_ (create_study sampler name ("sqlite:///_" ++ name ++ ".db")
                     "maximize" true) ;;
     do_optimize study (fun trial => objective trial (X g) (y g))
       N_TRIALS None None ;;;
     pure study).

(** Cell 12. *)
Definition cell_12 (study_tpe : option ref) : M W (ref * ref) :=
  study_tpe <- bound "NameError" "study_tpe" study_tpe ;;
  df <- do_ (trials_dataframe study_tpe) ;;
  params_max_depth <- do_ (getitem df "params_max_depth") ;;
  params_n_estimators <- do_ (getitem df "params_n_estimators") ;;
  pure (params_max_depth : ref, params_n_estimators : ref).

(** Cell 14; the generator handed to [Parallel] evaluates the arguments of
    each delayed call when the library asks for the next task. *)
Definition cell_14 (params_max_depth params_n_estimators : ref) : M W (option pyval) :=
  let name := "joblib-dask-backend" in
  with_ (timed name)
    (pb <- do_ (parallel_backend "dask" (n_workers g) (Some (c g)) [X g; y g]) ;;
     blk <- with_ (lib_cm pb)
       (p <- do_ Parallel ;;
        idx <- range_ N_TRIALS ;;
        do_Parallel p
          (map (fun i =>
                  do_ delayed ;;;
                  max_depth <- do_ (getitem_int params_max_depth i) ;;
                  n_estimators <- do_ (getitem_int params_n_estimators i) ;;
                  pure (seq_call (X g) (y g) max_depth n_estimators))
               idx)) ;;
     results <- bound "NameError" "results" blk ;;
     let results := VList (map of_result results) in
     print_ [results] ;;;
     pure results).

(** Cell 15; [results] keeps the value of cell 14 if the loop body never
    runs. *)
Fixpoint cell_15_loop (params_max_depth params_n_estimators : ref)
    (idx : list Z) (results : option pyval) : M W (option pyval) :=
  match idx with
  | [] => pure results
  | i :: idx' =>
      max_depth <- do_ (getitem_int params_max_depth i) ;;
      n_estimators <- do_ (getitem_int params_n_estimators i) ;;
      r <- seq_call (X g) (y g) max_depth n_estimators ;;
      cell_15_loop params_max_depth params_n_estimators idx' (Some (of_result r))
  end.

Definition cell_15 (params_max_depth params_n_estimators : ref)
    (results : option pyval) : M W (option pyval) :=
  let name := "sequential-calls" in
  with_ (timed name)
    (idx <- range_ N_TRIALS ;;
     results <- cell_15_loop params_max_depth params_n_estimators idx results ;;
     results <- bound "NameError" "results" results ;;
     print_ [results] ;;;
     pure results).

(** Cell 17. *)
Definition cell_17 : M W ref :=
  let name := "optuna-joblib-dask-backend-mlflow-callback" in
  sampler <- do_ TPESampler ;;
  run_study g sampler name (Some [mlflow_callback]).

(** Cell 19. *)
Definition cell_19 : M W (option (option ref)) :=
  let name := "optuna-mnmg-joblib---" in
  report <- do_ (performance_report (name ++ ".html")) ;;
  with_ (lib_cm report)
    (with_ (timed name)
       (sampler <- do_ TPESampler ;;
        study <- do_ (create_study sampler name ("sqlite:///_" ++ name ++ ".db")
                        "maximize" true) ;;
        pb <- do_ (parallel_backend "dask" (n_workers g) (Some (c g)) [X g; y g]) ;;
        with_ (lib_cm pb)
          (do_optimize study (fun trial => objective_mg g trial (X g) (y g))
             N_TRIALS None None) ;;;
        pure study)).

(** Cells 6 to 19 in order. *)
Definition cells : M W unit :=
  cell_6 ;;;
  cell_8 ;;;
  study_tpe <- cell_9 ;;
  cell_10 ;;;
  cell_11 ;;;
  '(params_max_depth, params_n_estimators) <- cell_12 study_tpe ;;
  results <- cell_14 params_max_depth params_n_estimators ;;
  cell_15 params_max_depth params_n_estimators results ;;;
  cell_17 ;;;
  cell_19 ;;;
  pure tt.

End Cells.

(** The whole notebook, run from top to bottom. *)
Definition notebook : M W unit :=
  g <- setup ;;
  cells g.

End Notebook.

Arguments cm_enter {L S} _ _.
Arguments cm_exit {L S} _ _ _ _.

(** ** A small library to run the notebook on

    None of the libraries is part of the repository.  This stand-in, on which
    the theorems below are tried, answers the calls the notebook makes:
    frames are lists of integers, a study is a direction and a list of
    finished trials, the sampler always proposes the low end of the range
    and the clock advances by one at each reading. *)
Module Toy.

Record state := State {
  next : ref;
  clock : float;
  frames : list (ref * list Z);
  directions : list (ref * string);
  names : list (ref * string);
  history : list (ref * FrozenTrial);
  pending : list (string * pyval)
}.

Definition init : state := State 0%nat 0%float [] [] [] [] [].

Fixpoint lookup {A} (k : ref) (l : list (ref * A)) : option A :=
  match l with
  | [] => None
  | (k', a) :: l' => if Nat.eqb k k' then Some a else lookup k l'
  end.

Definition step (A : Type) : Type := state -> result A * state.

Definition and_then {A B} (m : step A) (k : A -> step B) : step B :=
  fun w => match m w with
           | (Ok a, w') => k a w'
           | (Raise e, w') => (Raise e, w')
           end.

Definition fail {A} (cls msg : string) : step A :=
  fun w => (Raise (Exception cls msg), w).

Definition alloc : step ref :=
  fun w => (Ok (next w),
            State (S (next w)) (clock w) (frames w) (directions w) (names w)
                  (history w) (pending w)).

Definition new_frame (d : list Z) : step ref :=
  fun w =>
    match lookup (next w) (frames w) with
    | Some _ => (Raise (Exception "MemoryError" "handle in use"), w)
    | None =>
        (Ok (next w),
         State (S (next w)) (clock w) (frames w ++ [(next w, d)]) (directions w)
               (names w) (history w) (pending w))
    end.

Definition frame_of (r : ref) : step (list Z) :=
  fun w => match lookup r (frames w) with
           | Some d => (Ok d, w)
           | None => (Raise (Exception "TypeError" "not a frame"), w)
           end.

Definition split (dX dy : list Z) : list Z * list Z * list Z * list Z :=
  let n := (List.length dX * 3 / 4)%nat in
  (firstn n dX, skipn n dX, firstn n dy, skipn n dy).

Definition tick : step float :=
  fun w => (Ok (clock w),
            State (next w) (clock w + 1)%float (frames w) (directions w) (names w)
                  (history w) (pending w)).

Definition suggest (name : string) (low high : Z) : step Z :=
  fun w =>
    if low <=? high then
      (Ok low,
       State (next w) (clock w) (frames w) (directions w) (names w) (history w)
             (pending w ++ [(name, VInt low)]))
    else (Raise (Exception "ValueError" "low is greater than high"), w).

Definition new_study (name direction : string) : step ref :=
  fun w =>
    match lookup (next w) (directions w) with
    | Some _ => (Raise (Exception "DuplicatedStudyError" name), w)
    | None =>
        (Ok (next w),
         State (S (next w)) (clock w) (frames w)
               (directions w ++ [(next w, direction)])
               (names w ++ [(next w, name)]) (history w) (pending w))
    end.

Definition trials_of (study : ref) (w : state) : list FrozenTrial :=
  map snd (filter (fun p => Nat.eqb (fst p) study) (history w)).

Definition value_leb (a b : FrozenTrial) : bool :=
  match value a, value b with
  | Some x, Some y => PrimFloat.leb x y
  | Some _, None => false
  | None, _ => true
  end.

(** The first of the best trials by value ([maximize]) of a list. *)
Fixpoint best_of (l : list FrozenTrial) : option FrozenTrial :=
  match l with
  | [] => None
  | t :: l' =>
      match best_of l' with
      | Some b => if value_leb b t then Some t else Some b
      | None => match value t with Some _ => Some t | None => None end
      end
  end.

Definition answer (c : call) : step (ret c) :=
  match c with
  | ctx_enter _ => fun w => (Ok tt, w)
  | ctx_exit _ _ => fun w => (Ok false, w)
  | import_from _ _ => fun w => (Ok tt, w)
  | time_time => tick
  | LocalCUDACluster _ _ _ => alloc
  | Client _ => alloc
  | has_what _ => fun w => (Ok [("tcp://w0", VList []); ("tcp://w1", VList [])], w)
  | performance_report _ => alloc
  | compute obj => fun w => (Ok obj, w)
  | read_parquet _ => new_frame [3; 1; 4; 1; 5; 9; 2; 6]
  | drop df _ _ => and_then (frame_of df) new_frame
  | getitem obj _ => and_then (frame_of obj) new_frame
  | getitem_int obj i =>
      and_then (frame_of obj) (fun d w =>
        match nth_error d (Z.to_nat i) with
        | Some v => (Ok v, w)
        | None => (Raise (Exception "IndexError" "out of bounds"), w)
        end)
  | astype obj _ => and_then (frame_of obj) new_frame
  | from_cudf obj _ => and_then (frame_of obj) new_frame
  | train_test_split X y _ =>
      and_then (frame_of X) (fun dX =>
      and_then (frame_of y) (fun dy =>
      let '(a, b, c, d) := split dX dy in
      and_then (new_frame a) (fun X_train =>
      and_then (new_frame b) (fun X_valid =>
      and_then (new_frame c) (fun y_train =>
      and_then (new_frame d) (fun y_valid =>
      fun w => (Ok (X_train, X_valid, y_train, y_valid), w)))))))
  | RandomForestClassifier _ _ => alloc
  | dask_RandomForestClassifier _ _ => alloc
  | fit _ _ _ => fun w => (Ok tt, w)
  | predict _ X => and_then (frame_of X) new_frame
  | accuracy_score _ _ => fun w => (Ok (clock w), w)
  | persist_across_workers _ objects _ =>
      match objects with
      | [a; b; c; d] => fun w => (Ok (a, b, c, d), w)
      | _ => fail "ValueError" "four frames expected"
      end
  | TPESampler => alloc
  | suggest_int _ name low high => suggest name low high
  | create_study _ name _ direction _ => new_study name direction
  | trials study => fun w => (Ok (trials_of study w), w)
  | best_trial study => fun w =>
      match best_of (trials_of study w) with
      | Some t =>
          if forallb (fun t' => value_leb t' t) (trials_of study w)
          then (Ok t, w)
          else (Raise (Exception "ValueError" "The values cannot be compared."), w)
      | None => (Raise (Exception "ValueError" "No trials are completed yet."), w)
      end
  | study_name study => fun w =>
      match lookup study (names w) with
      | Some n => (Ok n, w)
      | None => (Raise (Exception "KeyError" "no such study"), w)
      end
  | trials_dataframe _ => new_frame (repeat 12 20)
  | parallel_backend _ _ _ _ => alloc
  | Parallel => alloc
  | delayed => fun w => (Ok tt, w)
  | start_run _ => alloc
  | log_params _ => fun w => (Ok tt, w)
  | log_metrics _ => fun w => (Ok tt, w)
  | _ => fail "NotImplementedError" "not a library call"
  end.

(** A step on the state alone, as a computation that records nothing. *)
Definition quiet {A} (m : step A) : M state A :=
  fun w => let (r, w') := m w in Outcome r w' [].

Definition new_trial : step ref :=
  fun w => (Ok (next w),
            State (S (next w)) (clock w) (frames w) (directions w) (names w)
                  (history w) []).

Definition finish_trial (study : ref) (v : float) : step FrozenTrial :=
  fun w =>
    let t := {| number := Z.of_nat (List.length (trials_of study w));
                value := Some v;
                params := pending w |} in
    (Ok t,
     State (next w) (clock w) (frames w) (directions w) (names w)
           (history w ++ [(study, t)]) []).

(** [n] trials one after the other; an exception of the objective or of a
    callback ends the loop and is passed on. *)
Fixpoint optimize_loop (n : nat) (study : ref) (func : ref -> M state float)
    (callbacks : list (ref -> FrozenTrial -> M state unit)) : M state unit :=
  match n with
  | O => pure tt
  | S n' =>
      trial <- quiet new_trial ;;
      v <- func trial ;;
      t <- quiet (finish_trial study v) ;;
      for_each callbacks (fun cb => cb study t) ;;;
      optimize_loop n' study func callbacks
  end.

Definition optimize (study : ref) (func : ref -> M state float) (n_trials : Z)
    (n_jobs : option Z)
    (callbacks : option (list (ref -> FrozenTrial -> M state unit))) : M state unit :=
  optimize_loop (Z.to_nat n_trials) study func
    (match callbacks with Some l => l | None => [] end).

Fixpoint Parallel_run (tasks : list (M state (M state (float * Z * Z))))
    : M state (list (float * Z * Z)) :=
  match tasks with
  | [] => pure []
  | task :: tasks' =>
      job <- task ;;
      r <- job ;;
      rs <- Parallel_run tasks' ;;
      pure (r :: rs)
  end.

Definition lib : library :=
  {| world := state;
     handle := answer;
     lib_optimize := optimize;
     lib_Parallel := fun _ => Parallel_run;
     data := list Z;
     frame_data := fun w r => lookup r (frames w);
     study_direction := fun w r => lookup r (directions w) |}.

(** [w'] has every frame and every study of [w], as they are in [w]. *)
Definition extends (w w' : state) : Prop :=
  (forall x d, lookup x (frames w) = Some d -> lookup x (frames w') = Some d)
  /\ (forall s d, lookup s (directions w) = Some d ->
                  lookup s (directions w') = Some d).

Definition grows {A} (m : step A) : Prop := forall w, extends w (snd (m w)).

(** The state after cells 3 and 4, and the globals they bind. *)
Definition loaded : state := Eval vm_compute in final (setup lib init).

Definition g0 : globals :=
  Globals 1%nat ["tcp://w0"; "tcp://w1"] 2 8 3%nat 5%nat.

(** A state with one study, whose handle is 0. *)
Definition studied : state := snd (new_study "demo" "maximize" init).

(** [loaded] after a trial has proposed its two hyperparameters. *)
Definition sampled : state :=
  snd (suggest "n_estimators" 200 700 (snd (suggest "max_depth" 10 15 loaded))).

(** [loaded] after one training. *)
Definition trained : state :=
  Eval vm_compute in final (train_and_eval lib 3%nat 5%nat 16 100 loaded).

(** A trial that finished with a value and one that has none. *)
Definition complete_trial : FrozenTrial :=
  {| number := 0; value := Some 0.5%float; params := [("max_depth", VInt 10)] |}.

Definition missing_trial : FrozenTrial :=
  {| number := 0; value := None; params := [("max_depth", VInt 10)] |}.

(** The same library with a clock that stops: [time.time()] answers while
    the clock is below [limit] and raises from then on. *)
Definition tick_until (limit : float) : step float :=
  fun w =>
    if PrimFloat.ltb (clock w) limit then tick w
    else (Raise (Exception "OSError" "the clock has stopped"), w).

Definition answer_until (limit : float) (c : call) : step (ret c) :=
  match c as c' return step (ret c') with
  | time_time => tick_until limit
  | c' => answer c'
  end.

Definition lib_until (limit : float) : library :=
  {| world := state;
     handle := answer_until limit;
     lib_optimize := optimize;
     lib_Parallel := fun _ => Parallel_run;
     data := list Z;
     frame_data := fun w r => lookup r (frames w);
     study_direction := fun w r => lookup r (directions w) |}.

(** [loaded] after the trials of a study were read as a dataframe, whose
    handle is 6 and whose twenty rows all hold 12. *)
Definition replayed : state :=
  Eval vm_compute in snd (answer (trials_dataframe 0%nat) loaded).

(** What cell 14 prints on [replayed]: twenty times the same result. *)
Definition replay_results : pyval :=
  VList (repeat (VTuple [VFloat 1%float; VInt 12; VInt 12]) 20).


(** A second stand-in, with optuna's storage: a study is stored under its
    name, [create_study] with [load_if_exists=True] answers the stored
    study of that name if there is one, the best trial of a study that
    minimizes is the one of least value, and the score differs from trial to
    trial. *)
Fixpoint named (name : string) (l : list (ref * string)) : option ref :=
  match l with
  | [] => None
  | (r, n) :: l' => if String.eqb n name then Some r else named name l'
  end.

Definition open_study (name direction : string) (load_if_exists : bool) : step ref :=
  fun w =>
    match named name (names w) with
    | Some study =>
        match lookup study (directions w) with
        | Some _ =>
            if load_if_exists then (Ok study, w)
            else (Raise (Exception "DuplicatedStudyError" name), w)
        | None => (Raise (Exception "KeyError" "no such study"), w)
        end
    | None => new_study name direction w
    end.

(** The first of the trials of least value of a list. *)
Fixpoint least_of (l : list FrozenTrial) : option FrozenTrial :=
  match l with
  | [] => None
  | t :: l' =>
      match least_of l' with
      | Some b => if value_leb t b then Some t else Some b
      | None => match value t with Some _ => Some t | None => None end
      end
  end.

Definition best_in_direction (study : ref) : step FrozenTrial :=
  fun w =>
    match lookup study (directions w) with
    | Some direction =>
        if String.eqb direction "minimize" then
          match least_of (trials_of study w) with
          | Some t => (Ok t, w)
          | None => (Raise (Exception "ValueError" "No trials are completed yet."), w)
          end
        else answer (best_trial study) w
    | None => (Raise (Exception "KeyError" "no such study"), w)
    end.

(** The score of the next trial to finish: 1, 3, 2, 1, 3, 2, ... *)
Definition next_score (w : state) : float :=
  nth (Nat.modulo (List.length (history w)) 3) [1%float; 3%float; 2%float] 0%float.

Definition answer_stored (c : call) : step (ret c) :=
  match c as c' return step (ret c') with
  | create_study _ name _ direction load_if_exists =>
      open_study name direction load_if_exists
  | best_trial study => best_in_direction study
  | accuracy_score _ _ => fun w => (Ok (next_score w), w)
  | c' => answer c'
  end.

Definition lib_stored : library :=
  {| world := state;
     handle := answer_stored;
     lib_optimize := optimize;
     lib_Parallel := fun _ => Parallel_run;
     data := list Z;
     frame_data := fun w r => lookup r (frames w);
     study_direction := fun w r => lookup r (directions w) |}.

(** [loaded] with a study already stored under the name "demo", whose
    handle is 6 and which minimizes. *)
Definition stored : state := Eval vm_compute in snd (new_study "demo" "minimize" loaded).

End Toy.

(** * Properties *)

(** ** Vocabulary *)

Definition names_of (tr : list entry) : list string :=
  map (fun e => call_name (entry_call e)) tr.

Definition calls_of (tr : list entry) : list call := map entry_call tr.

(** The exception of the last call of a record that raised, if one did. *)
Fixpoint last_raising (tr : list entry) : option exn :=
  match tr with
  | [] => None
  | e :: tr' =>
      match last_raising tr' with
      | Some x => Some x
      | None => entry_raised e
      end
  end.

(** What was printed, in order: the arguments of each [print], also of those
    made inside a library function that called back. *)
Fixpoint printed_by (e : entry) : list (list pyval) :=
  match e with
  | Entry c _ sub =>
      (match c with print args => [args] | _ => [] end
         ++ flat_map printed_by sub)%list
  end.

Definition printed (tr : list entry) : list (list pyval) := flat_map printed_by tr.

(** Put a call in front of the record of what follows it. *)
Definition after {W A} (e : entry) (o : outcome W A) : outcome W A :=
  Outcome (res o) (final o) (e :: trace o).

(** The properties of single calls that the theorems below follow through
    the notebook. *)
Definition reads_input_file_and_own_storage (c : call) : Prop :=
  match c with
  | read_parquet path => path = INPUT_FILE
  | create_study _ name storage _ _ => storage = storage_url name
  | _ => True
  end.

Definition jobs_are (n : Z) (c : call) : Prop :=
  match c with
  | parallel_backend _ n_jobs _ _ => n_jobs = n
  | _ => True
  end.

Definition asks_no_worker_count (c : call) : Prop :=
  match c with
  | has_what _ => False
  | _ => True
  end.

Definition sets_no_backend (c : call) : Prop :=
  match c with
  | has_what _ => False
  | parallel_backend _ _ _ _ => False
  | _ => True
  end.

Definition two_partitions (c : call) : Prop :=
  match c with
  | from_cudf _ npartitions => npartitions = 2
  | _ => True
  end.

Definition seed_is_77 (c : call) : Prop :=
  match c with
  | train_test_split _ _ random_state => random_state = 77
  | _ => True
  end.

Definition splits_only (X y : ref) (c : call) : Prop :=
  match c with
  | train_test_split X' y' _ => X' = X /\ y' = y
  | _ => True
  end.

(** The calls of each function, by name, in the order of its source. *)
Definition train_and_eval_calls : list string :=
  ["train_test_split"; "cuml.ensemble.RandomForestClassifier"; "fit"; "predict";
   "accuracy_score"].

Definition objective_calls : list string :=
  "suggest_int" :: "suggest_int" :: train_and_eval_calls.

Definition objective_mg_calls : list string :=
  ["suggest_int"; "suggest_int"; "train_test_split"; "import";
   "cuml.dask.ensemble.RandomForestClassifier";
   "dask_cudf.from_cudf"; "dask_cudf.from_cudf"; "dask_cudf.from_cudf";
   "dask_cudf.from_cudf"; "dask_utils.persist_across_workers";
   "fit"; "predict"; "compute"; "accuracy_score"].

Definition mlflow_callback_calls : list string :=
  ["study_name"; "mlflow.start_run"; "__enter__"; "print"; "mlflow.log_params";
   "mlflow.log_metrics"; "__exit__"].

Definition is_from_cudf (c : call) : bool :=
  match c with from_cudf _ _ => true | _ => false end.

Definition is_has_what (c : call) : bool :=
  match c with has_what _ => true | _ => false end.

Definition is_read_parquet (c : call) : bool :=
  match c with read_parquet _ => true | _ => false end.

Section Vocabulary.

Variable L : library.
Local Abbreviation W := (world L).

(** Every call that [m] makes itself satisfies [P]. *)
Definition always {A} (P : call -> Prop) (m : M W A) : Prop :=
  forall w, Forall (fun e => P (entry_call e)) (trace (m w)).

(** [m] keeps [P] true of the libraries' state. *)
Definition preserves {A} (P : W -> Prop) (m : M W A) : Prop :=
  forall w, P w -> P (final (m w)).

(** [m] ends the way its calls end: it raises exactly when one of its calls
    raised, and then what it raises is what the last such call raised; a
    normal result also satisfies [Q]. *)
Definition uncaught {A} (Q : A -> Prop) (m : M W A) : Prop :=
  forall w,
    raised (res (m w)) = last_raising (trace (m w))
    /\ match res (m w) with Ok a => Q a | Raise _ => True end.

Definition anything {A} (_ : A) : Prop := True.

(** [m] makes the calls named [fixed], in that order, whatever it is run on:
    all of them when it returns, the first few when one of them raises. *)
Definition straight_line {A} (fixed : list string) (m : M W A) : Prop :=
  forall w,
    (exists n, names_of (trace (m w)) = firstn n fixed)
    /\ (forall a, res (m w) = Ok a -> names_of (trace (m w)) = fixed).

(** *** What the libraries promise *)

(** optuna: [suggest_int] answers within the closed range it was given. *)
Definition suggest_int_in_range : Prop :=
  forall trial name low high w v w',
    handle L (suggest_int trial name low high) w = (Ok v, w') -> low <= v <= high.

(** joblib, mlflow, dask: the [__exit__] of their context managers never
    swallows the exception that ended the block. *)
Definition exit_never_swallows : Prop :=
  forall cm e w, fst (handle L (ctx_exit cm (Some e)) w) <> Ok true.

(** [time.time()] does not raise. *)
Definition clock_always_reads : Prop :=
  forall w, exists t w', handle L time_time w = (Ok t, w').

(** No library call changes [P], and the two library functions that call
    back keep it as long as what they call back does. *)
Definition respected (P : W -> Prop) : Prop :=
  (forall c w, P w -> P (snd (handle L c w)))
  /\ (forall study func n_trials n_jobs callbacks,
         (forall trial, preserves P (func trial)) ->
         (forall cbs cb s t, callbacks = Some cbs -> In cb cbs -> preserves P (cb s t)) ->
         preserves P (lib_optimize L study func n_trials n_jobs callbacks))
  /\ (forall p tasks,
         (forall task, In task tasks ->
            forall w, P w ->
              P (final (task w))
              /\ match res (task w) with
                 | Ok job => preserves P job
                 | Raise _ => True
                 end) ->
         preserves P (lib_Parallel L p tasks)).

(** cudf, cuml: a dataframe or series, once built, keeps its contents. *)
Definition frames_are_immutable : Prop :=
  forall x d, respected (fun w => frame_data L w x = Some d).

(** optuna: a study keeps the direction it was created with. *)
Definition direction_is_fixed : Prop :=
  forall study d, respected (fun w => study_direction L w study = Some d).

(** optuna: a study that [create_study] makes gets the direction asked for.
    With [load_if_exists=True] the call may instead answer a study that was
    already stored under the name; such a study had a direction before the
    call and, its direction being fixed, keeps it whatever was asked. *)
Definition new_study_gets_its_direction : Prop :=
  forall sampler name storage direction load_if_exists w study w',
    handle L (create_study sampler name storage direction load_if_exists) w
      = (Ok study, w') ->
    study_direction L w study = None ->
    study_direction L w' study = Some direction.

(** optuna: reading the trials or the best trial of a study changes nothing
    that is read from a study; asked again, it answers the same. *)
Definition reads_are_repeatable : Prop :=
  (forall study w ts w',
      handle L (trials study) w = (Ok ts, w') ->
      fst (handle L (trials study) w') = Ok ts)
  /\ (forall study s w ts,
         fst (handle L (trials study) w) = Ok ts ->
         fst (handle L (trials study) (snd (handle L (best_trial s) w))) = Ok ts)
  /\ (forall study w t w',
         handle L (best_trial study) w = (Ok t, w') ->
         fst (handle L (best_trial study) w') = Ok t).

(** optuna: the best trial of a study that maximizes is one of its trials,
    and no trial of the study has a greater value. *)
Definition best_trial_is_greatest : Prop :=
  forall study w ts w1 t w2,
    study_direction L w study = Some "maximize" ->
    handle L (trials study) w = (Ok ts, w1) ->
    handle L (best_trial study) w1 = (Ok t, w2) ->
    In t ts
    /\ forall t' v', In t' ts -> value t' = Some v' ->
         exists v, value t = Some v /\ PrimFloat.leb v' v = true.

(** cuml: with a seed, the split depends on the contents of the two frames
    and on the seed only. *)
Definition split_is_seeded : Prop :=
  forall X1 y1 X2 y2 seed w1 w2 p1 p2 w1' w2',
    frame_data L w1 X1 = frame_data L w2 X2 ->
    frame_data L w1 y1 = frame_data L w2 y2 ->
    handle L (train_test_split X1 y1 seed) w1 = (Ok p1, w1') ->
    handle L (train_test_split X2 y2 seed) w2 = (Ok p2, w2') ->
    let '(X_train1, X_valid1, y_train1, y_valid1) := p1 in
    let '(X_train2, X_valid2, y_train2, y_valid2) := p2 in
    frame_data L w1' X_train1 = frame_data L w2' X_train2
    /\ frame_data L w1' X_valid1 = frame_data L w2' X_valid2
    /\ frame_data L w1' y_train1 = frame_data L w2' y_train2
    /\ frame_data L w1' y_valid1 = frame_data L w2' y_valid2.

End Vocabulary.

(** ** The report of a study, the studies of a run, the managers in use *)

(** What the notebook's own [print]s were given, in order; the prints made
    inside a library function that called back are not among them. *)
Definition shown (tr : list entry) : list (list pyval) :=
  flat_map (fun e => match entry_call e with print args => [args] | _ => [] end) tr.

(** The line that [timed] prints. *)
Definition timing_line (name : string) (t0 t1 : float) : list pyval :=
  [VFormat "..%-24s:  %8.4f" [VStr name; VFloat (t1 - t0)%float]].

(** The lines that [run_study] prints after its block. *)
Definition count_line (ts : list FrozenTrial) : list pyval :=
  [VStr "Number of finished trials: "; VInt (Z.of_nat (List.length ts))].

Definition value_line (t : FrozenTrial) : list pyval :=
  [VStr "  Value: "; of_option_float (value t)].

Definition param_line (kv : string * pyval) : list pyval :=
  [VFormat "    {}: {}" [VStr (fst kv); snd kv]].

(** The calls of [run_study], by name, up to its loop over the parameters of
    the best trial. *)
Definition run_study_calls : list string :=
  ["time.time"; "optuna.create_study"; "parallel_backend"; "__enter__"; "optimize";
   "__exit__"; "time.time"; "print"; "trials"; "len"; "print"; "print";
   "best_trial"; "print"; "print"; "items"].

(** The library context managers in use after the calls of [tr], the
    innermost first, given those in use before; [None] if a manager is left
    that is not the innermost one in use.  A manager is in use once its
    [__enter__] has returned, and until its [__exit__] is called. *)
Fixpoint managers (tr : list entry) (open : list ref) : option (list ref) :=
  match tr with
  | [] => Some open
  | e :: tr' =>
      match entry_call e with
      | ctx_enter cm =>
          match entry_raised e with
          | None => managers tr' (cm :: open)
          | Some _ => managers tr' open
          end
      | ctx_exit cm _ =>
          match open with
          | top :: rest => if Nat.eqb cm top then managers tr' rest else None
          | [] => None
          end
      | _ => managers tr' open
      end
  end.

Definition is_manager_call (c : call) : bool :=
  match c with
  | ctx_enter _ => true
  | ctx_exit _ _ => true
  | _ => false
  end.

(** [m] leaves every manager it entered, innermost first, and no other. *)
Definition balanced (L : library) {A} (m : M (world L) A) : Prop :=
  forall w open, managers (trace (m w)) open = Some open.

(** The elements read from a column by position, [column[i]], in order. *)
Definition indices_read (tr : list entry) : list (ref * Z) :=
  flat_map (fun e => match entry_call e with
                     | getitem_int obj i => [(obj, i)]
                     | _ => []
                     end) tr.

(** The calls of one round of the sequential loop of cell 15. *)
Definition round_calls : list string :=
  "__getitem__" :: "__getitem__" :: train_and_eval_calls.

(** The names, and the storages, of the studies that a run asked optuna to
    create, in order. *)
Definition studies_created (tr : list entry) : list string :=
  flat_map (fun e => match entry_call e with
                     | create_study _ name _ _ _ => [name]
                     | _ => []
                     end) tr.

Definition storages_used (tr : list entry) : list string :=
  flat_map (fun e => match entry_call e with
                     | create_study _ _ storage _ _ => [storage]
                     | _ => []
                     end) tr.

(** The study names of cells 9, 10, 11, 17 and 19. *)
Definition notebook_studies : list string :=
  ["optuna-joblib-dask-backend"; "optuna-joblib-loky-backend"; "optuna-simple";
   "optuna-joblib-dask-backend-mlflow-callback"; "optuna-mnmg-joblib---"].

(** [s] is [l] with some of its elements left out. *)
Inductive subsequence {A : Type} : list A -> list A -> Prop :=
| subsequence_nil : subsequence [] []
| subsequence_skip (a : A) (s l : list A) : subsequence s l -> subsequence s (a :: l)
| subsequence_take (a : A) (s l : list A) : subsequence s l -> subsequence (a :: s) (a :: l).

Definition no_study (c : call) : Prop :=
  match c with
  | create_study _ _ _ _ _ => False
  | _ => True
  end.

(** How every study of the notebook is set up and run. *)
Definition maximizes_over_n_trials (n_workers : Z) (c : call) : Prop :=
  match c with
  | create_study _ _ _ direction load_if_exists =>
      direction = "maximize" /\ load_if_exists = true
  | optimize _ n_trials n_jobs _ =>
      n_trials = N_TRIALS /\ (n_jobs = None \/ n_jobs = Some n_workers)
  | range n => n = N_TRIALS
  | _ => True
  end.

(** The studies that [m] asks for are among [names], in that order, each at
    most once. *)
Definition creates_among (L : library) {A} (names : list string) (m : M (world L) A)
    : Prop :=
  forall w, subsequence (studies_created (trace (m w))) names.

(** A call that reads neither a study's trials as a dataframe nor an element
    of a column. *)
Definition replays_nothing (c : call) : Prop :=
  match c with
  | trials_dataframe _ => False
  | getitem_int _ _ => False
  | _ => True
  end.

(** A call that reads an element of no column but the two given. *)
Definition reads_only (params_max_depth params_n_estimators : ref) (c : call) : Prop :=
  match c with
  | trials_dataframe _ => False
  | getitem_int column _ => column = params_max_depth \/ column = params_n_estimators
  | _ => True
  end.

(** ** Running one call *)

Section Running.

Variable L : library.
Local Abbreviation W := (world L).

Lemma bind_pure {A B} (a : A) (k : A -> M W B) (w : W) :
  bind (pure a) k w = k a w.
Proof. unfold bind, pure; simpl. destruct (k a w); reflexivity. Qed.

Lemma bind_assoc {A B C} (m : M W A) (k : A -> M W B) (h : B -> M W C) (w : W) :
  bind (bind m k) h w = bind m (fun a => bind (k a) h) w.
Proof.
  unfold bind; simpl. destruct (res (m w)); simpl; [|reflexivity].
  destruct (res (k a (final (m w)))); simpl; rewrite ?app_assoc; reflexivity.
Qed.

Lemma bind_do {B} (c : call) (k : ret c -> M W B) (w : W) :
  bind (do_ L c) k w =
  match handle L c w with
  | (Ok a, w') => after (Entry c (Ok a) []) (k a w')
  | (Raise e, w') => Outcome (Raise e) w' [Entry c (Raise e) []]
  end.
Proof. unfold bind, do_. destruct (handle L c w) as [[a|e] w']; reflexivity. Qed.

Lemma bind_builtin {B} (c : call) (v : ret c) (k : ret c -> M W B) (w : W) :
  bind (builtin L c v) k w = after (Entry c (Ok v) []) (k v w).
Proof. reflexivity. Qed.

Lemma bind_run {A B} (m : M W A) (k : A -> M W B) (w : W) :
  bind m k w =
  match res (m w) with
  | Ok a => Outcome (res (k a (final (m w)))) (final (k a (final (m w))))
                    (trace (m w) ++ trace (k a (final (m w))))
  | Raise e => Outcome (Raise e) (final (m w)) (trace (m w))
  end.
Proof. reflexivity. Qed.

Lemma bind_ext {A B} (m : M W A) (k k' : A -> M W B) (w : W) :
  (forall a w', k a w' = k' a w') -> bind m k w = bind m k' w.
Proof. intros H. unfold bind. destruct (res (m w)); [rewrite H|]; reflexivity. Qed.

Lemma do_run (c : call) (w : W) (r : result (ret c)) (w' : W) :
  handle L c w = (r, w') -> do_ L c w = Outcome r w' [Entry c r []].
Proof. intros E. unfold do_. rewrite E. reflexivity. Qed.

(** The [with] statement, step by step. *)
Lemma with_run {S A} (cm : context_manager L S) (body : M W A) (w : W) :
  with_ L cm body w =
  let oe := cm_enter cm w in
  match res oe with
  | Raise e => Outcome (Raise e) (final oe) (trace oe)
  | Ok s =>
      let ob := body (final oe) in
      match res ob with
      | Ok a =>
          let ox := cm_exit cm s None (final ob) in
          Outcome (match res ox with Ok _ => Ok (Some a) | Raise e => Raise e end)
                  (final ox) (trace oe ++ trace ob ++ trace ox)
      | Raise e =>
          let ox := cm_exit cm s (Some e) (final ob) in
          Outcome (match res ox with
                   | Ok true => Ok None
                   | Ok false => Raise e
                   | Raise e' => Raise e'
                   end)
                  (final ox) (trace oe ++ trace ob ++ trace ox)
      end
  end.
Proof.
  unfold with_, bind, attempt, pure, raise. cbv zeta.
  destruct (cm_enter cm w) as [[s|e] we tre]; cbn [res final trace]; [|reflexivity].
  destruct (body we) as [[a|e] wb trb]; cbn [res final trace].
  - destruct (cm_exit cm s None wb) as [[b|e] wx trx]; cbn [res final trace];
      rewrite ?app_nil_r; reflexivity.
  - destruct (cm_exit cm s (Some e) wb) as [[[|]|e'] wx trx]; cbn [res final trace];
      rewrite ?app_nil_r; reflexivity.
Qed.

End Running.

(** Answer the next call of the computation that the goal runs: a builtin
    returns, a library call returns or raises, a library function that calls
    back ends one way or the other. *)
Ltac answer_call L c w :=
  let a := fresh "a" in
  let e := fresh "e" in
  let w' := fresh "w" in
  let E := fresh "E" in
  destruct (handle L c w) as [[a|e] w'] eqn:E; cbn [ret] in *;
  repeat match goal with p : (_ * _)%type |- _ => destruct p end.

Ltac next_call :=
  match goal with
  | |- context [bind (bind _ _) _ _] => rewrite !bind_assoc
  | |- context [bind (pure _) _ _] => rewrite !bind_pure
  | |- context [bound _ _ _ (Some _)] => cbn [bound]
  | |- context [print_ _ _] => unfold print_
  | |- context [bind (builtin ?L ?c ?v) ?k ?w] =>
      is_var w;
      change (bind (builtin L c v) k w) with (after (Entry c (Ok v) []) (k v w))
  | |- context [bind (do_ ?L ?c) ?k ?w] =>
      is_var w;
      let Hb := fresh "Hb" in
      pose proof (bind_do L c k w) as Hb;
      cbn [ret] in *; rewrite Hb; clear Hb;
      answer_call L c w
  | |- context [bind (with_ ?L ?cm ?body) ?k ?w] =>
      is_var w;
      rewrite (bind_run L (with_ L cm body) k w), !(with_run L cm body w);
      cbn [cm_enter cm_exit lib_cm timed contextmanager]; cbv zeta
  | |- context [bind (do_optimize ?L ?s ?f ?n ?j ?cbs) ?k ?w] =>
      is_var w;
      rewrite (bind_run L (do_optimize L s f n j cbs) k w)
  | |- context [with_ ?L ?cm ?body ?w] =>
      is_var w;
      rewrite !(with_run L cm body w);
      cbn [cm_enter cm_exit lib_cm timed contextmanager]; cbv zeta
  | |- context [do_ ?L ?c ?w] =>
      is_var w;
      let a := fresh "a" in
      let e := fresh "e" in
      let w' := fresh "w" in
      let E := fresh "E" in
      destruct (handle L c w) as [[a|e] w'] eqn:E;
      [ rewrite !(do_run L c w (Ok a) w' E) | rewrite !(do_run L c w (Raise e) w' E) ];
      cbn [ret] in *;
      repeat match goal with p : (_ * _)%type |- _ => destruct p end
  | |- context [do_optimize ?L ?s ?f ?n ?j ?cbs ?w] =>
      is_var w;
      let r := fresh "r" in
      let w' := fresh "w" in
      let tr := fresh "sub" in
      let E := fresh "E" in
      unfold do_optimize;
      destruct (lib_optimize L s f n j cbs w) as [[r|r] w' tr] eqn:E
  | |- context [if ?b then _ else _] => is_var b; destruct b
  | |- context [bind (for_each ?l ?f) ?k ?w] =>
      is_var w;
      let r := fresh "r" in
      let w' := fresh "w" in
      let tr := fresh "tr" in
      let E := fresh "E" in
      rewrite (bind_run _ (for_each l f) k w);
      destruct (for_each l f w) as [[r|r] w' tr] eqn:E
  end;
  cbn [res final trace after app pure raise].

Ltac next_calls := repeat (next_call; try discriminate).

Section Wrappers.

Variable L : library.
Local Abbreviation W := (world L).

(** C7.  [seq_call] runs [train_and_eval] on its arguments and returns its
    score together with the two parameters it was given, raising whatever
    [train_and_eval] raises; the objective's score is the score of
    [seq_call] at the two parameters the trial proposed. *)
Theorem seq_call_echoes_parameters :
  (forall X y max_depth n_estimators (w : W),
      let o := train_and_eval L X y max_depth n_estimators w in
      seq_call L X y max_depth n_estimators w =
      Outcome (match res o with
               | Ok score => Ok (score, max_depth, n_estimators)
               | Raise e => Raise e
               end) (final o) (trace o))
  /\ (forall trial X y (w : W),
         objective L trial X y w =
         (max_depth <- do_ L (suggest_int trial "max_depth" 10 15) ;;
          n_estimators <- do_ L (suggest_int trial "n_estimators" 200 700) ;;
          r <- seq_call L X y max_depth n_estimators ;;
          pure (fst (fst r))) w).
Proof.
  split.
  - intros X y md ne w o. unfold seq_call, bind, pure. fold o.
    destruct (res o); simpl; rewrite ?app_nil_r; reflexivity.
  - intros trial X y w. unfold objective.
    apply bind_ext; intros md w1. apply bind_ext; intros ne w2.
    unfold seq_call. rewrite bind_assoc. apply bind_ext; intros s w3.
    rewrite bind_pure. reflexivity.
Qed.

End Wrappers.

(** ** What every call of a computation satisfies *)

Section Always.

Variable L : library.
Local Abbreviation W := (world L).
Variable P : call -> Prop.

Lemma always_pure {A} (a : A) : always L P (pure a).
Proof. intros w. constructor. Qed.

Lemma always_raise {A} (e : exn) : always L P (@raise W A e).
Proof. intros w. constructor. Qed.

Lemma always_bind {A B} (m : M W A) (k : A -> M W B) :
  always L P m -> (forall a, always L P (k a)) -> always L P (bind m k).
Proof.
  intros Hm Hk w. unfold bind. specialize (Hm w).
  destruct (res (m w)); simpl; [|assumption].
  apply Forall_app. split; [assumption | apply Hk].
Qed.

Lemma always_do (c : call) : P c -> always L P (do_ L c).
Proof.
  intros Hc w. unfold do_. destruct (handle L c w). simpl.
  constructor; [exact Hc | constructor].
Qed.

Lemma always_builtin (c : call) (v : ret c) : P c -> always L P (builtin L c v).
Proof. intros Hc w. simpl. constructor; [exact Hc | constructor]. Qed.

Lemma always_attempt {A} (m : M W A) : always L P m -> always L P (attempt m).
Proof. intros Hm w. apply Hm. Qed.

Lemma always_bound {A} (cls name : string) (v : option A) :
  always L P (bound L cls name v).
Proof. destruct v; [apply always_pure | apply always_raise]. Qed.

Lemma always_with {S A} (cm : context_manager L S) (body : M W A) :
  always L P (cm_enter cm) ->
  (forall s exc, always L P (cm_exit cm s exc)) ->
  always L P body ->
  always L P (with_ L cm body).
Proof.
  intros He Hx Hb. unfold with_.
  apply always_bind; [assumption | intros s].
  apply always_bind; [apply always_attempt; assumption | intros [a|e]].
  - apply always_bind; [apply Hx | intros _; apply always_pure].
  - apply always_bind; [apply Hx | intros [|]; [apply always_pure | apply always_raise]].
Qed.

Lemma always_lib_cm {A} (cm : ref) (body : M W A) :
  P (ctx_enter cm) -> (forall exc, P (ctx_exit cm exc)) ->
  always L P body ->
  always L P (with_ L (lib_cm L cm) body).
Proof.
  intros He Hx Hb. apply always_with; simpl; [| intros s exc |];
    [apply (always_do (ctx_enter cm)), He | apply (always_do (ctx_exit cm exc)), Hx
    | exact Hb].
Qed.

Lemma always_timed {A} (name : string) (body : M W A) :
  P time_time -> (forall args, P (print args)) ->
  always L P body ->
  always L P (with_ L (timed L name) body).
Proof.
  intros Ht Hp Hb. apply always_with; simpl; [apply (always_do time_time), Ht | | exact Hb].
  intros t0 [e|].
  - apply always_pure.
  - apply always_bind; [|intros; apply always_pure].
    apply always_bind; [apply (always_do time_time), Ht | intros t1].
    apply (always_builtin (print _) tt), Hp.
Qed.

Lemma always_for_each {A} (l : list A) (body : A -> M W unit) :
  (forall a, always L P (body a)) -> always L P (for_each l body).
Proof.
  intros Hb. induction l as [|a l IH]; simpl.
  - apply always_pure.
  - apply always_bind; [apply Hb | intros _; exact IH].
Qed.

Lemma always_do_optimize study func n_trials n_jobs callbacks :
  P (optimize study n_trials n_jobs (option_map (@List.length _) callbacks)) ->
  always L P (do_optimize L study func n_trials n_jobs callbacks).
Proof. intros Hc w. simpl. constructor; [exact Hc | constructor]. Qed.

Lemma always_do_Parallel p tasks :
  P (Parallel_call p) -> always L P (do_Parallel L p tasks).
Proof. intros Hc w. simpl. constructor; [exact Hc | constructor]. Qed.

End Always.

(** Follow a property of calls through a computation. *)
Ltac walk_step :=
  match goal with
  | |- always _ _ (pure _) => apply always_pure
  | |- always _ _ (raise _) => apply always_raise
  | |- always _ _ (bound _ _ _ _) => apply always_bound
  | |- always ?L ?P (do_ _ ?c) => apply (always_do L P c)
  | |- always ?L ?P (builtin _ ?c ?v) => apply (always_builtin L P c v)
  | |- always _ _ (do_optimize _ _ _ _ _ _) => apply always_do_optimize
  | |- always _ _ (do_Parallel _ _ _) => apply always_do_Parallel
  | |- always _ _ (with_ _ (timed _ _) _) => apply always_timed
  | |- always _ _ (with_ _ (lib_cm _ _) _) => apply always_lib_cm
  | |- always _ _ (for_each _ _) => apply always_for_each
  | |- always _ _ (bind _ _) => apply always_bind
  | |- always _ _ (match ?x with _ => _ end) => destruct x
  | |- forall _, _ => intro
  | |- True => exact I
  | |- _ = _ => reflexivity
  | |- ?P ?c => match type of c with call => progress hnf end
  end.

Ltac walk := repeat walk_step.

Ltac open_notebook :=
  unfold notebook, cells, setup, cell_6, cell_8, cell_9, cell_10, cell_11, cell_12,
    cell_14, cell_15, cell_17, cell_19, run_study, mlflow_callback, objective_mg,
    objective, seq_call, train_and_eval, print_, len_, items_, keys_, format_, range_
    in *.

Section Paths.

Variable L : library.
Local Abbreviation W := (world L).

Lemma storage_url_injective (n1 n2 : string) :
  storage_url n1 = storage_url n2 -> n1 = n2.
Proof.
  unfold storage_url. intros H. simpl in H.
  repeat match type of H with String _ _ = String _ _ => injection H as H end.
  revert n2 H. induction n1 as [|a n1 IH]; intros [|b n2] H; simpl in H.
  - reflexivity.
  - exfalso. injection H as H1 H2. subst b.
    destruct n2 as [|b2 [|b3 [|b4 n2]]]; simpl in H2; try discriminate;
      destruct n2; discriminate.
  - exfalso. injection H as H1 H2. subst a.
    destruct n1 as [|b2 [|b3 [|b4 n1]]]; simpl in H2; try discriminate;
      destruct n1; discriminate.
  - injection H as H1 H2. subst b. f_equal. apply IH, H2.
Qed.

Lemma loop_15_always (P : call -> Prop) g pmd pne idx results :
  (forall o i, P (getitem_int o i)) ->
  (forall X y md ne, always L P (train_and_eval L X y md ne)) ->
  always L P (cell_15_loop L g pmd pne idx results).
Proof.
  intros Hg Ht. revert results. induction idx as [|i idx IH]; intros results; simpl.
  - apply always_pure.
  - unfold seq_call. walk; try apply Hg; try apply Ht. apply IH.
Qed.

Lemma train_and_eval_storage X y md ne :
  always L reads_input_file_and_own_storage (train_and_eval L X y md ne).
Proof. open_notebook. walk. Qed.

Lemma run_study_storage g sampler name callbacks :
  always L reads_input_file_and_own_storage (run_study L g sampler name callbacks).
Proof. open_notebook. walk. Qed.

(** C5.  In a run of the whole notebook every [read_parquet] reads
    [INPUT_FILE] and every [create_study], in [run_study] for any study name
    and in the inline cells, is given the storage
    ["sqlite:///_" ++ study_name ++ ".db"]; the functions the libraries call
    back read no file and create no study of another storage; the data is
    read once, from [INPUT_FILE]; a study that [run_study] returns was
    created with that storage; and two study names with the same storage are
    the same name. *)
Theorem fixed_input_path_and_storage_per_study :
  always L reads_input_file_and_own_storage (notebook L)
  /\ (forall g sampler name callbacks,
         always L reads_input_file_and_own_storage
           (run_study L g sampler name callbacks))
  /\ (forall g trial X y study t max_depth n_estimators,
         always L reads_input_file_and_own_storage (objective L trial X y)
         /\ always L reads_input_file_and_own_storage (objective_mg L g trial X y)
         /\ always L reads_input_file_and_own_storage (mlflow_callback L study t)
         /\ always L reads_input_file_and_own_storage
              (seq_call L X y max_depth n_estimators))
  /\ (forall w g,
         res (setup L w) = Ok g ->
         filter is_read_parquet (calls_of (trace (setup L w)))
           = [read_parquet INPUT_FILE])
  /\ (forall n1 n2, storage_url n1 = storage_url n2 -> n1 = n2).
Proof.
  split; [|split; [|split; [|split]]].
  - unfold notebook. apply always_bind; [open_notebook; walk | intros g].
    unfold cells. walk; try (open_notebook; walk).
    apply loop_15_always; [intros; exact I | apply train_and_eval_storage].
  - apply run_study_storage.
  - intros. repeat split; open_notebook; walk.
  - intros w g. open_notebook. next_calls; intros H; reflexivity.
  - apply storage_url_injective.
Qed.

Lemma train_and_eval_jobs n X y md ne :
  always L (jobs_are n) (train_and_eval L X y md ne).
Proof. open_notebook. walk. Qed.

Lemma train_and_eval_no_count X y md ne :
  always L asks_no_worker_count (train_and_eval L X y md ne).
Proof. open_notebook. walk. Qed.

(** C8.  Every [parallel_backend] of cells 6 to 19, and of [run_study], is
    given [n_jobs = n_workers]; [n_workers] is the number of workers that the
    one [has_what] of the set-up cells reported, and no later cell asks
    again; the functions the libraries call back neither set a backend nor
    ask for the workers; [objective_mg] converts with [npartitions = 2]
    whatever the globals are, and when it returns it has converted exactly
    the four frames of its split, in the order of the source. *)
Theorem concurrency_is_configuration_only :
  (forall g, always L (jobs_are (n_workers g)) (cells L g))
  /\ (forall g sampler name callbacks,
         always L (jobs_are (n_workers g)) (run_study L g sampler name callbacks))
  /\ (forall w g,
         res (setup L w) = Ok g ->
         exists has,
           In (Entry (has_what (c g)) (Ok has) []) (trace (setup L w))
           /\ filter is_has_what (calls_of (trace (setup L w))) = [has_what (c g)]
           /\ workers g = map fst has
           /\ n_workers g = Z.of_nat (List.length (workers g)))
  /\ (forall g, always L asks_no_worker_count (cells L g))
  /\ (forall g trial X y study t max_depth n_estimators,
         always L sets_no_backend (objective L trial X y)
         /\ always L sets_no_backend (objective_mg L g trial X y)
         /\ always L sets_no_backend (mlflow_callback L study t)
         /\ always L sets_no_backend (seq_call L X y max_depth n_estimators))
  /\ (forall g trial X y, always L two_partitions (objective_mg L g trial X y))
  /\ (forall g trial X y w score,
         res (objective_mg L g trial X y w) = Ok score ->
         exists X_train X_valid y_train y_valid,
           In (Entry (train_test_split X y 77)
                     (Ok (X_train, X_valid, y_train, y_valid)) [])
              (trace (objective_mg L g trial X y w))
           /\ filter is_from_cudf (calls_of (trace (objective_mg L g trial X y w)))
              = [from_cudf X_train 2; from_cudf X_valid 2;
                 from_cudf y_train 2; from_cudf y_valid 2]).
Proof.
  split; [|split; [|split; [|split; [|split; [|split]]]]].
  - intros g. unfold cells. walk; try (open_notebook; walk).
    apply loop_15_always; [intros; exact I | apply train_and_eval_jobs].
  - intros. open_notebook. walk.
  - intros w g. open_notebook. next_calls. intros H.
    injection H as <-. simpl. eauto 10.
  - intros g. unfold cells. walk; try (open_notebook; walk).
    apply loop_15_always; [intros; exact I | apply train_and_eval_no_count].
  - intros. repeat split; open_notebook; walk.
  - intros. open_notebook. walk.
  - intros g trial X y w score. open_notebook. next_calls. intros _.
    do 4 eexists. split; [|reflexivity]. simpl. tauto.
Qed.

End Paths.

(** ** The objective and the timer *)

Section Objective.

Variable L : library.
Local Abbreviation W := (world L).

Lemma bind_pure_r {A} (m : M W A) (w : W) : bind m (fun a => pure a) w = m w.
Proof.
  unfold bind, pure. destruct (m w) as [[a|e] w' tr]; simpl;
    rewrite ?app_nil_r; reflexivity.
Qed.

(** C1.  Given that [suggest_int] answers within its range: when the trial
    proposes [max_depth] and [n_estimators], the first lies in [10, 15], the
    second in [200, 700], and the objective is those two calls followed by
    [train_and_eval] on the data it was passed and on the two proposals,
    with the result, the final state and the calls of [train_and_eval] and
    nothing more; and whenever the objective returns a score, the trial did
    propose two such integers and the score is the one [train_and_eval]
    returned for them. *)
Theorem objective_samples_then_delegates :
  suggest_int_in_range L ->
  forall trial X_param y_param (w : W),
    (forall max_depth w1 n_estimators w2,
        handle L (suggest_int trial "max_depth" 10 15) w = (Ok max_depth, w1) ->
        handle L (suggest_int trial "n_estimators" 200 700) w1 = (Ok n_estimators, w2) ->
        10 <= max_depth <= 15
        /\ 200 <= n_estimators <= 700
        /\ objective L trial X_param y_param w =
           after (Entry (suggest_int trial "max_depth" 10 15) (Ok max_depth) [])
             (after (Entry (suggest_int trial "n_estimators" 200 700)
                           (Ok n_estimators) [])
                (train_and_eval L X_param y_param max_depth n_estimators w2)))
    /\ (forall score,
           res (objective L trial X_param y_param w) = Ok score ->
           exists max_depth w1 n_estimators w2,
             handle L (suggest_int trial "max_depth" 10 15) w = (Ok max_depth, w1)
             /\ handle L (suggest_int trial "n_estimators" 200 700) w1
                = (Ok n_estimators, w2)
             /\ 10 <= max_depth <= 15
             /\ 200 <= n_estimators <= 700
             /\ res (train_and_eval L X_param y_param max_depth n_estimators w2)
                = Ok score).
Proof.
  intros Hrange trial X y w. split.
  - intros md w1 ne w2 E1 E2.
    split; [exact (Hrange _ _ _ _ _ _ _ E1)|].
    split; [exact (Hrange _ _ _ _ _ _ _ E2)|].
    unfold objective.
    rewrite (bind_do L (suggest_int trial "max_depth" 10 15)), E1.
    rewrite (bind_do L (suggest_int trial "n_estimators" 200 700)), E2.
    rewrite bind_pure_r. reflexivity.
  - intros score H. unfold objective in H.
    rewrite (bind_do L (suggest_int trial "max_depth" 10 15)) in H.
    destruct (handle L (suggest_int trial "max_depth" 10 15) w)
      as [[md|e] w1] eqn:E1; [|discriminate].
    simpl in H.
    rewrite (bind_do L (suggest_int trial "n_estimators" 200 700)) in H.
    destruct (handle L (suggest_int trial "n_estimators" 200 700) w1)
      as [[ne|e] w2] eqn:E2; [|discriminate].
    simpl in H. rewrite bind_pure_r in H.
    exists md, w1, ne, w2.
    repeat split; try assumption;
      try exact (proj1 (Hrange _ _ _ _ _ _ _ E1));
      try exact (proj2 (Hrange _ _ _ _ _ _ _ E1));
      try exact (proj1 (Hrange _ _ _ _ _ _ _ E2));
      try exact (proj2 (Hrange _ _ _ _ _ _ _ E2)).
Qed.

Lemma printed_app (t1 t2 : list entry) :
  printed (t1 ++ t2) = (printed t1 ++ printed t2)%list.
Proof. unfold printed. apply flat_map_app. Qed.

Lemma timed_enter_run name (w : W) t0 w0 :
  handle L time_time w = (Ok t0, w0) ->
  cm_enter (timed L name) w = Outcome (Ok t0) w0 [Entry time_time (Ok t0) []].
Proof. intros E. exact (do_run L time_time w _ _ E). Qed.

Lemma timed_exit_run name t0 (w : W) t1 w1 :
  handle L time_time w = (Ok t1, w1) ->
  cm_exit (timed L name) t0 None w =
  Outcome (Ok false) w1
    [Entry time_time (Ok t1) [];
     Entry (print [VFormat "..%-24s:  %8.4f" [VStr name; VFloat (t1 - t0)%float]])
           (Ok tt) []].
Proof.
  intros E. simpl. unfold bind, print_, builtin, pure.
  rewrite (do_run L time_time w _ _ E). reflexivity.
Qed.

Lemma timed_exit_raising name t0 e (w : W) :
  cm_exit (timed L name) t0 (Some e) w = Outcome (Ok false) w [].
Proof. reflexivity. Qed.

Lemma timed_exit_fails name t0 (w : W) e w1 :
  handle L time_time w = (Raise e, w1) ->
  cm_exit (timed L name) t0 None w =
  Outcome (Raise e) w1 [Entry time_time (Raise e) []].
Proof.
  intros E. simpl. unfold bind, print_, builtin, pure.
  rewrite (do_run L time_time w _ _ E). reflexivity.
Qed.

(** C10.  Given that the clock can be read: [with timed(name): body] reads
    the clock and runs the body.  If the body raises, the statement raises
    the same exception, in the state the body left, having made no call and
    printed nothing after the body.  If the body returns, the statement
    reads the clock again and prints one line, the name and the difference
    of the two readings, and the body's result is the statement's. *)
Theorem timed_prints_only_after_normal_completion :
  clock_always_reads L ->
  forall (A : Type) (name : string) (body : M W A) (w : W),
    exists t0 w0,
      handle L time_time w = (Ok t0, w0)
      /\ let ob := body w0 in
         let o := with_ L (timed L name) body w in
         match res ob with
         | Raise e =>
             res o = Raise e
             /\ final o = final ob
             /\ trace o = Entry time_time (Ok t0) [] :: trace ob
             /\ printed (trace o) = printed (trace ob)
         | Ok a =>
             exists t1 w1,
               handle L time_time (final ob) = (Ok t1, w1)
               /\ res o = Ok (Some a)
               /\ final o = w1
               /\ trace o =
                  (Entry time_time (Ok t0) [] :: trace ob
                     ++ [Entry time_time (Ok t1) [];
                         Entry (print [VFormat "..%-24s:  %8.4f"
                                         [VStr name; VFloat (t1 - t0)%float]])
                               (Ok tt) []])%list
               /\ printed (trace o) =
                  (printed (trace ob)
                     ++ [[VFormat "..%-24s:  %8.4f"
                            [VStr name; VFloat (t1 - t0)%float]]])%list
         end.
Proof.
  intros Hclock A name body w.
  destruct (Hclock w) as (t0 & w0 & E0). exists t0, w0. split; [exact E0|].
  rewrite with_run, (timed_enter_run name w t0 w0 E0). cbn [res final trace].
  destruct (body w0) as [[a|e] wb trb]; cbn [res final trace].
  - destruct (Hclock wb) as (t1 & w1 & E1). exists t1, w1.
    split; [exact E1|].
    rewrite (timed_exit_run name t0 wb t1 w1 E1). cbn [res final trace].
    repeat split.
    change ([Entry time_time (Ok t0) []] ++ trb ++ ?l)%list
      with ([Entry time_time (Ok t0) []] ++ (trb ++ l))%list.
    rewrite !printed_app. simpl. reflexivity.
  - rewrite timed_exit_raising. cbn [res final trace].
    rewrite app_nil_r. repeat split.
Qed.

End Objective.

(** ** Exceptions pass through *)

Lemma last_raising_app (t1 t2 : list entry) :
  last_raising (t1 ++ t2) =
  match last_raising t2 with
  | Some e => Some e
  | None => last_raising t1
  end.
Proof.
  induction t1 as [|e t1 IH]; simpl.
  - destruct (last_raising t2); reflexivity.
  - rewrite IH. destruct (last_raising t2); reflexivity.
Qed.

Section Uncaught.

Variable L : library.
Local Abbreviation W := (world L).

Lemma uncaught_pure {A} (Q : A -> Prop) (a : A) : Q a -> uncaught L Q (pure a).
Proof. intros Ha w. split; [reflexivity | exact Ha]. Qed.

Lemma uncaught_weaken {A} (Q R : A -> Prop) (m : M W A) :
  (forall a, Q a -> R a) -> uncaught L Q m -> uncaught L R m.
Proof.
  intros HQR Hm w. destruct (Hm w) as [H1 H2]. split; [exact H1|].
  destruct (res (m w)); auto.
Qed.

Lemma uncaught_bind {A B} (Q : A -> Prop) (R : B -> Prop) (m : M W A) (k : A -> M W B) :
  uncaught L Q m -> (forall a, Q a -> uncaught L R (k a)) -> uncaught L R (bind m k).
Proof.
  intros Hm Hk w. unfold bind. destruct (Hm w) as [H1 H2].
  destruct (res (m w)) as [a|e]; cbn [res final trace] in *.
  - destruct (Hk a H2 (final (m w))) as [K1 K2].
    rewrite last_raising_app, <- K1, <- H1. split; [|exact K2].
    destruct (res (k a (final (m w)))); reflexivity.
  - split; [exact H1 | exact I].
Qed.

Lemma uncaught_do (c : call) : uncaught L anything (do_ L c).
Proof.
  intros w. unfold do_. destruct (handle L c w) as [[a|e] w'];
    split; try reflexivity; exact I.
Qed.

Lemma uncaught_builtin (c : call) (v : ret c) : uncaught L anything (builtin L c v).
Proof. intros w. split; [reflexivity | exact I]. Qed.

Lemma uncaught_do_optimize study func n_trials n_jobs callbacks :
  uncaught L anything (do_optimize L study func n_trials n_jobs callbacks).
Proof.
  intros w. unfold do_optimize. cbn [res final trace last_raising entry_raised].
  split; [|destruct (res _); exact I].
  destruct (res (lib_optimize L study func n_trials n_jobs callbacks w)); reflexivity.
Qed.

Lemma uncaught_do_Parallel p tasks : uncaught L anything (do_Parallel L p tasks).
Proof.
  intros w. unfold do_Parallel. cbn [res final trace last_raising entry_raised].
  split; [|destruct (res _); exact I].
  destruct (res (lib_Parallel L p tasks w)); reflexivity.
Qed.

Lemma uncaught_for_each {A} (l : list A) (body : A -> M W unit) :
  (forall a, uncaught L anything (body a)) -> uncaught L anything (for_each l body).
Proof.
  intros Hb. induction l as [|a l IH]; simpl.
  - apply uncaught_pure. exact I.
  - apply (uncaught_bind anything); [apply Hb | intros _ _; exact IH].
Qed.

(** A [with] block whose context manager enters and leaves only through
    calls, and never swallows, raises what its last raising call raised and
    otherwise runs to its end. *)
Lemma uncaught_with {S A} (Q : A -> Prop) (cm : context_manager L S) (body : M W A) :
  uncaught L anything (cm_enter cm) ->
  (forall s exc, uncaught L (fun b => exc <> None -> b = false) (cm_exit cm s exc)) ->
  uncaught L Q body ->
  uncaught L (fun r => exists a, r = Some a /\ Q a) (with_ L cm body).
Proof.
  intros He Hx Hb w. rewrite with_run. cbv zeta.
  destruct (He w) as [E1 _].
  destruct (res (cm_enter cm w)) as [s|e]; cbn [res final trace] in *;
    [|split; [exact E1 | exact I]].
  destruct (Hb (final (cm_enter cm w))) as [B1 B2].
  destruct (res (body (final (cm_enter cm w)))) as [a|e]; cbn [res final trace] in *.
  - destruct (Hx s None (final (body (final (cm_enter cm w))))) as [X1 _].
    rewrite !last_raising_app, <- X1, <- B1, <- E1.
    destruct (res (cm_exit cm s None _)); cbn; split; eauto.
  - destruct (Hx s (Some e) (final (body (final (cm_enter cm w))))) as [X1 X2].
    rewrite !last_raising_app, <- X1, <- B1.
    destruct (res (cm_exit cm s (Some e) _)) as [[|]|e']; cbn in *.
    + discriminate X2. discriminate.
    + split; [reflexivity | exact I].
    + split; [reflexivity | exact I].
Qed.

Lemma uncaught_lib_cm {A} (Q : A -> Prop) (cm : ref) (body : M W A) :
  exit_never_swallows L ->
  uncaught L Q body ->
  uncaught L (fun r => exists a, r = Some a /\ Q a) (with_ L (lib_cm L cm) body).
Proof.
  intros Hs Hb. apply uncaught_with; [apply (uncaught_do (ctx_enter cm)) | | exact Hb].
  intros s exc w. cbn [cm_exit lib_cm].
  destruct (uncaught_do (ctx_exit cm exc) w) as [U1 _]. split; [exact U1|].
  destruct exc as [e|].
  - specialize (Hs cm e w). unfold do_ in *.
    destruct (handle L (ctx_exit cm (Some e)) w) as [[[|]|e'] w']; cbn in *;
      try exact I; intros _; [exfalso; apply Hs|]; reflexivity.
  - destruct (res _); [intros H; exfalso; apply H; reflexivity | exact I].
Qed.

Lemma uncaught_timed {A} (Q : A -> Prop) (name : string) (body : M W A) :
  uncaught L Q body ->
  uncaught L (fun r => exists a, r = Some a /\ Q a) (with_ L (timed L name) body).
Proof.
  intros Hb. apply uncaught_with; [apply (uncaught_do time_time) | | exact Hb].
  intros t0 [e|].
  - apply uncaught_pure. reflexivity.
  - cbn [cm_exit timed contextmanager].
    apply (uncaught_bind anything); [|intros; apply uncaught_pure; reflexivity].
    apply (uncaught_bind anything); [apply (uncaught_do time_time)|].
    intros t1 _. apply uncaught_builtin.
Qed.

End Uncaught.

Ltac pass_step :=
  match goal with
  | |- uncaught _ _ (pure _) => apply uncaught_pure
  | |- uncaught ?L _ (do_ _ ?c) => apply (uncaught_do L c)
  | |- uncaught ?L _ (builtin _ ?c ?v) => apply (uncaught_builtin L c v)
  | |- uncaught _ _ (do_optimize _ _ _ _ _ _) => apply uncaught_do_optimize
  | |- uncaught _ _ (do_Parallel _ _ _) => apply uncaught_do_Parallel
  | |- uncaught _ _ (with_ _ (timed _ _) _) => apply (uncaught_timed _ anything)
  | |- uncaught _ _ (with_ _ (lib_cm _ _) _) =>
      apply (uncaught_lib_cm _ anything); [assumption|]
  | |- uncaught _ _ (for_each _ _) => apply uncaught_for_each
  | |- uncaught _ _ (bind (with_ _ _ _) _) =>
      apply (uncaught_bind _ (fun r => exists a, r = Some a /\ anything a));
      [|intros ? (? & -> & _)]
  | |- uncaught _ _ (bind _ _) => apply (uncaught_bind _ anything); [|intros ? _]
  | |- uncaught _ _ (bound _ _ _ (Some _)) => apply uncaught_pure
  | |- uncaught _ _ (match ?x with _ => _ end) => destruct x
  | |- forall _, _ => intro
  | |- anything _ => exact I
  | |- True => exact I
  end.

Ltac pass := repeat pass_step.

Section NoCatch.

Variable L : library.
Local Abbreviation W := (world L).

(** C2.  Given that the context managers of the libraries do not swallow
    exceptions: each function of the notebook ends the way its calls end.
    It raises exactly when one of the calls it makes raised, what it raises
    is then the exception of the last call that raised, and it returns a
    result only when none did.  For [timed], whatever the block: the block's
    exception is the statement's, and the statement is never cut short
    silently. *)
Theorem no_function_catches :
  exit_never_swallows L ->
  (forall X y max_depth n_estimators,
      uncaught L anything (train_and_eval L X y max_depth n_estimators))
  /\ (forall trial X y, uncaught L anything (objective L trial X y))
  /\ (forall g trial X y, uncaught L anything (objective_mg L g trial X y))
  /\ (forall g sampler name callbacks,
         uncaught L anything (run_study L g sampler name callbacks))
  /\ (forall X y max_depth n_estimators,
         uncaught L anything (seq_call L X y max_depth n_estimators))
  /\ (forall study trial, uncaught L anything (mlflow_callback L study trial))
  /\ (forall (A : Type) name (body : M W A),
         uncaught L anything body ->
         uncaught L (fun r => r <> None) (with_ L (timed L name) body)).
Proof.
  intros Hs. split; [|split; [|split; [|split; [|split; [|split]]]]]; intros.
  - open_notebook. pass.
  - open_notebook. pass.
  - open_notebook. pass.
  - open_notebook. pass.
  - open_notebook. pass.
  - open_notebook. pass.
  - apply (uncaught_weaken L (fun r => exists a, r = Some a /\ anything a)).
    + intros r (a & -> & _). discriminate.
    + apply uncaught_timed. assumption.
Qed.

End NoCatch.

(** ** Straight-line functions, and the one guard *)

Ltac find_prefix :=
  first [ exists 0%nat; reflexivity
        | exists 1%nat; reflexivity
        | exists 2%nat; reflexivity
        | exists 3%nat; reflexivity
        | exists 4%nat; reflexivity
        | exists 5%nat; reflexivity
        | exists 6%nat; reflexivity
        | exists 7%nat; reflexivity
        | exists 8%nat; reflexivity
        | exists 9%nat; reflexivity
        | exists 10%nat; reflexivity
        | exists 11%nat; reflexivity
        | exists 12%nat; reflexivity
        | exists 13%nat; reflexivity
        | exists 14%nat; reflexivity ].

Ltac straight :=
  intros w; split; [|intros ?]; open_notebook; next_calls; try intros _;
  first [reflexivity | find_prefix].

Section StraightLine.

Variable L : library.
Local Abbreviation W := (world L).

Lemma train_and_eval_straight X y md ne :
  straight_line L train_and_eval_calls (train_and_eval L X y md ne).
Proof. straight. Qed.

Lemma objective_straight trial X y :
  straight_line L objective_calls (objective L trial X y).
Proof. straight. Qed.

Lemma objective_mg_straight g trial X y :
  straight_line L objective_mg_calls (objective_mg L g trial X y).
Proof. straight. Qed.

Lemma seq_call_straight X y md ne :
  straight_line L train_and_eval_calls (seq_call L X y md ne).
Proof. straight. Qed.

(** C3, amended.  Given that the context managers of the libraries do not
    swallow exceptions: [train_and_eval], the two objectives and [seq_call]
    each make one fixed sequence of calls whatever they are run on (all of
    it when they return, its first calls when one raises), and so does
    [timed] before and after its block; [mlflow_callback] has one guard of
    its own: when it returns it has made its seven calls in order, preceded
    by a call of [float] exactly when the trial has no value, and the
    accuracy it logged is the trial's value, or NaN when there is none. *)
Theorem glue_is_straight_line_but_for_one_guard :
  exit_never_swallows L ->
  (forall X y max_depth n_estimators,
      straight_line L train_and_eval_calls (train_and_eval L X y max_depth n_estimators))
  /\ (forall trial X y, straight_line L objective_calls (objective L trial X y))
  /\ (forall g trial X y,
         straight_line L objective_mg_calls (objective_mg L g trial X y))
  /\ (forall X y max_depth n_estimators,
         straight_line L train_and_eval_calls (seq_call L X y max_depth n_estimators))
  /\ (forall name t0,
         straight_line L ["time.time"] (cm_enter (timed L name))
         /\ straight_line L ["time.time"; "print"] (cm_exit (timed L name) t0 None)
         /\ forall e, straight_line L [] (cm_exit (timed L name) t0 (Some e)))
  /\ (forall study trial w,
         res (mlflow_callback L study trial w) = Ok tt ->
         names_of (trace (mlflow_callback L study trial w))
           = (match value trial with Some _ => [] | None => ["float"] end
                ++ mlflow_callback_calls)%list
         /\ In (log_metrics [("accuracy",
                              match value trial with Some v => v | None => nan end)])
               (calls_of (trace (mlflow_callback L study trial w)))).
Proof.
  intros Hs.
  split; [|split; [|split; [|split; [|split]]]]; intros.
  - apply train_and_eval_straight.
  - apply objective_straight.
  - apply objective_mg_straight.
  - apply seq_call_straight.
  - split; [|split; [|intros e]]; intros w; cbn [cm_enter cm_exit timed contextmanager].
    + split; [|intros ?]; next_calls; try intros _; first [reflexivity | find_prefix].
    + split; [|intros ?]; open_notebook; next_calls; try intros _;
        first [reflexivity | find_prefix].
    + split; [exists 0%nat|]; reflexivity.
  - revert H. open_notebook. destruct (value trial) as [v|].
    + next_calls;
        try (exfalso;
             match goal with
             | E : handle _ (ctx_exit ?cm (Some ?e)) ?w = (Ok true, _) |- _ =>
                 apply (Hs cm e w); rewrite E; reflexivity
             end);
        intros _; split; [reflexivity | simpl; tauto].
    + next_calls;
        try (exfalso;
             match goal with
             | E : handle _ (ctx_exit ?cm (Some ?e)) ?w = (Ok true, _) |- _ =>
                 apply (Hs cm e w); rewrite E; reflexivity
             end);
        intros _; split; [reflexivity | simpl; tauto].
Qed.

End StraightLine.

(** ** What the libraries keep, the notebook keeps *)

Section Preserving.

Variable L : library.
Local Abbreviation W := (world L).
Variable P : W -> Prop.
Hypothesis HP : respected L P.

Lemma preserves_pure {A} (a : A) : preserves L P (pure a).
Proof. intros w Hw. exact Hw. Qed.

Lemma preserves_raise {A} (e : exn) : preserves L P (@raise W A e).
Proof. intros w Hw. exact Hw. Qed.

Lemma preserves_bind {A B} (m : M W A) (k : A -> M W B) :
  preserves L P m -> (forall a, preserves L P (k a)) -> preserves L P (bind m k).
Proof.
  intros Hm Hk w Hw. unfold bind. specialize (Hm w Hw).
  destruct (res (m w)); simpl; [apply Hk|]; assumption.
Qed.

Lemma preserves_do (c : call) : preserves L P (do_ L c).
Proof.
  intros w Hw. unfold do_. pose proof (proj1 HP c w Hw) as K.
  destruct (handle L c w). exact K.
Qed.

Lemma preserves_builtin (c : call) (v : ret c) : preserves L P (builtin L c v).
Proof. intros w Hw. exact Hw. Qed.

Lemma preserves_bound {A} (cls name : string) (v : option A) :
  preserves L P (bound L cls name v).
Proof. destruct v; [apply preserves_pure | apply preserves_raise]. Qed.

Lemma preserves_with {S A} (cm : context_manager L S) (body : M W A) :
  preserves L P (cm_enter cm) ->
  (forall s exc, preserves L P (cm_exit cm s exc)) ->
  preserves L P body ->
  preserves L P (with_ L cm body).
Proof.
  intros He Hx Hb w Hw. rewrite with_run. cbv zeta.
  specialize (He w Hw).
  destruct (res (cm_enter cm w)) as [s|e]; cbn [final]; [|exact He].
  specialize (Hb _ He).
  destruct (res (body (final (cm_enter cm w)))) as [a|e]; cbn [final];
    apply Hx; exact Hb.
Qed.

Lemma preserves_lib_cm {A} (cm : ref) (body : M W A) :
  preserves L P body -> preserves L P (with_ L (lib_cm L cm) body).
Proof.
  intros Hb. apply preserves_with; [| intros s exc |exact Hb].
  - exact (preserves_do (ctx_enter cm)).
  - exact (preserves_do (ctx_exit cm exc)).
Qed.

Lemma preserves_timed {A} (name : string) (body : M W A) :
  preserves L P body -> preserves L P (with_ L (timed L name) body).
Proof.
  intros Hb. apply preserves_with; [| intros t0 exc |exact Hb].
  - exact (preserves_do time_time).
  - destruct exc; cbn [cm_exit timed contextmanager]; [apply preserves_pure|].
    apply preserves_bind; [|intros; apply preserves_pure].
    apply preserves_bind; [exact (preserves_do time_time) | intros t1].
    exact (preserves_builtin (print _) tt).
Qed.

Lemma preserves_for_each {A} (l : list A) (body : A -> M W unit) :
  (forall a, preserves L P (body a)) -> preserves L P (for_each l body).
Proof.
  intros Hb. induction l as [|a l IH]; simpl.
  - apply preserves_pure.
  - apply preserves_bind; [apply Hb | intros _; exact IH].
Qed.

Lemma preserves_do_optimize study func n_trials n_jobs callbacks :
  (forall trial, preserves L P (func trial)) ->
  (forall cbs cb s t, callbacks = Some cbs -> In cb cbs -> preserves L P (cb s t)) ->
  preserves L P (do_optimize L study func n_trials n_jobs callbacks).
Proof.
  intros Hf Hc w Hw. unfold do_optimize. cbn [final].
  exact (proj1 (proj2 HP) study func n_trials n_jobs callbacks Hf Hc w Hw).
Qed.

Lemma preserves_do_Parallel p tasks :
  (forall task, In task tasks ->
     preserves L P task
     /\ forall w, match res (task w) with
                  | Ok job => preserves L P job
                  | Raise _ => True
                  end) ->
  preserves L P (do_Parallel L p tasks).
Proof.
  intros Ht w Hw. unfold do_Parallel. cbn [final].
  apply (proj2 (proj2 HP) p tasks); [|exact Hw].
  intros task Hin w' Hw'. destruct (Ht task Hin) as [T1 T2].
  split; [apply T1, Hw' | apply T2].
Qed.

End Preserving.

Ltac keep_step :=
  match goal with
  | |- preserves _ _ (pure _) => apply preserves_pure
  | |- preserves _ _ (raise _) => apply preserves_raise
  | |- preserves _ _ (bound _ _ _ _) => apply preserves_bound
  | HP : respected ?L ?P |- preserves ?L ?P (do_ _ ?c) => exact (preserves_do L P HP c)
  | |- preserves ?L ?P (builtin _ ?c ?v) => apply (preserves_builtin L P c v)
  | |- preserves _ _ (do_optimize _ _ _ _ _ _) =>
      apply preserves_do_optimize; [assumption | |]
  | |- preserves _ _ (with_ _ (timed _ _) _) => apply preserves_timed; [assumption|]
  | |- preserves _ _ (with_ _ (lib_cm _ _) _) => apply preserves_lib_cm; [assumption|]
  | |- preserves _ _ (for_each _ _) => apply preserves_for_each
  | |- preserves _ _ (bind _ _) => apply preserves_bind
  | |- preserves _ _ (match ?x with _ => _ end) => destruct x
  | |- forall _, _ => intro
  | H : None = Some _ |- _ => discriminate H
  | H : Some _ = Some _ |- _ => injection H as <-
  | H : In _ [] |- _ => destruct H
  | H : In _ (_ :: _) |- _ => destruct H as [<-|H]
  end.

Ltac keep := repeat keep_step.

Section Frames.

Variable L : library.
Local Abbreviation W := (world L).

Variable P : W -> Prop.
Hypothesis HP : respected L P.

Lemma train_and_eval_keeps X y md ne : preserves L P (train_and_eval L X y md ne).
Proof. open_notebook. keep. Qed.

Lemma objective_keeps trial X y : preserves L P (objective L trial X y).
Proof. unfold objective. keep. apply train_and_eval_keeps. Qed.

Lemma objective_mg_keeps g trial X y : preserves L P (objective_mg L g trial X y).
Proof. open_notebook. keep. Qed.

Lemma seq_call_keeps X y md ne : preserves L P (seq_call L X y md ne).
Proof. unfold seq_call. keep. apply train_and_eval_keeps. Qed.

Lemma mlflow_callback_keeps study t : preserves L P (mlflow_callback L study t).
Proof. open_notebook. keep. Qed.

Lemma run_study_keeps g sampler name callbacks :
  (forall cbs cb s t, callbacks = Some cbs -> In cb cbs -> preserves L P (cb s t)) ->
  preserves L P (run_study L g sampler name callbacks).
Proof.
  intros Hc. unfold run_study, print_, len_, items_, format_. keep;
    try apply objective_keeps.
  eapply Hc; eassumption.
Qed.

Lemma loop_15_keeps g pmd pne idx results :
  preserves L P (cell_15_loop L g pmd pne idx results).
Proof.
  revert results. induction idx as [|i idx IH]; intros results; simpl.
  - apply preserves_pure.
  - keep. apply seq_call_keeps. apply IH.
Qed.

Lemma cells_keep g : preserves L P (cells L g).
Proof.
  unfold cells, cell_6, cell_8, cell_9, cell_10, cell_11, cell_12, cell_14, cell_15,
    cell_17, cell_19, print_, len_, range_.
  keep;
    try apply train_and_eval_keeps; try apply objective_keeps;
    try apply objective_mg_keeps; try apply loop_15_keeps;
    try (apply run_study_keeps; keep; apply mlflow_callback_keeps).
  apply preserves_do_Parallel; [assumption|].
  intros task Hin. apply in_map_iff in Hin. destruct Hin as (i & <- & _).
  split.
  - keep.
  - intros w. next_calls; try exact I. apply seq_call_keeps.
Qed.

End Frames.

Section Data.

Variable L : library.
Local Abbreviation W := (world L).

(** C6.  Given that the libraries never change a frame they were handed:
    whatever a frame [x] holds before, it holds after [train_and_eval],
    after either objective, after [seq_call], after [optimize] has run any
    number of trials of the objective, after [run_study] (with callbacks
    that keep it, as [mlflow_callback] does), after any number of rounds of
    the sequential loop and after all the cells; and the frames handed to
    [train_test_split] are the very [X] and [y] the function was given. *)
Theorem frames_are_passed_unchanged :
  frames_are_immutable L ->
  forall x d,
    let same := fun w : W => frame_data L w x = Some d in
    (forall X y max_depth n_estimators,
        preserves L same (train_and_eval L X y max_depth n_estimators))
    /\ (forall trial X y, preserves L same (objective L trial X y))
    /\ (forall g trial X y, preserves L same (objective_mg L g trial X y))
    /\ (forall X y max_depth n_estimators,
           preserves L same (seq_call L X y max_depth n_estimators))
    /\ (forall study t, preserves L same (mlflow_callback L study t))
    /\ (forall study X y n_trials n_jobs,
           preserves L same
             (do_optimize L study (fun trial => objective L trial X y)
                n_trials n_jobs None))
    /\ (forall g sampler name callbacks,
           (forall cbs cb s t, callbacks = Some cbs -> In cb cbs ->
              preserves L same (cb s t)) ->
           preserves L same (run_study L g sampler name callbacks))
    /\ (forall g params_max_depth params_n_estimators idx results,
           preserves L same
             (cell_15_loop L g params_max_depth params_n_estimators idx results))
    /\ (forall g, preserves L same (cells L g))
    /\ (forall g trial X y max_depth n_estimators,
           always L (splits_only X y) (train_and_eval L X y max_depth n_estimators)
           /\ always L (splits_only X y) (objective L trial X y)
           /\ always L (splits_only X y) (objective_mg L g trial X y)
           /\ always L (splits_only X y) (seq_call L X y max_depth n_estimators)).
Proof.
  intros Hf x d same. pose proof (Hf x d) as HP. fold same in HP.
  repeat match goal with |- _ /\ _ => split end; intros.
  - apply train_and_eval_keeps, HP.
  - apply objective_keeps, HP.
  - apply objective_mg_keeps, HP.
  - apply seq_call_keeps, HP.
  - apply mlflow_callback_keeps, HP.
  - apply preserves_do_optimize; [exact HP | | discriminate].
    intros trial. apply objective_keeps, HP.
  - apply run_study_keeps; assumption.
  - apply loop_15_keeps, HP.
  - apply cells_keep, HP.
  - split; [|split; [|split]]; open_notebook; walk; split; reflexivity.
Qed.

(** C9.  Given that a seeded split depends on the contents of the two frames
    and on the seed only: every [train_test_split] of [train_and_eval] and
    of the two objectives is given the seed 77; it is the first call of
    [train_and_eval], on the frames the function was given; and in two runs
    of [train_and_eval] on frames of the same contents, in whatever states
    and with whatever hyperparameters, the four parts of the two splits have
    the same contents. *)
Theorem split_is_the_same_in_every_run :
  split_is_seeded L ->
  (forall g trial X y max_depth n_estimators,
      always L seed_is_77 (train_and_eval L X y max_depth n_estimators)
      /\ always L seed_is_77 (objective L trial X y)
      /\ always L seed_is_77 (objective_mg L g trial X y))
  /\ (forall X1 y1 max_depth1 n_estimators1 (w1 : W)
             X2 y2 max_depth2 n_estimators2 (w2 : W),
         frame_data L w1 X1 = frame_data L w2 X2 ->
         frame_data L w1 y1 = frame_data L w2 y2 ->
         exists r1 w1' r2 w2',
           handle L (train_test_split X1 y1 77) w1 = (r1, w1')
           /\ handle L (train_test_split X2 y2 77) w2 = (r2, w2')
           /\ hd_error (trace (train_and_eval L X1 y1 max_depth1 n_estimators1 w1))
              = Some (Entry (train_test_split X1 y1 77) r1 [])
           /\ hd_error (trace (train_and_eval L X2 y2 max_depth2 n_estimators2 w2))
              = Some (Entry (train_test_split X2 y2 77) r2 [])
           /\ match r1, r2 with
              | Ok (X_train1, X_valid1, y_train1, y_valid1),
                Ok (X_train2, X_valid2, y_train2, y_valid2) =>
                  frame_data L w1' X_train1 = frame_data L w2' X_train2
                  /\ frame_data L w1' X_valid1 = frame_data L w2' X_valid2
                  /\ frame_data L w1' y_train1 = frame_data L w2' y_train2
                  /\ frame_data L w1' y_valid1 = frame_data L w2' y_valid2
              | _, _ => True
              end).
Proof.
  intros Hseed. split.
  - intros. repeat split; open_notebook; walk.
  - intros X1 y1 md1 ne1 w1 X2 y2 md2 ne2 w2 HX Hy.
    destruct (handle L (train_test_split X1 y1 77) w1) as [r1 w1'] eqn:E1.
    destruct (handle L (train_test_split X2 y2 77) w2) as [r2 w2'] eqn:E2.
    exists r1, w1', r2, w2'.
    split; [reflexivity|]. split; [reflexivity|].
    split; [|split].
    + unfold train_and_eval.
      rewrite (bind_do L (train_test_split X1 y1 77)), E1.
      destruct r1; reflexivity.
    + unfold train_and_eval.
      rewrite (bind_do L (train_test_split X2 y2 77)), E2.
      destruct r2; reflexivity.
    + destruct r1 as [p1|]; [|exact I]. destruct r2 as [p2|].
      * pose proof (Hseed X1 y1 X2 y2 77 w1 w2 p1 p2 w1' w2' HX Hy E1 E2) as K.
        destruct p1 as [[[? ?] ?] ?], p2 as [[[? ?] ?] ?]. exact K.
      * destruct p1 as [[[? ?] ?] ?]. exact I.
Qed.

End Data.

(** ** The study that [run_study] returns *)

Ltac find_in :=
  cbn [In app];
  repeat first [ left; reflexivity | right | apply in_or_app; left ].

Section Loop.

Variable L : library.
Local Abbreviation W := (world L).

(** The loop over the parameters of the best trial: one [format] and one
    [print] for each, in the order of the dictionary; it cannot raise. *)
Lemma params_loop_run (kvs : list (string * pyval)) (w : W) :
  for_each kvs
    (fun kv =>
       line <- builtin L (str_format "    {}: {}" [VStr (fst kv); snd kv])
                 (VFormat "    {}: {}" [VStr (fst kv); snd kv]) ;;
       builtin L (print [line]) tt) w
  = Outcome (Ok tt) w
      (flat_map (fun kv =>
                   [Entry (str_format "    {}: {}" [VStr (fst kv); snd kv])
                          (Ok (VFormat "    {}: {}" [VStr (fst kv); snd kv])) [];
                    Entry (print (param_line kv)) (Ok tt) []])
                kvs).
Proof.
  induction kvs as [|kv kvs IH]; [reflexivity|].
  cbn [for_each flat_map]. rewrite (bind_run L), bind_builtin.
  cbn [res final trace after builtin]. rewrite IH. reflexivity.
Qed.

End Loop.

Section Study.

Variable L : library.
Local Abbreviation W := (world L).

Hypothesis created : new_study_gets_its_direction L.
Hypothesis fixed : direction_is_fixed L.
Hypothesis greatest : best_trial_is_greatest L.
Hypothesis repeatable : reads_are_repeatable L.

Lemma direction_after_call study d c (w : W) r w' :
  study_direction L w study = Some d ->
  handle L c w = (r, w') ->
  study_direction L w' study = Some d.
Proof.
  intros D E. pose proof (proj1 (fixed study d) c w D) as K.
  rewrite E in K. exact K.
Qed.

Lemma direction_after_optimize study d st X y n_trials n_jobs callbacks (w : W) r w' tr :
  (forall cbs cb s t, callbacks = Some cbs -> In cb cbs ->
     preserves L (fun w => study_direction L w study = Some d) (cb s t)) ->
  study_direction L w study = Some d ->
  lib_optimize L st (fun trial => objective L trial X y) n_trials n_jobs callbacks w
    = Outcome r w' tr ->
  study_direction L w' study = Some d.
Proof.
  intros Hc D E.
  change w' with (final (Outcome r w' tr)). rewrite <- E.
  apply (proj1 (proj2 (fixed study d))); [|exact Hc|exact D].
  intros trial. apply objective_keeps, fixed.
Qed.

(** The direction of a study from the moment [create_study] has answered to
    the two reads of the report. *)
Lemma direction_through_run_study g study d callbacks
    (w1 w2 w3 w4 w5 w6 w7 w8 : W) pb u opt sub exc b t1 ts t :
  (forall cbs cb s t, callbacks = Some cbs -> In cb cbs ->
     preserves L (fun w => study_direction L w study = Some d) (cb s t)) ->
  handle L (parallel_backend "dask" (n_workers g) (Some (c g)) [X g; y g]) w1
    = (Ok pb, w2) ->
  handle L (ctx_enter pb) w2 = (Ok u, w3) ->
  lib_optimize L study (fun trial => objective L trial (X g) (y g))
    N_TRIALS (Some (n_workers g)) callbacks w3 = Outcome opt w4 sub ->
  handle L (ctx_exit pb exc) w4 = (Ok b, w5) ->
  handle L time_time w5 = (Ok t1, w6) ->
  handle L (trials study) w6 = (Ok ts, w7) ->
  handle L (best_trial study) w7 = (Ok t, w8) ->
  study_direction L w1 study = Some d ->
  study_direction L w6 study = Some d /\ study_direction L w8 study = Some d.
Proof.
  intros Hc E1 E2 E3 E4 E5 E6 E7 D1.
  pose proof (direction_after_call _ _ _ _ _ _ D1 E1) as D2.
  pose proof (direction_after_call _ _ _ _ _ _ D2 E2) as D3.
  pose proof (direction_after_optimize _ _ _ _ _ _ _ _ _ _ _ _ Hc D3 E3) as D4.
  pose proof (direction_after_call _ _ _ _ _ _ D4 E4) as D5.
  pose proof (direction_after_call _ _ _ _ _ _ D5 E5) as D6.
  pose proof (direction_after_call _ _ _ _ _ _ D6 E6) as D7.
  pose proof (direction_after_call _ _ _ _ _ _ D7 E7) as D8.
  split; assumption.
Qed.

(** C4, amended.  Given that a study that [create_study] makes gets the
    direction asked for, that a study keeps its direction, that the best
    trial of a maximizing study is one of its trials with no trial above it,
    and that reading a study does not change it: when [run_study] returns
    (its callbacks leaving directions alone), what it returns is the study
    that its [create_study], asked for direction "maximize" with
    [load_if_exists=True], answered.  The report reads [study.trials] and
    then [study.best_trial]; the number printed is the length of the first
    and the value printed that of the second; and the second read is the
    last thing that happens to the libraries, so that the study, asked
    again where [run_study] returns, answers those trials and that best
    trial.  A study that was not there before the call maximizes, and a
    study that was there keeps the direction it had.  If the study was not
    there or did maximize already, the best trial is one of the trials and
    no trial of the study has a greater value. *)
Theorem run_study_reports_the_study_it_returns :
  forall g sampler name callbacks (w : W) study,
    (forall st d cbs cb s t, callbacks = Some cbs -> In cb cbs ->
       preserves L (fun w => study_direction L w st = Some d) (cb s t)) ->
    res (run_study L g sampler name callbacks w) = Ok study ->
    let o := run_study L g sampler name callbacks w in
    exists t0 w0 w1 wr ts wt t,
      handle L time_time w = (Ok t0, w0)
      /\ handle L (create_study sampler name ("sqlite:///_" ++ name ++ ".db")
                     "maximize" true) w0 = (Ok study, w1)
      /\ handle L (trials study) wr = (Ok ts, wt)
      /\ handle L (best_trial study) wt = (Ok t, final o)
      /\ In (Entry (create_study sampler name ("sqlite:///_" ++ name ++ ".db")
                      "maximize" true) (Ok study) [])
            (trace o)
      /\ In (Entry (trials study) (Ok ts) []) (trace o)
      /\ In (Entry (print [VStr "Number of finished trials: ";
                           VInt (Z.of_nat (List.length ts))]) (Ok tt) [])
            (trace o)
      /\ In (Entry (best_trial study) (Ok t) []) (trace o)
      /\ In (Entry (print [VStr "  Value: "; of_option_float (value t)]) (Ok tt) [])
            (trace o)
      /\ fst (handle L (trials study) (final o)) = Ok ts
      /\ fst (handle L (best_trial study) (final o)) = Ok t
      /\ (study_direction L w0 study = None ->
          study_direction L (final o) study = Some "maximize")
      /\ (forall d, study_direction L w0 study = Some d ->
                    study_direction L (final o) study = Some d)
      /\ (study_direction L w0 study = None
          \/ study_direction L w0 study = Some "maximize" ->
          In t ts
          /\ forall t' v',
               In t' ts -> value t' = Some v' ->
               exists v, value t = Some v /\ PrimFloat.leb v' v = true).
Proof.
  intros g sampler name callbacks w study Hc. cbv zeta.
  pattern (run_study L g sampler name callbacks w).
  match goal with |- ?Q _ => set (reports := Q) end.
  unfold run_study, print_, len_, items_, format_.
  next_calls.
  all: try (match goal with E : for_each _ _ _ = _ |- _ =>
         rewrite params_loop_run in E; first [discriminate E | injection E as _ <- <-] end).
  all: subst reports; cbv beta; cbn [res final trace]; intros H; try discriminate H.
  all: injection H as <-.
  all: assert (Hd : forall d, study_direction L w1 a0 = Some d ->
                      study_direction L w6 a0 = Some d
                      /\ study_direction L w8 a0 = Some d)
         by (intros d; exact (direction_through_run_study g a0 d callbacks
                                _ _ _ _ _ _ _ _ _ _ _ _ _ _ _ _ _
                                (Hc a0 d) E1 E2 E3 E4 E5 E6 E7)).
  all: assert (Hw : forall d, study_direction L w0 a0 = Some d ->
                      study_direction L w1 a0 = Some d)
         by (intros d D;
             exact (direction_after_call a0 d
                      (create_study sampler name ("sqlite:///_" ++ name ++ ".db")
                         "maximize" true) w0 (Ok a0) w1 D E0)).
  all: match goal with
       | Et : handle L (trials ?s) ?wr = (Ok ?ts, ?wt),
         Eb : handle L (best_trial ?s) ?wt = (Ok ?t, ?wf) |- _ =>
           exists a, w0, w1, wr, ts, wt, t;
           split; [first [exact E | reflexivity]|]; split; [exact E0|];
           split; [exact Et|];
           split; [exact Eb|];
           split; [find_in|]; split; [find_in|]; split; [find_in|];
           split; [find_in|]; split; [find_in|];
           split;
           [ pose proof (proj1 (proj2 repeatable) s s wt ts
                           (proj1 repeatable s wr ts wt Et)) as K;
             rewrite Eb in K; exact K |];
           split; [exact (proj2 (proj2 repeatable) s wt t wf Eb)|];
           split;
           [intros N; exact (proj2 (Hd _ (created _ _ _ _ _ _ _ _ E0 N)))|];
           split; [intros d D; exact (proj2 (Hd d (Hw d D)))|];
           intros [N|D];
           [ exact (greatest s wr ts wt t wf
                      (proj1 (Hd _ (created _ _ _ _ _ _ _ _ E0 N))) Et Eb)
           | exact (greatest s wr ts wt t wf (proj1 (Hd _ (Hw _ D))) Et Eb) ]
       end.
Qed.

End Study.

(** ** The small library keeps the promises *)

Section ToyLibrary.

Import Toy.

Lemma lookup_app_some {A} k (l l' : list (ref * A)) a :
  lookup k l = Some a -> lookup k (l ++ l') = Some a.
Proof.
  induction l as [|[k' a'] l IH]; simpl; [discriminate|].
  destruct (Nat.eqb k k'); auto.
Qed.

Lemma lookup_app_none {A} k (l : list (ref * A)) a :
  lookup k l = None -> lookup k (l ++ [(k, a)]) = Some a.
Proof.
  induction l as [|[k' a'] l IH]; simpl.
  - rewrite Nat.eqb_refl. reflexivity.
  - destruct (Nat.eqb k k'); [discriminate | exact IH].
Qed.

Lemma extends_refl w : extends w w.
Proof. split; auto. Qed.

Lemma extends_trans w1 w2 w3 : extends w1 w2 -> extends w2 w3 -> extends w1 w3.
Proof. intros [F1 D1] [F2 D2]. split; auto. Qed.

Lemma grows_and_then {A B} (m : step A) (k : A -> step B) :
  grows m -> (forall a, grows (k a)) -> grows (and_then m k).
Proof.
  intros Hm Hk w. unfold and_then. specialize (Hm w).
  destruct (m w) as [[a|e] w']; simpl in *; [|exact Hm].
  eapply extends_trans; [exact Hm | apply Hk].
Qed.

Lemma grows_new_frame d : grows (new_frame d).
Proof.
  intros w. unfold new_frame. destruct (lookup (next w) (frames w)); simpl.
  - apply extends_refl.
  - split; simpl; auto using lookup_app_some.
Qed.

Lemma grows_frame_of r : grows (frame_of r).
Proof.
  intros w. unfold frame_of. destruct (lookup r (frames w)); apply extends_refl.
Qed.

Lemma grows_new_study name direction : grows (new_study name direction).
Proof.
  intros w. unfold new_study. destruct (lookup (next w) (directions w)); simpl.
  - apply extends_refl.
  - split; simpl; auto using lookup_app_some.
Qed.

Lemma grows_suggest name low high : grows (suggest name low high).
Proof.
  intros w. unfold suggest. destruct (low <=? high); split; simpl; auto.
Qed.

Lemma grows_answer (c : call) : grows (answer c).
Proof.
  destruct c; simpl;
    repeat first
      [ apply grows_and_then; [|intros ?]
      | apply grows_new_frame
      | apply grows_frame_of
      | apply grows_new_study
      | apply grows_suggest
      | match goal with
        | |- grows (let (_, _) := ?p in _) => destruct p
        | |- grows (match ?l with _ => _ end) => destruct l
        end ];
    intros w; try (split; simpl; auto; fail);
    repeat match goal with
           | |- context [match ?x with _ => _ end] => destruct x
           end;
    apply extends_refl.
Qed.

Section Kept.

Variable P : state -> Prop.
Hypothesis P_extends : forall w w', extends w w' -> P w -> P w'.

Lemma quiet_keeps {A} (m : step A) : grows m -> preserves lib P (quiet m).
Proof.
  intros Hm w Hw. unfold quiet. specialize (Hm w).
  destruct (m w) as [r w']. simpl in *. eapply P_extends; eassumption.
Qed.

Lemma optimize_loop_keeps n study func callbacks :
  (forall trial, preserves lib P (func trial)) ->
  (forall cb s t, In cb callbacks -> preserves lib P (cb s t)) ->
  preserves lib P (optimize_loop n study func callbacks).
Proof.
  intros Hf Hc. induction n as [|n IH]; simpl.
  - apply preserves_pure.
  - apply preserves_bind;
      [apply quiet_keeps; intros w; split; simpl; auto | intros trial].
    apply preserves_bind; [apply Hf | intros v].
    apply preserves_bind;
      [apply quiet_keeps; intros w; split; simpl; auto | intros t].
    apply preserves_bind; [|intros _; exact IH].
    clear IH. induction callbacks as [|cb cbs IHc]; simpl.
    + apply preserves_pure.
    + apply preserves_bind; [apply Hc; left; reflexivity | intros _].
      apply IHc. intros cb' s' t' Hin. apply Hc. right. exact Hin.
Qed.

Lemma Parallel_run_keeps tasks :
  (forall task, In task tasks ->
     forall w, P w ->
       P (final (task w))
       /\ match res (task w) with
          | Ok job => preserves lib P job
          | Raise _ => True
          end) ->
  preserves lib P (Parallel_run tasks).
Proof.
  induction tasks as [|task tasks IH]; intros Ht; simpl.
  - apply preserves_pure.
  - intros w Hw. destruct (Ht task (or_introl eq_refl) w Hw) as [T1 T2].
    rewrite (bind_run lib).
    destruct (task w) as [[job|e] wt trt]; cbn [res final trace] in *; [|exact T1].
    apply preserves_bind; [exact T2 | intros r | exact T1].
    apply preserves_bind; [|intros rs; apply preserves_pure].
    apply IH. intros task' Hin. apply Ht. right. exact Hin.
Qed.

Lemma toy_respected : respected lib P.
Proof.
  split; [|split].
  - intros c w Hw. eapply P_extends; [apply (grows_answer c) | exact Hw].
  - intros study func n_trials n_jobs callbacks Hf Hc.
    apply optimize_loop_keeps; [exact Hf|].
    intros cb s t Hin. destruct callbacks as [cbs|]; [|destruct Hin].
    eapply Hc; [reflexivity | exact Hin].
  - intros p tasks Ht. apply Parallel_run_keeps. exact Ht.
Qed.

End Kept.

Lemma toy_frames_are_immutable : frames_are_immutable lib.
Proof.
  intros x d. apply toy_respected. intros w w' [F _] H. apply F, H.
Qed.

Lemma toy_direction_is_fixed : direction_is_fixed lib.
Proof.
  intros s d. apply toy_respected. intros w w' [_ D] H. apply D, H.
Qed.

Lemma toy_suggest_int_in_range : suggest_int_in_range lib.
Proof.
  intros trial name low high w v w' H. simpl in H. unfold suggest in H.
  destruct (low <=? high) eqn:E; [|discriminate].
  injection H as <- _. apply Z.leb_le in E. lia.
Qed.

Lemma toy_exit_never_swallows : exit_never_swallows lib.
Proof. intros cm e w. simpl. discriminate. Qed.

Lemma toy_clock_always_reads : clock_always_reads lib.
Proof. intros w. simpl. unfold tick. eauto. Qed.

Lemma best_of_in l t : best_of l = Some t -> In t l.
Proof.
  revert t. induction l as [|a l IH]; simpl; intros t H; [discriminate|].
  destruct (best_of l) as [b|].
  - destruct (value_leb b a); injection H as <-; auto.
  - destruct (value a); [injection H as <-; auto | discriminate].
Qed.

Lemma toy_best_trial_is_greatest : best_trial_is_greatest lib.
Proof.
  intros study w ts w1 t w2 _ Et Eb. simpl in Et, Eb.
  injection Et as <- <-.
  destruct (best_of (trials_of study w)) as [b|] eqn:Ebest; [|discriminate].
  destruct (forallb (fun t' => value_leb t' b) (trials_of study w)) eqn:Eall;
    [|discriminate].
  injection Eb as <- _.
  split; [apply best_of_in, Ebest|].
  intros t' v' Hin Hv. rewrite forallb_forall in Eall. specialize (Eall t' Hin).
  unfold value_leb in Eall. rewrite Hv in Eall.
  destruct (value b) as [v|]; [|discriminate]. eauto.
Qed.

Lemma new_frame_holds d w r w' :
  new_frame d w = (Ok r, w') ->
  lookup r (frames w') = Some d /\ extends w w'.
Proof.
  intros H. pose proof (grows_new_frame d w) as G. rewrite H in G. split; [|exact G].
  unfold new_frame in H. destruct (lookup (next w) (frames w)) eqn:E; [discriminate|].
  injection H as <- <-. simpl. apply lookup_app_none, E.
Qed.

Lemma toy_split_holds X y seed w a b c d w' :
  answer (train_test_split X y seed) w = (Ok (a, b, c, d), w') ->
  exists dX dy,
    lookup X (frames w) = Some dX /\ lookup y (frames w) = Some dy
    /\ (lookup a (frames w'), lookup b (frames w'),
        lookup c (frames w'), lookup d (frames w'))
       = (let '(pa, pb, pc, pd) := split dX dy in
          (Some pa, Some pb, Some pc, Some pd)).
Proof.
  cbn -[split new_frame]. unfold and_then, frame_of.
  destruct (lookup X (frames w)) as [dX|]; [|discriminate].
  destruct (lookup y (frames w)) as [dy|]; [|discriminate].
  destruct (split dX dy) as [[[pa pb] pc] pd] eqn:Es.
  destruct (new_frame pa w) as [[ra|] wa] eqn:Ea; [|discriminate].
  destruct (new_frame pb wa) as [[rb|] wb] eqn:Eb; [|discriminate].
  destruct (new_frame pc wb) as [[rc|] wc] eqn:Ec; [|discriminate].
  destruct (new_frame pd wc) as [[rd|] wd] eqn:Ed; [|discriminate].
  intros H. injection H as <- <- <- <- <-.
  destruct (new_frame_holds _ _ _ _ Ea) as [Ha _].
  destruct (new_frame_holds _ _ _ _ Eb) as [Hb [Fb _]].
  destruct (new_frame_holds _ _ _ _ Ec) as [Hc [Fc _]].
  destruct (new_frame_holds _ _ _ _ Ed) as [Hd [Fd _]].
  exists dX, dy. repeat split. rewrite Es.
  rewrite Hd, (Fd _ _ Hc), (Fd _ _ (Fc _ _ Hb)), (Fd _ _ (Fc _ _ (Fb _ _ Ha))).
  reflexivity.
Qed.

Lemma toy_split_is_seeded : split_is_seeded lib.
Proof.
  intros X1 y1 X2 y2 seed w1 w2 [[[a1 b1] c1] d1] [[[a2 b2] c2] d2] w1' w2'
    HX Hy E1 E2.
  destruct (toy_split_holds _ _ _ _ _ _ _ _ _ E1) as (dX1 & dy1 & X1d & y1d & P1).
  destruct (toy_split_holds _ _ _ _ _ _ _ _ _ E2) as (dX2 & dy2 & X2d & y2d & P2).
  simpl in HX, Hy. rewrite X1d, X2d in HX. rewrite y1d, y2d in Hy.
  injection HX as <-. injection Hy as <-.
  rewrite <- P2 in P1. injection P1 as Q1 Q2 Q3 Q4. simpl. auto.
Qed.

(** The stand-in with a storage keeps the promises too. *)
Lemma grows_open_study name direction load_if_exists :
  grows (open_study name direction load_if_exists).
Proof.
  intros w. unfold open_study. destruct (named name (names w)) as [study|].
  - destruct (lookup study (directions w)); [destruct load_if_exists|];
      apply extends_refl.
  - apply grows_new_study.
Qed.

Lemma best_in_direction_reads study w : snd (best_in_direction study w) = w.
Proof.
  unfold best_in_direction. destruct (lookup study (directions w)); [|reflexivity].
  destruct (String.eqb _ _).
  - destruct (least_of _); reflexivity.
  - simpl. destruct (best_of _); [|reflexivity]. destruct (forallb _ _); reflexivity.
Qed.

Lemma grows_answer_stored (c : call) : grows (answer_stored c).
Proof.
  destruct c;
    try match goal with |- grows (answer_stored ?c) => exact (grows_answer c) end.
  - apply grows_open_study.
  - intros w. simpl. rewrite best_in_direction_reads. apply extends_refl.
Qed.

Lemma stored_respected (P : state -> Prop) :
  (forall w w', extends w w' -> P w -> P w') -> respected lib_stored P.
Proof.
  intros P_extends. split; [|exact (proj2 (toy_respected P P_extends))].
  intros c w Hw. eapply P_extends; [apply (grows_answer_stored c) | exact Hw].
Qed.

Lemma stored_direction_is_fixed : direction_is_fixed lib_stored.
Proof.
  intros s d. apply stored_respected. intros w w' [_ D] H. apply D, H.
Qed.

Lemma stored_new_study_gets_its_direction : new_study_gets_its_direction lib_stored.
Proof.
  intros sampler name storage direction lie w study w' H N.
  simpl in H, N. unfold open_study in H.
  destruct (named name (names w)) as [s|].
  - destruct (lookup s (directions w)) eqn:D; [destruct lie|]; try discriminate H.
    injection H as <- <-. rewrite D in N. discriminate N.
  - unfold new_study in H.
    destruct (lookup (next w) (directions w)) eqn:E; [discriminate|].
    injection H as <- <-. simpl. apply lookup_app_none, E.
Qed.

Lemma stored_best_trial_is_greatest : best_trial_is_greatest lib_stored.
Proof.
  intros study w ts w1 t w2 D Et Eb. simpl in Et. injection Et as <- <-.
  simpl in Eb, D. unfold best_in_direction in Eb. rewrite D in Eb. simpl in Eb.
  exact (toy_best_trial_is_greatest study w _ w t w2 D eq_refl Eb).
Qed.

Lemma stored_reads_are_repeatable : reads_are_repeatable lib_stored.
Proof.
  split; [|split].
  - intros study w ts w' H. simpl in *. injection H as <- <-. reflexivity.
  - intros study s w ts H. simpl in *. rewrite best_in_direction_reads. exact H.
  - intros study w t w' H. simpl in *.
    pose proof (best_in_direction_reads study w) as K. rewrite H in K. simpl in K.
    subst w'. rewrite H. reflexivity.
Qed.

End ToyLibrary.

(** ** The theorems at work on the small library *)

Lemma stored_callback_keeps_direction :
  forall st d cbs cb s t,
    Some [mlflow_callback Toy.lib_stored] = Some cbs -> In cb cbs ->
    preserves Toy.lib_stored (fun w => study_direction Toy.lib_stored w st = Some d)
      (cb s t).
Proof.
  intros st d cbs cb s t E Hin. injection E as <-.
  destruct Hin as [<-|[]]. apply mlflow_callback_keeps, stored_direction_is_fixed.
Qed.

(** C1 on the loaded data: the trial proposes 10 and 200. *)
Lemma objective_samples_then_delegates_witness :
  10 <= 10 <= 15
  /\ 200 <= 200 <= 700
  /\ objective Toy.lib 9%nat 3%nat 5%nat Toy.loaded =
     after (Entry (suggest_int 9%nat "max_depth" 10 15) (Ok 10) [])
       (after (Entry (suggest_int 9%nat "n_estimators" 200 700) (Ok 200) [])
          (train_and_eval Toy.lib 3%nat 5%nat 10 200 Toy.sampled)).
Proof.
  refine (proj1 (objective_samples_then_delegates Toy.lib toy_suggest_int_in_range
                   9%nat 3%nat 5%nat Toy.loaded)
                10 _ 200 Toy.sampled _ _); reflexivity.
Defined.

(** C2 on a whole study with the logging callback. *)
Lemma no_function_catches_witness :
  raised (res (run_study Toy.lib Toy.g0 0%nat "demo"
                 (Some [mlflow_callback Toy.lib]) Toy.loaded))
  = last_raising (trace (run_study Toy.lib Toy.g0 0%nat "demo"
                           (Some [mlflow_callback Toy.lib]) Toy.loaded)).
Proof.
  destruct (no_function_catches Toy.lib toy_exit_never_swallows)
    as (_ & _ & _ & H & _).
  destruct (H Toy.g0 0%nat "demo" (Some [mlflow_callback Toy.lib]) Toy.loaded)
    as [U _].
  exact U.
Defined.

(** C3, amended, on a trial without a value. *)
Lemma glue_is_straight_line_but_for_one_guard_witness :
  names_of (trace (mlflow_callback Toy.lib 0%nat Toy.missing_trial Toy.studied))
    = "float" :: mlflow_callback_calls
  /\ In (log_metrics [("accuracy", nan)])
        (calls_of (trace (mlflow_callback Toy.lib 0%nat Toy.missing_trial Toy.studied))).
Proof.
  refine (proj2 (proj2 (proj2 (proj2 (proj2
            (glue_is_straight_line_but_for_one_guard Toy.lib toy_exit_never_swallows)))))
            0%nat Toy.missing_trial Toy.studied _).
  vm_compute. reflexivity.
Defined.

(** C4, amended, on a new study of twenty trials with the logging callback,
    whose scores are 1, 3, 2, 1, 3, 2, ...: the study maximizes and its best
    trial is one of score 3. *)
Lemma run_study_reports_the_study_it_returns_witness :
  exists ts t,
    fst (handle Toy.lib_stored (trials 6%nat)
           (final (run_study Toy.lib_stored Toy.g0 0%nat "demo"
                     (Some [mlflow_callback Toy.lib_stored]) Toy.loaded)))
    = Ok ts
    /\ fst (handle Toy.lib_stored (best_trial 6%nat)
              (final (run_study Toy.lib_stored Toy.g0 0%nat "demo"
                        (Some [mlflow_callback Toy.lib_stored]) Toy.loaded)))
       = Ok t
    /\ study_direction Toy.lib_stored
         (final (run_study Toy.lib_stored Toy.g0 0%nat "demo"
                   (Some [mlflow_callback Toy.lib_stored]) Toy.loaded)) 6%nat
       = Some "maximize"
    /\ List.length ts = 20%nat
    /\ value t = Some 3%float
    /\ (exists t', In t' ts /\ value t' = Some 1%float)
    /\ In t ts
    /\ forall t' v',
         In t' ts -> value t' = Some v' ->
         exists v, value t = Some v /\ PrimFloat.leb v' v = true.
Proof.
  assert (R : res (run_study Toy.lib_stored Toy.g0 0%nat "demo"
                     (Some [mlflow_callback Toy.lib_stored]) Toy.loaded)
              = Ok 6%nat)
    by (vm_compute; reflexivity).
  destruct (run_study_reports_the_study_it_returns Toy.lib_stored
              stored_new_study_gets_its_direction stored_direction_is_fixed
              stored_best_trial_is_greatest stored_reads_are_repeatable
              Toy.g0 0%nat "demo" (Some [mlflow_callback Toy.lib_stored]) Toy.loaded
              6%nat stored_callback_keeps_direction R)
    as (t0 & w0 & w1 & wr & ts & wt & t & E0 & _ & _ & _ & _ & _ & _ & _ & _
        & Rt & Rb & Dn & _ & G).
  assert (N : study_direction Toy.lib_stored w0 6%nat = None)
    by (vm_compute in E0; injection E0 as _ <-; reflexivity).
  assert (Vt : value t = Some 3%float)
    by (vm_compute in Rb; injection Rb as <-; reflexivity).
  assert (Vts : List.length ts = 20%nat
                /\ exists t', In t' ts /\ value t' = Some 1%float).
  { vm_compute in Rt. injection Rt as <-. split; [reflexivity|].
    eexists. split; [left; reflexivity | reflexivity]. }
  exists ts, t.
  split; [exact Rt|]. split; [exact Rb|]. split; [exact (Dn N)|].
  split; [exact (proj1 Vts)|]. split; [exact Vt|]. split; [exact (proj2 Vts)|].
  exact (G (or_introl N)).
Defined.

(** C5 on the set-up cells. *)
Lemma fixed_input_path_and_storage_per_study_witness :
  filter is_read_parquet (calls_of (trace (setup Toy.lib Toy.init)))
  = [read_parquet INPUT_FILE].
Proof.
  refine (proj1 (proj2 (proj2 (proj2 (fixed_input_path_and_storage_per_study Toy.lib))))
            Toy.init Toy.g0 _).
  vm_compute. reflexivity.
Defined.

(** C6: the frame [X] after all the cells. *)
Lemma frames_are_passed_unchanged_witness :
  frame_data Toy.lib (final (cells Toy.lib Toy.g0 Toy.loaded)) 3%nat
  = Some [3; 1; 4; 1; 5; 9; 2; 6].
Proof.
  refine (proj1 (proj2 (proj2 (proj2 (proj2 (proj2 (proj2 (proj2 (proj2
            (frames_are_passed_unchanged Toy.lib toy_frames_are_immutable
               3%nat [3; 1; 4; 1; 5; 9; 2; 6])))))))))
            Toy.g0 Toy.loaded _).
  reflexivity.
Defined.

(** C8 on the set-up cells. *)
Lemma concurrency_is_configuration_only_witness :
  exists has,
    In (Entry (has_what (c Toy.g0)) (Ok has) []) (trace (setup Toy.lib Toy.init))
    /\ filter is_has_what (calls_of (trace (setup Toy.lib Toy.init)))
       = [has_what (c Toy.g0)]
    /\ workers Toy.g0 = map fst has
    /\ n_workers Toy.g0 = Z.of_nat (List.length (workers Toy.g0)).
Proof.
  refine (proj1 (proj2 (proj2 (concurrency_is_configuration_only Toy.lib)))
            Toy.init Toy.g0 _).
  vm_compute. reflexivity.
Defined.

(** C9: a first training and a second one, with other hyperparameters, in
    the state the first one left. *)
Lemma split_is_the_same_in_every_run_witness :
  exists r1 w1' r2 w2',
    handle Toy.lib (train_test_split 3%nat 5%nat 77) Toy.loaded = (r1, w1')
    /\ handle Toy.lib (train_test_split 3%nat 5%nat 77) Toy.trained = (r2, w2')
    /\ hd_error (trace (train_and_eval Toy.lib 3%nat 5%nat 16 100 Toy.loaded))
       = Some (Entry (train_test_split 3%nat 5%nat 77) r1 [])
    /\ hd_error (trace (train_and_eval Toy.lib 3%nat 5%nat 10 200 Toy.trained))
       = Some (Entry (train_test_split 3%nat 5%nat 77) r2 [])
    /\ match r1, r2 with
       | Ok (X_train1, X_valid1, y_train1, y_valid1),
         Ok (X_train2, X_valid2, y_train2, y_valid2) =>
           frame_data Toy.lib w1' X_train1 = frame_data Toy.lib w2' X_train2
           /\ frame_data Toy.lib w1' X_valid1 = frame_data Toy.lib w2' X_valid2
           /\ frame_data Toy.lib w1' y_train1 = frame_data Toy.lib w2' y_train2
           /\ frame_data Toy.lib w1' y_valid1 = frame_data Toy.lib w2' y_valid2
       | _, _ => True
       end.
Proof.
  refine (proj2 (split_is_the_same_in_every_run Toy.lib toy_split_is_seeded)
            3%nat 5%nat 16 100 Toy.loaded 3%nat 5%nat 10 200 Toy.trained _ _);
    reflexivity.
Defined.

(** C10 on a block that prints one line of its own. *)
Lemma timed_prints_only_after_normal_completion_witness :
  exists t0 w0,
    handle Toy.lib time_time Toy.init = (Ok t0, w0)
    /\ let ob := print_ Toy.lib [VStr "hi"] w0 in
       let o := with_ Toy.lib (timed Toy.lib "demo") (print_ Toy.lib [VStr "hi"])
                  Toy.init in
       match res ob with
       | Raise e =>
           res o = Raise e
           /\ final o = final ob
           /\ trace o = Entry time_time (Ok t0) [] :: trace ob
           /\ printed (trace o) = printed (trace ob)
       | Ok a =>
           exists t1 w1,
             handle Toy.lib time_time (final ob) = (Ok t1, w1)
             /\ res o = Ok (Some a)
             /\ final o = w1
             /\ trace o =
                (Entry time_time (Ok t0) [] :: trace ob
                   ++ [Entry time_time (Ok t1) [];
                       Entry (print [VFormat "..%-24s:  %8.4f"
                                       [VStr "demo"; VFloat (t1 - t0)%float]])
                             (Ok tt) []])%list
             /\ printed (trace o) =
                (printed (trace ob)
                   ++ [[VFormat "..%-24s:  %8.4f"
                          [VStr "demo"; VFloat (t1 - t0)%float]]])%list
       end.
Proof.
  exact (timed_prints_only_after_normal_completion Toy.lib toy_clock_always_reads
           unit "demo" (print_ Toy.lib [VStr "hi"]) Toy.init).
Defined.

(** C3, as stated, fails: on the same study and state, [mlflow_callback]
    returns for a trial with a value and for a trial without one, makes one
    call more for the second, and logs NaN for it where the first logs the
    trial's value. *)
Lemma mlflow_callback_branches_on_missing_value :
  res (mlflow_callback Toy.lib 0%nat Toy.complete_trial Toy.studied) = Ok tt
  /\ res (mlflow_callback Toy.lib 0%nat Toy.missing_trial Toy.studied) = Ok tt
  /\ names_of (trace (mlflow_callback Toy.lib 0%nat Toy.complete_trial Toy.studied))
     = mlflow_callback_calls
  /\ names_of (trace (mlflow_callback Toy.lib 0%nat Toy.missing_trial Toy.studied))
     = "float" :: mlflow_callback_calls
  /\ names_of (trace (mlflow_callback Toy.lib 0%nat Toy.complete_trial Toy.studied))
     <> names_of (trace (mlflow_callback Toy.lib 0%nat Toy.missing_trial Toy.studied))
  /\ In (log_metrics [("accuracy", 0.5%float)])
        (calls_of (trace (mlflow_callback Toy.lib 0%nat Toy.complete_trial Toy.studied)))
  /\ In (log_metrics [("accuracy", nan)])
        (calls_of (trace (mlflow_callback Toy.lib 0%nat Toy.missing_trial Toy.studied))).
Proof.
  repeat split; try (vm_compute; reflexivity).
  - vm_compute. discriminate.
  - vm_compute. tauto.
  - vm_compute. tauto.
Qed.

(** C4, as stated, fails: when a study is already stored under the name
    with another direction, [create_study], asked for "maximize" with
    [load_if_exists=True], answers that study; [run_study] returns it, it
    minimizes, and the trial reported as the best, of value 1, is below
    another trial of the study, of value 3. *)
Lemma run_study_reports_the_least_of_a_stored_study :
  res (run_study Toy.lib_stored Toy.g0 0%nat "demo" None Toy.stored) = Ok 6%nat
  /\ In (Entry (create_study 0%nat "demo" "sqlite:///_demo.db" "maximize" true)
               (Ok 6%nat) [])
        (trace (run_study Toy.lib_stored Toy.g0 0%nat "demo" None Toy.stored))
  /\ study_direction Toy.lib_stored
       (final (run_study Toy.lib_stored Toy.g0 0%nat "demo" None Toy.stored)) 6%nat
     = Some "minimize"
  /\ In (Entry (print [VStr "  Value: "; VFloat 1%float]) (Ok tt) [])
        (trace (run_study Toy.lib_stored Toy.g0 0%nat "demo" None Toy.stored))
  /\ exists ts t t',
       fst (handle Toy.lib_stored (trials 6%nat)
              (final (run_study Toy.lib_stored Toy.g0 0%nat "demo" None Toy.stored)))
       = Ok ts
       /\ fst (handle Toy.lib_stored (best_trial 6%nat)
                 (final (run_study Toy.lib_stored Toy.g0 0%nat "demo" None Toy.stored)))
          = Ok t
       /\ value t = Some 1%float
       /\ In t' ts
       /\ value t' = Some 3%float
       /\ PrimFloat.leb 3%float 1%float = false.
Proof.
  split; [vm_compute; reflexivity|].
  split; [vm_compute; tauto|].
  split; [vm_compute; reflexivity|].
  split; [vm_compute; tauto|].
  do 3 eexists.
  split; [vm_compute; reflexivity|].
  split; [vm_compute; reflexivity|].
  split; [reflexivity|].
  split; [right; left; reflexivity|].
  split; reflexivity.
Qed.

(** * More of the notebook *)

(** ** What [run_study] does and reports *)

Section Report.

Variable L : library.
Local Abbreviation W := (world L).

Lemma names_of_params_loop (kvs : list (string * pyval)) :
  names_of
    (flat_map (fun kv =>
                 [Entry (str_format "    {}: {}" [VStr (fst kv); snd kv])
                        (Ok (VFormat "    {}: {}" [VStr (fst kv); snd kv])) [];
                  Entry (print (param_line kv)) (Ok tt) []])
              kvs)
  = flat_map (fun _ => ["format"; "print"]) kvs.
Proof. induction kvs as [|kv kvs IH]; [reflexivity|]. simpl. rewrite <- IH. reflexivity. Qed.

Lemma shown_params_loop (kvs : list (string * pyval)) :
  shown
    (flat_map (fun kv =>
                 [Entry (str_format "    {}: {}" [VStr (fst kv); snd kv])
                        (Ok (VFormat "    {}: {}" [VStr (fst kv); snd kv])) [];
                  Entry (print (param_line kv)) (Ok tt) []])
              kvs)
  = map param_line kvs.
Proof. induction kvs as [|kv kvs IH]; [reflexivity|]. simpl. rewrite <- IH. reflexivity. Qed.

(** The record of a [run_study]: all of it when it returns; when it raises,
    where the exception came from, how far the calls got and what was
    printed. *)
Lemma run_study_record g sampler name callbacks (w : W) :
  let o := run_study L g sampler name callbacks w in
  match res o with
  | Ok study =>
      exists t0 pb opt sub swallow t1 ts t,
        trace o =
        ([Entry time_time (Ok t0) [];
          Entry (create_study sampler name ("sqlite:///_" ++ name ++ ".db")
                   "maximize" true) (Ok study) [];
          Entry (parallel_backend "dask" (n_workers g) (Some (c g)) [X g; y g])
                (Ok pb) [];
          Entry (ctx_enter pb) (Ok tt) [];
          Entry (optimize study N_TRIALS (Some (n_workers g))
                   (option_map (@List.length _) callbacks)) opt sub;
          Entry (ctx_exit pb (raised opt)) (Ok swallow) [];
          Entry time_time (Ok t1) [];
          Entry (print (timing_line name t0 t1)) (Ok tt) [];
          Entry (trials study) (Ok ts) [];
          Entry len (Ok (Z.of_nat (List.length ts))) [];
          Entry (print (count_line ts)) (Ok tt) [];
          Entry (print [VStr "Best trial:"]) (Ok tt) [];
          Entry (best_trial study) (Ok t) [];
          Entry (print (value_line t)) (Ok tt) [];
          Entry (print [VStr "  Params: "]) (Ok tt) [];
          Entry dict_items (Ok (params t)) []]
           ++ flat_map (fun kv =>
                          [Entry (str_format "    {}: {}" [VStr (fst kv); snd kv])
                                 (Ok (VFormat "    {}: {}" [VStr (fst kv); snd kv])) [];
                           Entry (print (param_line kv)) (Ok tt) []])
                       (params t))%list
  | Raise e =>
      last_raising (trace o) = Some e
      /\ (exists n, (n <= 13)%nat /\ names_of (trace o) = firstn n run_study_calls)
      /\ ((shown (trace o) = []
           /\ exists n, (n <= 7)%nat /\ names_of (trace o) = firstn n run_study_calls)
          \/ (exists t0 t1 study,
                 shown (trace o) = [timing_line name t0 t1]
                 /\ In (Entry (trials study) (Raise e) []) (trace o))
          \/ (exists t0 t1 study ts,
                 shown (trace o)
                 = [timing_line name t0 t1; count_line ts; [VStr "Best trial:"]]
                 /\ In (Entry (trials study) (Ok ts) []) (trace o)
                 /\ In (Entry (best_trial study) (Raise e) []) (trace o)))
  end.
Proof.
  cbv zeta. pattern (run_study L g sampler name callbacks w).
  match goal with |- ?Q _ => set (ends := Q) end.
  unfold run_study, print_, len_, items_, format_.
  next_calls.
  all: try (match goal with E : for_each _ _ _ = _ |- _ =>
         rewrite params_loop_run in E; first [discriminate E | injection E as _ <- <-] end).
  all: repeat match goal with u : unit |- _ => destruct u end.
  all: rewrite ?app_nil_r; subst ends; cbv beta; cbn [res trace].
  all: try (split; [reflexivity|];
    split;
    [ first [ exists 1%nat; split; [lia | reflexivity]
            | exists 2%nat; split; [lia | reflexivity]
            | exists 3%nat; split; [lia | reflexivity]
            | exists 4%nat; split; [lia | reflexivity]
            | exists 5%nat; split; [lia | reflexivity]
            | exists 6%nat; split; [lia | reflexivity]
            | exists 7%nat; split; [lia | reflexivity]
            | exists 9%nat; split; [lia | reflexivity]
            | exists 13%nat; split; [lia | reflexivity] ]
    | first [ left; split;
              [ reflexivity
              | first [ exists 1%nat; split; [lia | reflexivity]
                      | exists 2%nat; split; [lia | reflexivity]
                      | exists 3%nat; split; [lia | reflexivity]
                      | exists 4%nat; split; [lia | reflexivity]
                      | exists 5%nat; split; [lia | reflexivity]
                      | exists 6%nat; split; [lia | reflexivity]
                      | exists 7%nat; split; [lia | reflexivity] ] ]
            | right; left; do 3 eexists; split; [reflexivity | find_in]
            | right; right; do 4 eexists;
              split; [reflexivity | split; find_in] ] ]).
  - exists a, a1, (Ok tt), sub, a3, a4, a5, a6. reflexivity.
  - exists a, a1, (Raise r), sub, true, a3, a4, a5. reflexivity.
Qed.

(** X1.  The calls of [run_study], in order.  When it returns it has made
    its sixteen calls, from the first reading of the clock to
    [trial.params.items()], and then one [format] and one [print] for each
    parameter of the best trial; when it raises it has made the first few of
    the sixteen, thirteen at most: nothing can fail once [study.best_trial]
    has answered. *)
Theorem run_study_calls_in_order g sampler name callbacks (w : W) :
  let o := run_study L g sampler name callbacks w in
  match res o with
  | Ok study =>
      exists t,
        In (Entry (best_trial study) (Ok t) []) (trace o)
        /\ names_of (trace o)
           = (run_study_calls ++ flat_map (fun _ => ["format"; "print"]) (params t))%list
  | Raise _ =>
      exists n, (n <= 13)%nat /\ names_of (trace o) = firstn n run_study_calls
  end.
Proof.
  cbv zeta.
  destruct (res (run_study L g sampler name callbacks w)) as [study|e] eqn:R.
  - pose proof (run_study_record g sampler name callbacks w) as K.
    cbv zeta in K. rewrite R in K.
    destruct K as (t0 & pb & opt & sub & swallow & t1 & ts & t & ->).
    exists t. split; [find_in|].
    unfold names_of at 1. rewrite map_app. fold (names_of).
    rewrite names_of_params_loop. reflexivity.
  - pose proof (run_study_record g sampler name callbacks w) as K.
    cbv zeta in K. rewrite R in K. exact (proj1 (proj2 K)).
Qed.

(** X2.  What [run_study] prints when it returns: the line of [timed] with
    the study's name and the difference of the two readings of the clock,
    the number of the study's trials, the heading, the value of the best
    trial, and one line for each of its parameters in the order of the
    dictionary; nothing else. *)
Theorem run_study_prints_its_report g sampler name callbacks (w : W) study :
  res (run_study L g sampler name callbacks w) = Ok study ->
  let tr := trace (run_study L g sampler name callbacks w) in
  exists t0 t1 ts t,
    hd_error tr = Some (Entry time_time (Ok t0) [])
    /\ nth_error tr 6 = Some (Entry time_time (Ok t1) [])
    /\ In (Entry (trials study) (Ok ts) []) tr
    /\ In (Entry (best_trial study) (Ok t) []) tr
    /\ shown tr
       = ([timing_line name t0 t1; count_line ts; [VStr "Best trial:"];
           value_line t; [VStr "  Params: "]]
            ++ map param_line (params t))%list.
Proof.
  intros R. cbv zeta.
  pose proof (run_study_record g sampler name callbacks w) as K.
  cbv zeta in K. rewrite R in K.
  destruct K as (t0 & pb & opt & sub & swallow & t1 & ts & t & ->).
  exists t0, t1, ts, t.
  split; [reflexivity|]. split; [reflexivity|].
  split; [find_in|]. split; [find_in|].
  unfold shown at 1. rewrite flat_map_app. fold shown.
  rewrite shown_params_loop. reflexivity.
Qed.

(** X3.  When [run_study] raises, what it raises is what the last of its
    calls that raised did raise: the name [study] is always bound where it
    is read, whatever the context managers do.  Of the report it has then
    printed nothing, not even the timing, if it stopped at one of its first
    seven calls (in the timed block, or at the second reading of the clock);
    the timing alone if [study.trials] raised; the timing, the count and the
    heading if [study.best_trial] raised. *)
Theorem run_study_fails_with_a_partial_report g sampler name callbacks (w : W) e :
  res (run_study L g sampler name callbacks w) = Raise e ->
  let tr := trace (run_study L g sampler name callbacks w) in
  last_raising tr = Some e
  /\ ((shown tr = []
       /\ exists n, (n <= 7)%nat /\ names_of tr = firstn n run_study_calls)
      \/ (exists t0 t1 study,
             shown tr = [timing_line name t0 t1]
             /\ In (Entry (trials study) (Raise e) []) tr)
      \/ (exists t0 t1 study ts,
             shown tr = [timing_line name t0 t1; count_line ts; [VStr "Best trial:"]]
             /\ In (Entry (trials study) (Ok ts) []) tr
             /\ In (Entry (best_trial study) (Raise e) []) tr)).
Proof.
  intros R. cbv zeta.
  pose proof (run_study_record g sampler name callbacks w) as K.
  cbv zeta in K. rewrite R in K. destruct K as (H1 & _ & H3).
  split; assumption.
Qed.

End Report.

(** ** The cells raise only what a call raised *)

Lemma last_raising_in (tr : list entry) (e : exn) :
  last_raising tr = Some e -> exists c sub, In (Entry c (Raise e) sub) tr.
Proof.
  induction tr as [|[c r sub] tr IH]; simpl; [discriminate|].
  destruct (last_raising tr) as [x|].
  - intros H. destruct (IH H) as (c' & sub' & Hin). exists c', sub'. right. exact Hin.
  - destruct r as [a|x]; simpl; [discriminate|].
    intros H. injection H as <-. exists c, sub. left. reflexivity.
Qed.

Section WholeNotebook.

Variable L : library.
Local Abbreviation W := (world L).

Hypothesis Hs : exit_never_swallows L.

Local Abbreviation is_bound := (fun r => exists a, r = Some a /\ anything a).

Lemma setup_uncaught : uncaught L anything (setup L).
Proof. open_notebook. pass. Qed.

Lemma train_and_eval_uncaught X y md ne :
  uncaught L anything (train_and_eval L X y md ne).
Proof. open_notebook. pass. Qed.

Lemma run_study_uncaught g sampler name callbacks :
  uncaught L anything (run_study L g sampler name callbacks).
Proof. open_notebook. pass. Qed.

Lemma cell_9_uncaught g : uncaught L is_bound (cell_9 L g).
Proof.
  unfold cell_9.
  apply (uncaught_bind L anything); [apply (uncaught_do L (performance_report _))|].
  intros report _. apply uncaught_lib_cm; [exact Hs|].
  apply (uncaught_bind L anything); [apply (uncaught_do L TPESampler)|].
  intros sampler _. apply run_study_uncaught.
Qed.

Lemma cell_14_uncaught g pmd pne : uncaught L is_bound (cell_14 L g pmd pne).
Proof. unfold cell_14. apply uncaught_timed. open_notebook. pass. Qed.

Lemma loop_15_uncaught g pmd pne idx (results : pyval) :
  uncaught L is_bound (cell_15_loop L g pmd pne idx (Some results)).
Proof.
  revert results. induction idx as [|i idx IH]; intros results; simpl.
  - apply uncaught_pure. exists results. split; [reflexivity | exact I].
  - apply (uncaught_bind L anything); [apply (uncaught_do L (getitem_int _ _))|].
    intros md _.
    apply (uncaught_bind L anything); [apply (uncaught_do L (getitem_int _ _))|].
    intros ne _.
    apply (uncaught_bind L anything).
    + unfold seq_call. apply (uncaught_bind L anything);
        [apply train_and_eval_uncaught | intros; apply uncaught_pure; exact I].
    + intros r _. apply IH.
Qed.

Lemma cell_15_uncaught g pmd pne (results : pyval) :
  uncaught L anything (cell_15 L g pmd pne (Some results)).
Proof.
  unfold cell_15.
  apply (uncaught_weaken L is_bound); [intros; exact I|].
  apply uncaught_timed.
  apply (uncaught_bind L anything); [unfold range_; apply uncaught_builtin|].
  intros idx _.
  apply (uncaught_bind L is_bound); [apply loop_15_uncaught|].
  intros r (a & -> & _). open_notebook. pass.
Qed.

Lemma cells_uncaught g : uncaught L anything (cells L g).
Proof.
  unfold cells.
  apply (uncaught_bind L anything); [open_notebook; solve [pass]|]. intros _ _.
  apply (uncaught_bind L anything); [open_notebook; solve [pass]|]. intros _ _.
  apply (uncaught_bind L is_bound); [apply cell_9_uncaught|].
  intros study_tpe (s & -> & _).
  apply (uncaught_bind L is_bound);
    [unfold cell_10; apply uncaught_timed; open_notebook; solve [pass]|].
  intros _ _.
  apply (uncaught_bind L is_bound);
    [unfold cell_11; apply uncaught_timed; open_notebook; solve [pass]|].
  intros _ _.
  apply (uncaught_bind L anything); [open_notebook; solve [pass]|].
  intros [pmd pne] _.
  apply (uncaught_bind L is_bound); [apply cell_14_uncaught|].
  intros results (r & -> & _).
  apply (uncaught_bind L anything); [apply cell_15_uncaught|]. intros _ _.
  apply (uncaught_bind L anything).
  { unfold cell_17. apply (uncaught_bind L anything);
      [apply (uncaught_do L TPESampler) | intros; apply run_study_uncaught]. }
  intros _ _.
  apply (uncaught_bind L anything); [|intros _ _; apply uncaught_pure; exact I].
  unfold cell_19.
  apply (uncaught_bind L anything); [apply (uncaught_do L (performance_report _))|].
  intros report _.
  apply (uncaught_weaken L (fun r => exists a, r = Some a /\ is_bound a));
    [intros; exact I|].
  apply uncaught_lib_cm; [exact Hs|].
  apply uncaught_timed. open_notebook. solve [pass].
Qed.

(** X4.  Given that the context managers of the libraries do not swallow
    exceptions: a run of the whole notebook, and of cells 6 to 19 with any
    globals, raises exactly when one of the calls it made raised, and what
    it raises is what the last such call raised.  So the names that a later
    cell reads ([study_tpe], [results], the two columns) are bound whenever
    that cell is reached: the notebook never stops on a [NameError] of its
    own. *)
Theorem notebook_raises_only_what_a_call_raised :
  uncaught L anything (notebook L)
  /\ (forall g, uncaught L anything (cells L g))
  /\ (forall w e,
         res (notebook L w) = Raise e ->
         exists c sub, In (Entry c (Raise e) sub) (trace (notebook L w))).
Proof.
  assert (N : uncaught L anything (notebook L)).
  { unfold notebook. apply (uncaught_bind L anything);
      [apply setup_uncaught | intros g _; apply cells_uncaught]. }
  split; [exact N|]. split; [exact cells_uncaught|].
  intros w e R. destruct (N w) as [U _]. rewrite R in U.
  apply last_raising_in. symmetry. exact U.
Qed.

End WholeNotebook.

(** ** Every manager entered is left *)

Lemma managers_app (t1 t2 : list entry) (open : list ref) :
  managers (t1 ++ t2) open =
  match managers t1 open with
  | Some open' => managers t2 open'
  | None => None
  end.
Proof.
  revert open. induction t1 as [|e t1 IH]; intros open; [reflexivity|].
  cbn [app managers]. destruct (entry_call e); try apply IH.
  - destruct (entry_raised e); apply IH.
  - destruct open as [|top rest]; [reflexivity|].
    destruct (Nat.eqb cm top); [apply IH | reflexivity].
Qed.

Section Balanced.

Variable L : library.
Local Abbreviation W := (world L).

Lemma balanced_pure {A} (a : A) : balanced L (pure a).
Proof. intros w open. reflexivity. Qed.

Lemma balanced_raise {A} (e : exn) : balanced L (@raise W A e).
Proof. intros w open. reflexivity. Qed.

Lemma balanced_bound {A} (cls name : string) (v : option A) :
  balanced L (bound L cls name v).
Proof. destruct v; [apply balanced_pure | apply balanced_raise]. Qed.

Lemma balanced_bind {A B} (m : M W A) (k : A -> M W B) :
  balanced L m -> (forall a, balanced L (k a)) -> balanced L (bind m k).
Proof.
  intros Hm Hk w open. unfold bind. specialize (Hm w open).
  destruct (res (m w)) as [a|e]; cbn [trace]; [|exact Hm].
  rewrite managers_app, Hm. apply Hk.
Qed.

Lemma managers_one (c : call) (r : result (ret c)) (sub : list entry) (open : list ref) :
  is_manager_call c = false -> managers [Entry c r sub] open = Some open.
Proof. intros Hc. destruct c; try discriminate Hc; reflexivity. Qed.

Lemma balanced_do (c : call) : is_manager_call c = false -> balanced L (do_ L c).
Proof.
  intros Hc w open. unfold do_. destruct (handle L c w) as [r w'].
  apply managers_one, Hc.
Qed.

Lemma balanced_builtin (c : call) (v : ret c) :
  is_manager_call c = false -> balanced L (builtin L c v).
Proof. intros Hc w open. apply managers_one, Hc. Qed.

Lemma balanced_do_optimize study func n_trials n_jobs callbacks :
  balanced L (do_optimize L study func n_trials n_jobs callbacks).
Proof. intros w open. reflexivity. Qed.

Lemma balanced_do_Parallel p tasks : balanced L (do_Parallel L p tasks).
Proof. intros w open. reflexivity. Qed.

Lemma balanced_for_each {A} (l : list A) (body : A -> M W unit) :
  (forall a, balanced L (body a)) -> balanced L (for_each l body).
Proof.
  intros Hb. induction l as [|a l IH]; simpl.
  - apply balanced_pure.
  - apply balanced_bind; [apply Hb | intros _; exact IH].
Qed.

(** A [with] statement on a manager of a library: if [__enter__] raises the
    manager is not in use and is not left; otherwise it is left once, after
    the block, whether the block returned or raised and whatever [__exit__]
    answers. *)
Lemma balanced_lib_cm {A} (cm : ref) (body : M W A) :
  balanced L body -> balanced L (with_ L (lib_cm L cm) body).
Proof.
  intros Hb w open. rewrite with_run. cbn [cm_enter cm_exit lib_cm]. cbv zeta.
  destruct (handle L (ctx_enter cm) w) as [[[]|e] w0] eqn:E0;
    rewrite !(do_run L (ctx_enter cm) w _ _ E0); cbn [res final trace];
    [|reflexivity].
  specialize (Hb w0 (cm :: open)).
  destruct (body w0) as [[a|e] wb trb]; cbn [res final trace] in *.
  - destruct (handle L (ctx_exit cm None) wb) as [rx wx] eqn:Ex.
    rewrite !(do_run L (ctx_exit cm None) wb _ _ Ex). cbn [res final trace app].
    cbn [managers entry_call entry_raised raised].
    rewrite managers_app, Hb. cbn [managers entry_call]. rewrite Nat.eqb_refl.
    reflexivity.
  - destruct (handle L (ctx_exit cm (Some e)) wb) as [rx wx] eqn:Ex.
    rewrite !(do_run L (ctx_exit cm (Some e)) wb _ _ Ex). cbn [res final trace app].
    cbn [managers entry_call entry_raised raised].
    rewrite managers_app, Hb. cbn [managers entry_call]. rewrite Nat.eqb_refl.
    reflexivity.
Qed.

(** [timed] is the notebook's own manager: the calls it makes are to the
    clock and to [print]. *)
Lemma balanced_timed {A} (name : string) (body : M W A) :
  balanced L body -> balanced L (with_ L (timed L name) body).
Proof.
  intros Hb. unfold with_.
  apply balanced_bind; [apply (balanced_do time_time); reflexivity | intros t0].
  apply balanced_bind; [exact Hb | intros [a|e]].
  - apply balanced_bind; [|intros; apply balanced_pure].
    cbn [cm_exit timed contextmanager].
    apply balanced_bind; [|intros; apply balanced_pure].
    apply balanced_bind; [apply (balanced_do time_time); reflexivity | intros t1].
    apply (balanced_builtin (print _) tt). reflexivity.
  - cbn [cm_exit timed contextmanager].
    apply balanced_bind; [apply balanced_pure | intros [|]];
      [apply balanced_pure | apply balanced_raise].
Qed.

End Balanced.

Ltac nest_step :=
  match goal with
  | |- balanced _ (pure _) => apply balanced_pure
  | |- balanced _ (raise _) => apply balanced_raise
  | |- balanced _ (bound _ _ _ _) => apply balanced_bound
  | |- balanced ?L (do_ _ ?c) => apply (balanced_do L c); reflexivity
  | |- balanced ?L (builtin _ ?c ?v) => apply (balanced_builtin L c v); reflexivity
  | |- balanced _ (do_optimize _ _ _ _ _ _) => apply balanced_do_optimize
  | |- balanced _ (do_Parallel _ _ _) => apply balanced_do_Parallel
  | |- balanced _ (with_ _ (timed _ _) _) => apply balanced_timed
  | |- balanced _ (with_ _ (lib_cm _ _) _) => apply balanced_lib_cm
  | |- balanced _ (for_each _ _) => apply balanced_for_each
  | |- balanced _ (bind _ _) => apply balanced_bind
  | |- balanced _ (match ?x with _ => _ end) => destruct x
  | |- forall _, _ => intro
  end.

Ltac nest := repeat nest_step.

Section Managers.

Variable L : library.
Local Abbreviation W := (world L).

Lemma loop_15_balanced g pmd pne idx results :
  balanced L (cell_15_loop L g pmd pne idx results).
Proof.
  revert results. induction idx as [|i idx IH]; intros results; simpl.
  - apply balanced_pure.
  - open_notebook. nest. apply IH.
Qed.

(** X5.  In every run, whatever the libraries answer and whether or not
    something raises: each context manager of a library that
    [mlflow_callback], [run_study], the cells or the whole notebook entered
    is left exactly once, the innermost first, and none is left that was not
    entered.  So no run, performance report or parallel backend stays open
    after the statement that opened it. *)
Theorem every_manager_entered_is_left :
  (forall study trial, balanced L (mlflow_callback L study trial))
  /\ (forall g sampler name callbacks,
         balanced L (run_study L g sampler name callbacks))
  /\ (forall g, balanced L (cells L g))
  /\ balanced L (notebook L)
  /\ (forall w, managers (trace (notebook L w)) [] = Some []).
Proof.
  assert (C : forall g, balanced L (cells L g)).
  { intros g. unfold cells, cell_15. open_notebook. nest; apply loop_15_balanced. }
  assert (N : balanced L (notebook L)).
  { unfold notebook. apply balanced_bind; [open_notebook; nest | exact C]. }
  split; [intros; open_notebook; nest|].
  split; [intros; open_notebook; nest|].
  split; [exact C|]. split; [exact N|].
  intros w. apply N.
Qed.

End Managers.

(** ** What [mlflow_callback] logs *)

Ltac in_cases H :=
  cbn [calls_of map entry_call In] in H;
  repeat (destruct H as [H|H]);
  try discriminate H; try contradiction;
  try (inversion H; subst; clear H).

Section Logging.

Variable L : library.
Local Abbreviation W := (world L).

(** X6.  In every run of [mlflow_callback], also one that raises: the run is
    started under the name that [study.study_name] answered; what is printed
    and what is logged as parameters is [trial.params]; the metrics, when
    their turn comes, are the one entry "accuracy" (the trial's value, or
    NaN), and they are logged only after the parameters were; and when the
    run is left, [__exit__] is told nothing if both were logged and
    otherwise the very exception that [log_params] or [log_metrics]
    raised. *)
Theorem mlflow_callback_logs_the_trial study trial (w : W) :
  let tr := trace (mlflow_callback L study trial w) in
  let trial_value := match value trial with Some v => v | None => nan end in
  (forall n, In (start_run n) (calls_of tr) ->
     In (Entry (study_name study) (Ok n) []) tr)
  /\ (forall args, In (print args) (calls_of tr) -> args = [VDict (params trial)])
  /\ (forall p, In (log_params p) (calls_of tr) -> p = params trial)
  /\ (forall m, In (log_metrics m) (calls_of tr) ->
        m = [("accuracy", trial_value)]
        /\ In (Entry (log_params (params trial)) (Ok tt) []) tr)
  /\ (forall cm exc, In (ctx_exit cm exc) (calls_of tr) ->
        (exists n, In (Entry (start_run n) (Ok cm) []) tr)
        /\ match exc with
           | None => In (Entry (log_metrics [("accuracy", trial_value)]) (Ok tt) []) tr
           | Some e =>
               In (Entry (log_params (params trial)) (Raise e) []) tr
               \/ In (Entry (log_metrics [("accuracy", trial_value)]) (Raise e) []) tr
           end).
Proof.
  cbv zeta. pattern (mlflow_callback L study trial w).
  match goal with |- ?Q _ => set (logs := Q) end.
  unfold mlflow_callback, print_.
  destruct (value trial) as [v|]; next_calls.
  all: repeat match goal with u : unit |- _ => destruct u end.
  all: subst logs; cbv beta; cbn [res trace].
  all: split; [solve [intros n H; in_cases H; find_in]|].
  all: split; [solve [intros args H; in_cases H; reflexivity]|].
  all: split; [solve [intros p H; in_cases H; reflexivity]|].
  all: split; [solve [intros m H; in_cases H; try (split; [reflexivity | find_in])]|].
  all: intros cm exc H; in_cases H.
  all: (split; [eexists; find_in|]).
  all: first [solve [find_in] | left; solve [find_in] | right; solve [find_in]].
Qed.

End Logging.

(** ** The sequential loop *)

Section Sequential.

Variable L : library.
Local Abbreviation W := (world L).

Lemma train_and_eval_quiet X y md ne (w : W) :
  indices_read (trace (train_and_eval L X y md ne w)) = []
  /\ shown (trace (train_and_eval L X y md ne w)) = [].
Proof. unfold train_and_eval. next_calls; split; reflexivity. Qed.

Lemma names_of_app (t1 t2 : list entry) :
  names_of (t1 ++ t2) = (names_of t1 ++ names_of t2)%list.
Proof. apply map_app. Qed.

Lemma indices_read_app (t1 t2 : list entry) :
  indices_read (t1 ++ t2) = (indices_read t1 ++ indices_read t2)%list.
Proof. apply flat_map_app. Qed.

Lemma shown_app (t1 t2 : list entry) :
  shown (t1 ++ t2) = (shown t1 ++ shown t2)%list.
Proof. apply flat_map_app. Qed.

(** The loop of cell 15 over any indices, when it returns: one round for
    each index, in order, and of the results only the last is kept. *)
Lemma loop_15_record g pmd pne idx results (w : W) r :
  res (cell_15_loop L g pmd pne idx results w) = Ok r ->
  let tr := trace (cell_15_loop L g pmd pne idx results w) in
  names_of tr = flat_map (fun _ => round_calls) idx
  /\ indices_read tr = flat_map (fun i => [(pmd, i); (pne, i)]) idx
  /\ shown tr = []
  /\ (idx = [] -> r = results)
  /\ (forall idx0 i, idx = (idx0 ++ [i])%list ->
        exists score md ne pre w',
          r = Some (of_result (score, md, ne))
          /\ tr = (pre ++ Entry (getitem_int pmd i) (Ok md) []
                        :: Entry (getitem_int pne i) (Ok ne) []
                        :: trace (train_and_eval L (X g) (y g) md ne w'))%list
          /\ res (train_and_eval L (X g) (y g) md ne w') = Ok score).
Proof.
  revert results w. induction idx as [|i idx IH]; intros results w; cbn [cell_15_loop].
  - intros H. injection H as <-. cbv zeta. cbn.
    repeat split. intros [|? ?] ? H; discriminate H.
  - rewrite (bind_do L (getitem_int pmd i)).
    destruct (handle L (getitem_int pmd i) w) as [[md|e] w1] eqn:E1;
      [|intros H; discriminate H].
    cbn [after res final trace].
    rewrite (bind_do L (getitem_int pne i)).
    destruct (handle L (getitem_int pne i) w1) as [[ne|e] w2] eqn:E2;
      [|intros H; discriminate H].
    cbn [after res final trace]. unfold seq_call. rewrite bind_assoc, (bind_run L).
    pose proof (proj2 (train_and_eval_straight L (X g) (y g) md ne w2)) as Hn.
    destruct (train_and_eval_quiet (X g) (y g) md ne w2) as [Hi Hp].
    assert (Ht : exists o, o = train_and_eval L (X g) (y g) md ne w2)
      by (eexists; reflexivity).
    destruct Ht as [o Ho]. rewrite <- Ho in *.
    destruct o as [[score|e] w3 trt]; cbn [res final trace] in *;
      [|intros H; discriminate H].
    rewrite bind_pure.
    specialize (IH (Some (of_result (score, md, ne))) w3).
    set (ol := cell_15_loop L g pmd pne idx _ w3) in *. clearbody ol.
    destruct ol as [[r'|e] w4 trl]; cbn [res final trace] in *;
      [|intros H; discriminate H].
    intros H. injection H as <-.
    destruct (IH eq_refl) as (I1 & I2 & I3 & I4 & I5).
    change (Entry ?a ?b ?c :: Entry ?d ?e ?f :: (trt ++ trl))%list
      with ([Entry a b c; Entry d e f] ++ trt ++ trl)%list.
    rewrite !names_of_app, !indices_read_app, !shown_app, I1, I2, I3, Hi, Hp,
      (Hn score eq_refl).
    split; [reflexivity|]. split; [reflexivity|]. split; [reflexivity|].
    split; [intros H; discriminate H|].
    intros idx0 j Hj. destruct idx as [|i' idx'].
    + destruct idx0 as [|? [|? ?]]; try discriminate Hj. injection Hj as <-.
      exists score, md, ne, [], w2. rewrite <- Ho. cbn [res trace].
      rewrite (I4 eq_refl). cbn in I1. destruct trl; [|discriminate I1].
      rewrite app_nil_r. repeat split.
    + destruct idx0 as [|i0 idx0]; [destruct idx'; discriminate Hj|].
      injection Hj as <- Hj.
      destruct (I5 idx0 j Hj) as (s' & md' & ne' & pre & w' & -> & -> & R).
      exists s', md', ne',
        ([Entry (getitem_int pmd i) (Ok md) []; Entry (getitem_int pne i) (Ok ne) []]
           ++ trt ++ pre)%list, w'.
      split; [reflexivity|]. split; [|exact R].
      rewrite <- !app_assoc. reflexivity.
Qed.

(** X7.  Cell 15, when it runs to its end: under [timed] it asks for
    [range(N_TRIALS)] and makes twenty rounds, one for each index from 0 to
    19 in order, each reading that index of the two columns and training
    once; of the twenty results it keeps and prints only the last, the score
    of the training with the two values read at index 19, and then [timed]
    prints its line. *)
Theorem cell_15_keeps_the_last_result g pmd pne results (w : W) r :
  res (cell_15 L g pmd pne results w) = Ok (Some r) ->
  let tr := trace (cell_15 L g pmd pne results w) in
  names_of tr
  = ("time.time" :: "range" :: flat_map (fun _ => round_calls) (seq 0 20)
       ++ ["print"; "time.time"; "print"])%list
  /\ indices_read tr
     = flat_map (fun i => [(pmd, i); (pne, i)]) (map Z.of_nat (seq 0 20))
  /\ exists score md ne w' t0 t1 pre,
       r = of_result (score, md, ne)
       /\ res (train_and_eval L (X g) (y g) md ne w') = Ok score
       /\ tr = (pre ++ Entry (getitem_int pmd 19) (Ok md) []
                     :: Entry (getitem_int pne 19) (Ok ne) []
                     :: trace (train_and_eval L (X g) (y g) md ne w')
                     ++ [Entry (print [r]) (Ok tt) [];
                         Entry time_time (Ok t1) [];
                         Entry (print (timing_line "sequential-calls" t0 t1))
                               (Ok tt) []])%list
       /\ shown tr = [[r]; timing_line "sequential-calls" t0 t1].
Proof.
  cbv zeta. unfold cell_15, range_, print_. rewrite with_run. cbv zeta.
  change (cm_enter (timed L "sequential-calls") w) with (do_ L time_time w).
  destruct (handle L time_time w) as [[t0|e] w0] eqn:E0;
    rewrite !(do_run L time_time w _ _ E0); cbn [res final trace];
    [|intros H; discriminate H].
  rewrite !(bind_builtin L (range N_TRIALS)). cbn [after res final trace].
  rewrite !(bind_run L (cell_15_loop L g pmd pne _ results)).
  pose proof (loop_15_record g pmd pne (map Z.of_nat (seq 0 (Z.to_nat N_TRIALS)))
                results w0) as Hl.
  destruct (cell_15_loop L g pmd pne (map Z.of_nat (seq 0 (Z.to_nat N_TRIALS)))
              results w0) as [[r'|e] w1 trl]; cbn [res final trace] in *.
  2: { rewrite timed_exit_raising. cbn [res]. intros H; discriminate H. }
  destruct (Hl r' eq_refl) as (L1 & L2 & L3 & _ & L5). clear Hl.
  destruct (L5 (map Z.of_nat (seq 0 19)) 19 eq_refl)
    as (score & md & ne & pre & w' & -> & Htr & R).
  cbn [bound]. rewrite !bind_pure, !(bind_builtin L (print _)).
  cbn [after pure res final trace].
  destruct (handle L time_time w1) as [[t1|e] w2] eqn:E1.
  2: { rewrite (timed_exit_fails L _ t0 w1 e w2 E1). cbn [res].
       intros H; discriminate H. }
  rewrite (timed_exit_run L _ t0 w1 t1 w2 E1). cbn [res final trace].
  intros H. injection H as <-.
  split; [|split].
  - unfold names_of in *. cbn [app map]. rewrite !map_app, L1. reflexivity.
  - unfold indices_read in *. cbn [app flat_map]. rewrite !flat_map_app, L2.
    cbn. rewrite app_nil_r. reflexivity.
  - exists score, md, ne, w', t0, t1,
      (Entry time_time (Ok t0) []
         :: Entry (range N_TRIALS) (Ok (map Z.of_nat (seq 0 (Z.to_nat N_TRIALS)))) []
         :: pre)%list.
    split; [reflexivity|]. split; [exact R|]. split.
    + rewrite Htr. cbn [app]. rewrite <- !app_assoc. reflexivity.
    + unfold shown in *. cbn [app flat_map]. rewrite !flat_map_app, L3. reflexivity.
Qed.

End Sequential.

(** ** The studies of a run *)

Lemma subsequence_none {A} (l : list A) : subsequence [] l.
Proof. induction l; constructor; assumption. Qed.

Lemma subsequence_app {A} (s1 l1 s2 l2 : list A) :
  subsequence s1 l1 -> subsequence s2 l2 -> subsequence (s1 ++ s2) (l1 ++ l2).
Proof.
  intros H1 H2. induction H1; cbn [app]; try (constructor; assumption). exact H2.
Qed.

Lemma subsequence_in {A} (s l : list A) (x : A) :
  subsequence s l -> In x s -> In x l.
Proof.
  intros H. induction H; intros Hin.
  - exact Hin.
  - right. auto.
  - destruct Hin as [<-|Hin]; [left; reflexivity | right; auto].
Qed.

Lemma subsequence_NoDup {A} (s l : list A) :
  subsequence s l -> NoDup l -> NoDup s.
Proof.
  intros H. induction H; intros Hl.
  - constructor.
  - inversion Hl; subst. auto.
  - inversion Hl; subst. constructor; [|auto].
    intros Hin. eauto using subsequence_in.
Qed.

Lemma NoDup_map_injective {A B} (f : A -> B) (l : list A) :
  (forall x y, f x = f y -> x = y) -> NoDup l -> NoDup (map f l).
Proof.
  intros Hf H. induction H as [|a l Ha _ IH]; cbn [map]; constructor; [|exact IH].
  intros Hin. apply in_map_iff in Hin. destruct Hin as (b & E & Hb).
  apply Hf in E. subst b. contradiction.
Qed.

Lemma studies_created_app (t1 t2 : list entry) :
  studies_created (t1 ++ t2) = (studies_created t1 ++ studies_created t2)%list.
Proof. apply flat_map_app. Qed.

Lemma storages_of_studies (tr : list entry) :
  Forall (fun e => reads_input_file_and_own_storage (entry_call e)) tr ->
  storages_used tr = map storage_url (studies_created tr).
Proof.
  induction 1 as [|[c r sub] tr Hc _ IH]; [reflexivity|].
  unfold storages_used, studies_created in *. cbn [flat_map entry_call].
  rewrite map_app, IH. f_equal.
  destruct c; try reflexivity. cbn in Hc. rewrite Hc. reflexivity.
Qed.

Section Studies.

Variable L : library.
Local Abbreviation W := (world L).

Lemma creates_none {A} (names : list string) (m : M W A) :
  always L no_study m -> creates_among L names m.
Proof.
  intros Hm w. specialize (Hm w).
  assert (E : studies_created (trace (m w)) = []).
  { induction Hm as [|[c r sub] tr Hc _ IH]; [reflexivity|].
    unfold studies_created in *. cbn [flat_map entry_call]. rewrite IH.
    destruct c; try reflexivity. destruct Hc. }
  rewrite E. apply subsequence_none.
Qed.

Lemma creates_bind {A B} (l1 l2 : list string) (m : M W A) (k : A -> M W B) :
  creates_among L l1 m -> (forall a, creates_among L l2 (k a)) ->
  creates_among L (l1 ++ l2) (bind m k).
Proof.
  intros Hm Hk w. unfold bind. specialize (Hm w).
  destruct (res (m w)) as [a|e]; cbn [trace].
  - rewrite studies_created_app. apply subsequence_app; [exact Hm | apply Hk].
  - rewrite <- (app_nil_r (studies_created _)).
    apply subsequence_app; [exact Hm | apply subsequence_none].
Qed.

Lemma creates_first {A B} (l : list string) (m : M W A) (k : A -> M W B) :
  creates_among L l m -> (forall a, always L no_study (k a)) ->
  creates_among L l (bind m k).
Proof.
  intros Hm Hk. rewrite <- (app_nil_r l).
  apply creates_bind; [exact Hm | intros a; apply creates_none, Hk].
Qed.

Lemma creates_later {A B} (l : list string) (m : M W A) (k : A -> M W B) :
  always L no_study m -> (forall a, creates_among L l (k a)) ->
  creates_among L l (bind m k).
Proof.
  intros Hm Hk. change l with ([] ++ l)%list.
  apply creates_bind; [apply creates_none, Hm | exact Hk].
Qed.

Lemma creates_one sampler name storage direction load_if_exists :
  creates_among L [name]
    (do_ L (create_study sampler name storage direction load_if_exists)).
Proof.
  intros w. unfold do_. destruct (handle L _ w) as [r w']. cbn.
  apply subsequence_take, subsequence_nil.
Qed.

Lemma creates_with {S A} (l : list string) (cm : context_manager L S) (body : M W A) :
  always L no_study (cm_enter cm) ->
  (forall s exc, always L no_study (cm_exit cm s exc)) ->
  creates_among L l body -> creates_among L l (with_ L cm body).
Proof.
  intros He Hx Hb. unfold with_.
  apply creates_later; [exact He | intros s].
  apply creates_first; [exact Hb | intros [a|e]].
  - apply always_bind; [apply Hx | intros; apply always_pure].
  - apply always_bind; [apply Hx | intros [|]; [apply always_pure | apply always_raise]].
Qed.

Lemma creates_timed {A} (l : list string) (name : string) (body : M W A) :
  creates_among L l body -> creates_among L l (with_ L (timed L name) body).
Proof.
  intros Hb. apply creates_with; [| |exact Hb].
  - apply (always_do L no_study time_time). exact I.
  - intros t0 [e|]; cbn [cm_exit timed contextmanager]; unfold print_; walk.
Qed.

Lemma creates_lib_cm {A} (l : list string) (cm : ref) (body : M W A) :
  creates_among L l body -> creates_among L l (with_ L (lib_cm L cm) body).
Proof.
  intros Hb. apply creates_with; [| |exact Hb].
  - apply (always_do L no_study (ctx_enter cm)). exact I.
  - intros s exc. apply (always_do L no_study (ctx_exit cm exc)). exact I.
Qed.

Lemma train_and_eval_no_study X y md ne :
  always L no_study (train_and_eval L X y md ne).
Proof. open_notebook. walk. Qed.

Lemma run_study_creates g sampler name callbacks :
  creates_among L [name] (run_study L g sampler name callbacks).
Proof.
  unfold run_study.
  apply creates_first; [|intros blk; open_notebook; walk].
  apply creates_timed.
  apply creates_first; [apply creates_one | intros study; open_notebook; walk].
Qed.

Lemma cells_create g : creates_among L notebook_studies (cells L g).
Proof.
  unfold cells.
  apply creates_later; [open_notebook; walk | intros _].
  apply creates_later; [open_notebook; walk | intros _].
  apply (creates_bind ["optuna-joblib-dask-backend"]).
  { unfold cell_9.
    apply creates_later; [walk | intros report].
    apply creates_lib_cm.
    apply creates_later; [walk | intros sampler].
    apply run_study_creates. }
  intros study_tpe.
  apply (creates_bind ["optuna-joblib-loky-backend"]).
  { unfold cell_10. apply creates_timed.
    apply creates_later; [walk | intros sampler].
    apply creates_first; [apply creates_one | intros study; open_notebook; walk]. }
  intros _.
  apply (creates_bind ["optuna-simple"]).
  { unfold cell_11. apply creates_timed.
    apply creates_later; [walk | intros sampler].
    apply creates_first; [apply creates_one | intros study; open_notebook; walk]. }
  intros _.
  apply creates_later; [open_notebook; walk | intros [pmd pne]].
  apply creates_later; [open_notebook; walk | intros results].
  apply creates_later.
  { unfold cell_15, range_, print_. walk.
    apply loop_15_always; [intros; exact I | apply train_and_eval_no_study]. }
  intros _.
  apply (creates_bind ["optuna-joblib-dask-backend-mlflow-callback"]).
  { unfold cell_17.
    apply creates_later; [walk | intros sampler].
    apply run_study_creates. }
  intros _.
  apply creates_first; [|intros; walk].
  unfold cell_19.
  apply creates_later; [walk | intros report].
  apply creates_lib_cm, creates_timed.
  apply creates_later; [walk | intros sampler].
  apply creates_first; [apply creates_one | intros study; open_notebook; walk].
Qed.

Lemma notebook_storage : always L reads_input_file_and_own_storage (notebook L).
Proof.
  unfold notebook. apply always_bind; [open_notebook; walk | intros g].
  unfold cells. walk; try (open_notebook; walk).
  apply loop_15_always; [intros; exact I | apply train_and_eval_storage].
Qed.

Lemma notebook_studies_differ : NoDup notebook_studies.
Proof.
  unfold notebook_studies.
  repeat (constructor; [cbn [In]; intuition discriminate|]). constructor.
Qed.

(** X8.  A call of [run_study] asks for one study at most, under the name it
    was given.  In a run of the whole notebook, however far it gets, the
    studies asked for are some of the five names of cells 9, 10, 11, 17 and
    19, in that order and each at most once; so no two [create_study] calls
    of a run are given the same storage, and every study of the notebook has
    a trial history of its own. *)
Theorem each_study_is_created_once :
  (forall g sampler name callbacks,
      creates_among L [name] (run_study L g sampler name callbacks))
  /\ creates_among L notebook_studies (notebook L)
  /\ (forall w,
         NoDup (studies_created (trace (notebook L w)))
         /\ storages_used (trace (notebook L w))
            = map storage_url (studies_created (trace (notebook L w)))
         /\ NoDup (storages_used (trace (notebook L w)))).
Proof.
  assert (N : creates_among L notebook_studies (notebook L)).
  { unfold notebook. apply creates_later; [open_notebook; walk | exact cells_create]. }
  split; [exact run_study_creates|]. split; [exact N|].
  intros w.
  assert (D : NoDup (studies_created (trace (notebook L w))))
    by exact (subsequence_NoDup _ _ (N w) notebook_studies_differ).
  pose proof (storages_of_studies _ (notebook_storage w)) as E.
  split; [exact D|]. split; [exact E|].
  rewrite E. apply NoDup_map_injective; [|exact D].
  intros n1 n2. apply storage_url_injective.
Qed.

(** X9.  Every study of the notebook is set up and run alike: in a run of
    the whole notebook, and of [run_study] for any arguments, each
    [create_study] asks for direction "maximize" with [load_if_exists=True],
    each [optimize] asks for [N_TRIALS] trials with [n_jobs] either left out
    or the number of workers, and the two replays of cells 14 and 15 range
    over [N_TRIALS] as well. *)
Theorem studies_are_set_up_alike :
  (forall g sampler name callbacks,
      always L (maximizes_over_n_trials (n_workers g))
        (run_study L g sampler name callbacks))
  /\ (forall g, always L (maximizes_over_n_trials (n_workers g)) (cells L g))
  /\ (forall w g,
         res (setup L w) = Ok g ->
         Forall (fun e => maximizes_over_n_trials (n_workers g) (entry_call e))
           (trace (notebook L w))).
Proof.
  assert (T : forall n X y md ne,
             always L (maximizes_over_n_trials n) (train_and_eval L X y md ne))
    by (intros; open_notebook; walk).
  assert (C : forall g, always L (maximizes_over_n_trials (n_workers g)) (cells L g)).
  { intros g. unfold cells. walk; try (open_notebook; walk; auto).
    apply loop_15_always; [intros; exact I | apply T]. }
  split; [intros; open_notebook; walk; auto|]. split; [exact C|].
  intros w g R. unfold notebook, bind. rewrite R. cbn [trace].
  apply Forall_app. split; [|apply C].
  assert (S : always L (maximizes_over_n_trials (n_workers g)) (setup L))
    by (open_notebook; walk).
  apply S.
Qed.

End Studies.

(** ** [timed] when the clock cannot be read *)

Section Clock.

Variable L : library.
Local Abbreviation W := (world L).

(** X10.  [timed] when [time.time()] raises.  On entry: the block is not
    run at all, and the statement raises the clock's exception having made
    that one call.  On exit, after a block that returned: the block has run
    and what it did to the libraries stands, but its result is lost; the
    statement raises the clock's exception and prints no timing line. *)
Theorem timed_with_a_failing_clock (A : Type) (name : string) (body : M W A) (w : W) :
  (forall e w',
      handle L time_time w = (Raise e, w') ->
      with_ L (timed L name) body w
      = Outcome (Raise e) w' [Entry time_time (Raise e) []])
  /\ (forall t0 w0 a e w1,
         handle L time_time w = (Ok t0, w0) ->
         res (body w0) = Ok a ->
         handle L time_time (final (body w0)) = (Raise e, w1) ->
         let o := with_ L (timed L name) body w in
         res o = Raise e
         /\ final o = w1
         /\ trace o
            = (Entry time_time (Ok t0) [] :: trace (body w0)
                 ++ [Entry time_time (Raise e) []])%list
         /\ printed (trace o) = printed (trace (body w0))
         /\ shown (trace o) = shown (trace (body w0))).
Proof.
  split.
  - intros e w' E. rewrite with_run. cbv zeta.
    change (cm_enter (timed L name) w) with (do_ L time_time w).
    rewrite !(do_run L time_time w _ _ E). reflexivity.
  - intros t0 w0 a e w1 E0 Rb E1. cbv zeta. rewrite with_run. cbv zeta.
    rewrite !(timed_enter_run L name w t0 w0 E0). cbn [res final trace].
    destruct (body w0) as [[a'|e'] wb trb]; cbn [res final trace] in *;
      [|discriminate Rb].
    rewrite !(timed_exit_fails L name t0 wb e w1 E1). cbn [res final trace app].
    split; [reflexivity|]. split; [reflexivity|]. split; [reflexivity|].
    split.
    + change (Entry time_time (Ok t0) [] :: trb ++ [Entry time_time (Raise e) []])%list
        with ([Entry time_time (Ok t0) []] ++ trb ++ [Entry time_time (Raise e) []])%list.
      rewrite !printed_app. cbn. rewrite app_nil_r. reflexivity.
    + unfold shown. cbn [flat_map entry_call app]. rewrite flat_map_app. cbn.
      rewrite app_nil_r. reflexivity.
Qed.

End Clock.

(** ** Training data and held-out data *)

Section HeldOut.

Variable L : library.
Local Abbreviation W := (world L).

(** X11.  In every run of [train_and_eval], also one that raises: the
    classifier that is fitted is the one built with the [max_depth] and
    [n_estimators] passed, and it is fitted on the first and third parts of
    the split of the frames passed (the training rows and their labels); the
    prediction is made by the classifier that was fitted, on the second part
    (the held-out rows); the score compares the fourth part (the held-out
    labels) with that prediction; and the score returned is the one
    [accuracy_score] answered. *)
Theorem train_and_eval_scores_held_out_data X y max_depth n_estimators (w : W) :
  let tr := trace (train_and_eval L X y max_depth n_estimators w) in
  (forall cl a b, In (fit cl a b) (calls_of tr) ->
     In (Entry (RandomForestClassifier max_depth n_estimators) (Ok cl) []) tr
     /\ exists X_valid y_valid,
          In (Entry (train_test_split X y 77) (Ok (a, X_valid, b, y_valid)) []) tr)
  /\ (forall cl a, In (predict cl a) (calls_of tr) ->
        exists X_train y_train y_valid,
          In (Entry (train_test_split X y 77) (Ok (X_train, a, y_train, y_valid)) []) tr
          /\ In (Entry (fit cl X_train y_train) (Ok tt) []) tr)
  /\ (forall a b, In (accuracy_score a b) (calls_of tr) ->
        exists X_train X_valid y_train cl,
          In (Entry (train_test_split X y 77) (Ok (X_train, X_valid, y_train, a)) []) tr
          /\ In (Entry (predict cl X_valid) (Ok b) []) tr)
  /\ (forall score,
        res (train_and_eval L X y max_depth n_estimators w) = Ok score ->
        exists y_valid y_pred,
          In (Entry (accuracy_score y_valid y_pred) (Ok score) []) tr).
Proof.
  cbv zeta. pattern (train_and_eval L X y max_depth n_estimators w).
  match goal with |- ?Q _ => set (flows := Q) end.
  unfold train_and_eval. next_calls.
  all: repeat match goal with u : unit |- _ => destruct u end.
  all: subst flows; cbv beta; cbn [res trace].
  all: split;
    [solve [intros cl x1 x2 H; in_cases H;
            try (split; [find_in | do 2 eexists; find_in])]|].
  all: split;
    [solve [intros cl x1 H; in_cases H; try (do 3 eexists; split; find_in)]|].
  all: split;
    [solve [intros x1 x2 H; in_cases H; try (do 4 eexists; split; find_in)]|].
  all: intros score H; try discriminate H.
  injection H as <-. do 2 eexists. find_in.
Qed.

(** X12.  In every run of [objective_mg], also one that raises: the
    distributed classifier that is fitted is built with the two integers the
    trial proposed; it is fitted on the persisted distributed copies of the
    training rows and labels of the split, and predicts on the persisted
    copy of the held-out rows; the score compares the held-out labels of the
    split itself, not their distributed copy, with the prediction brought
    back by [compute]; and the score returned is the one [accuracy_score]
    answered. *)
Theorem objective_mg_scores_held_out_data g trial X y (w : W) :
  let tr := trace (objective_mg L g trial X y w) in
  (forall cl a b, In (fit cl a b) (calls_of tr) ->
     (exists max_depth n_estimators,
         In (Entry (suggest_int trial "max_depth" 10 15) (Ok max_depth) []) tr
         /\ In (Entry (suggest_int trial "n_estimators" 200 700) (Ok n_estimators) []) tr
         /\ In (Entry (dask_RandomForestClassifier max_depth n_estimators) (Ok cl) []) tr)
     /\ exists X_train X_valid y_train y_valid Xt Xv yt yv Xv' yv',
          In (Entry (train_test_split X y 77)
                (Ok (X_train, X_valid, y_train, y_valid)) []) tr
          /\ In (Entry (from_cudf X_train 2) (Ok Xt) []) tr
          /\ In (Entry (from_cudf y_train 2) (Ok yt) []) tr
          /\ In (Entry (persist_across_workers (c g) [Xt; Xv; yt; yv] (workers g))
                   (Ok (a, Xv', b, yv')) []) tr)
  /\ (forall cl a, In (predict cl a) (calls_of tr) ->
        exists X_train X_valid y_train y_valid Xt Xv yt yv Xt' yt' yv',
          In (Entry (train_test_split X y 77)
                (Ok (X_train, X_valid, y_train, y_valid)) []) tr
          /\ In (Entry (from_cudf X_valid 2) (Ok Xv) []) tr
          /\ In (Entry (persist_across_workers (c g) [Xt; Xv; yt; yv] (workers g))
                   (Ok (Xt', a, yt', yv')) []) tr
          /\ In (Entry (fit cl Xt' yt') (Ok tt) []) tr)
  /\ (forall a b, In (accuracy_score a b) (calls_of tr) ->
        exists X_train X_valid y_train cl Xv' y_pred,
          In (Entry (train_test_split X y 77) (Ok (X_train, X_valid, y_train, a)) []) tr
          /\ In (Entry (predict cl Xv') (Ok y_pred) []) tr
          /\ In (Entry (compute y_pred) (Ok b) []) tr)
  /\ (forall score,
        res (objective_mg L g trial X y w) = Ok score ->
        exists y_valid y_pred,
          In (Entry (accuracy_score y_valid y_pred) (Ok score) []) tr).
Proof.
  cbv zeta. pattern (objective_mg L g trial X y w).
  match goal with |- ?Q _ => set (flows := Q) end.
  unfold objective_mg. next_calls.
  all: repeat match goal with u : unit |- _ => destruct u end.
  all: subst flows; cbv beta; cbn [res trace].
  all: split;
    [solve [intros cl x1 x2 H; in_cases H;
            try (split;
                 [do 2 eexists; split; [find_in | split; find_in]
                 |do 10 eexists;
                  split; [find_in | split; [find_in | split; find_in]]])]|].
  all: split;
    [solve [intros cl x1 H; in_cases H;
            try (do 11 eexists;
                 split; [find_in | split; [find_in | split; find_in]])]|].
  all: split;
    [solve [intros x1 x2 H; in_cases H;
            try (do 6 eexists; split; [find_in | split; find_in])]|].
  all: intros score H; try discriminate H.
  injection H as <-. do 2 eexists. find_in.
Qed.

End HeldOut.

(** ** What the sequential replay replays *)

Section Replays.

Variable L : library.
Local Abbreviation W := (world L).

Lemma always_call {A} (P : call -> Prop) (m : M W A) (w : W) (c : call) :
  always L P m -> In c (calls_of (trace (m w))) -> P c.
Proof.
  intros Hm Hin. apply in_map_iff in Hin. destruct Hin as (e & <- & He).
  exact (proj1 (Forall_forall _ _) (Hm w) e He).
Qed.

Lemma loop_15_reads g pmd pne idx results :
  always L (reads_only pmd pne) (cell_15_loop L g pmd pne idx results).
Proof.
  revert results. induction idx as [|i idx IH]; intros results; simpl.
  - apply always_pure.
  - open_notebook. walk; auto.
Qed.

Lemma cell_15_reads g pmd pne results :
  always L (reads_only pmd pne) (cell_15 L g pmd pne results).
Proof. unfold cell_15, range_, print_. walk. apply loop_15_reads. Qed.

Lemma train_and_eval_replays_nothing X y md ne :
  always L replays_nothing (train_and_eval L X y md ne).
Proof. open_notebook. walk. Qed.

Lemma run_study_replays_nothing g sampler name callbacks :
  always L replays_nothing (run_study L g sampler name callbacks).
Proof. open_notebook. walk. Qed.

(** Cell 9 binds [study_tpe] to the study that its [run_study] created. *)
Lemma cell_9_binds g (w : W) s :
  res (cell_9 L g w) = Ok (Some s) ->
  exists sampler,
    In (Entry (create_study sampler "optuna-joblib-dask-backend"
                 (storage_url "optuna-joblib-dask-backend") "maximize" true)
              (Ok s) [])
       (trace (cell_9 L g w)).
Proof.
  unfold cell_9. cbv zeta.
  rewrite (bind_do L (performance_report _)).
  destruct (handle L (performance_report _) w) as [[report|e] w1];
    [|intros H; discriminate H].
  cbn [after res trace]. rewrite with_run. cbn [cm_enter cm_exit lib_cm]. cbv zeta.
  destruct (handle L (ctx_enter report) w1) as [[[]|e] w2] eqn:E2;
    rewrite !(do_run L (ctx_enter report) w1 _ _ E2); cbn [res final trace];
    [|intros H; discriminate H].
  rewrite !(bind_do L TPESampler).
  destruct (handle L TPESampler w2) as [[sampler|e] w3]; cbn [after res final trace].
  - pose proof (run_study_record L g sampler "optuna-joblib-dask-backend" None w3) as K.
    cbv zeta in K.
    destruct (run_study L g sampler "optuna-joblib-dask-backend" None w3)
      as [[study|e] w4 trs]; cbn [res final trace] in *.
    + destruct K as (t0 & pb & opt & sub & swallow & t1 & ts & t & ->).
      destruct (handle L (ctx_exit report None) w4) as [[b|e] w5] eqn:E5;
        rewrite !(do_run L (ctx_exit report None) w4 _ _ E5); cbn [res final trace];
        [|intros H; discriminate H].
      intros H. injection H as <-. exists sampler. cbn [In app]. tauto.
    + destruct (handle L (ctx_exit report (Some e)) w4) as [[[|]|e'] w5] eqn:E5;
        rewrite !(do_run L (ctx_exit report (Some e)) w4 _ _ E5);
        cbn [res final trace]; intros H; discriminate H.
  - destruct (handle L (ctx_exit report (Some e)) w3) as [[[|]|e'] w5] eqn:E5;
      rewrite !(do_run L (ctx_exit report (Some e)) w3 _ _ E5);
      cbn [res final trace]; intros H; discriminate H.
Qed.

(** Cell 12 reads the trials of [study_tpe] and binds the two columns. *)
Lemma cell_12_binds study_tpe (w : W) :
  let o := cell_12 L study_tpe w in
  (forall s, In (trials_dataframe s) (calls_of (trace o)) -> study_tpe = Some s)
  /\ (forall column i, ~ In (getitem_int column i) (calls_of (trace o)))
  /\ (forall pmd pne,
        res o = Ok (pmd, pne) ->
        exists s df,
          In (Entry (trials_dataframe s) (Ok df) []) (trace o)
          /\ In (Entry (getitem df "params_max_depth") (Ok pmd) []) (trace o)
          /\ In (Entry (getitem df "params_n_estimators") (Ok pne) []) (trace o)).
Proof.
  cbv zeta. pattern (cell_12 L study_tpe w).
  match goal with |- ?Q _ => set (binds := Q) end.
  unfold cell_12. destruct study_tpe as [s|]; cbn [bound].
  - next_calls; subst binds; cbv beta; cbn [res trace].
    all: split; [solve [intros s' H; in_cases H; reflexivity]|].
    all: split; [solve [intros column i H; in_cases H]|].
    all: intros pmd pne H; try discriminate H.
    injection H as <- <-. do 2 eexists. split; [find_in | split; find_in].
  - subst binds. cbv beta. cbn.
    split; [intros s' []|]. split; [intros column i []|]. intros pmd pne H; discriminate H.
Qed.

Lemma call_in_record (P : call -> Prop) (tr : list entry) (c : call) :
  Forall (fun e => P (entry_call e)) tr -> In c (map entry_call tr) -> P c.
Proof.
  intros Hm Hin. apply in_map_iff in Hin. destruct Hin as (e & <- & He).
  exact (proj1 (Forall_forall _ _) Hm e He).
Qed.

Lemma cell_6_replays_nothing g : always L replays_nothing (cell_6 L g).
Proof. open_notebook. walk. Qed.

Lemma cell_8_replays_nothing : always L replays_nothing (cell_8 L).
Proof. open_notebook. walk. Qed.

Lemma cell_9_replays_nothing g (w : W) :
  Forall (fun e => replays_nothing (entry_call e)) (trace (cell_9 L g w))
  /\ forall s,
       res (cell_9 L g w) = Ok (Some s) ->
       exists sampler,
         In (Entry (create_study sampler "optuna-joblib-dask-backend"
                      (storage_url "optuna-joblib-dask-backend") "maximize" true)
                   (Ok s) [])
            (trace (cell_9 L g w)).
Proof.
  split; [|apply cell_9_binds].
  assert (A : always L replays_nothing (cell_9 L g)) by (open_notebook; walk).
  apply A.
Qed.

Lemma cell_10_replays_nothing g : always L replays_nothing (cell_10 L g).
Proof. open_notebook. walk. Qed.

Lemma cell_11_replays_nothing g : always L replays_nothing (cell_11 L g).
Proof. open_notebook. walk. Qed.

Lemma cell_14_replays_nothing g pmd pne :
  always L replays_nothing (cell_14 L g pmd pne).
Proof. open_notebook. walk. Qed.

Lemma cell_17_replays_nothing g : always L replays_nothing (cell_17 L g).
Proof. open_notebook. walk. Qed.

Lemma cell_19_replays_nothing g : always L replays_nothing (cell_19 L g).
Proof. open_notebook. walk. Qed.

End Replays.

(** What is known of the record of each cell. *)
Ltac fact_of L m w :=
  lazymatch m with
  | cell_6 _ ?g => constr:(cell_6_replays_nothing L g w)
  | cell_8 _ => constr:(cell_8_replays_nothing L w)
  | cell_9 _ ?g => constr:(cell_9_replays_nothing L g w)
  | cell_10 _ ?g => constr:(cell_10_replays_nothing L g w)
  | cell_11 _ ?g => constr:(cell_11_replays_nothing L g w)
  | cell_12 _ ?s => constr:(cell_12_binds L s w)
  | cell_14 _ ?g ?a ?b => constr:(cell_14_replays_nothing L g a b w)
  | cell_15 _ ?g ?a ?b ?r => constr:(cell_15_reads L g a b r w)
  | cell_17 _ ?g => constr:(cell_17_replays_nothing L g w)
  | cell_19 _ ?g => constr:(cell_19_replays_nothing L g w)
  end.

(** Run the next cell of a sequence, keeping what is known of its record. *)
Ltac run_cell :=
  match goal with
  | |- context [bind ?m ?k ?w] =>
      is_var w;
      match type of w with
      | world ?L =>
          rewrite (bind_run L m k w);
          let fact := fact_of L m w in
          let F := fresh "F" in
          pose proof fact as F; cbv zeta in F;
          let R := fresh "R" in
          destruct (m w) as [[?a|?e] ?w ?t] eqn:R; cbn [res final trace] in *;
          repeat match goal with p : (ref * ref)%type |- _ => destruct p end
      end
  end.

Ltac not_replayed :=
  match goal with
  | F : Forall (fun e => replays_nothing (entry_call e)) ?t,
    H : In ?c (map entry_call ?t) |- _ =>
      exact (False_ind _ (call_in_record replays_nothing t c F H))
  | F : Forall (fun e => replays_nothing (entry_call e)) ?t /\ _,
    H : In ?c (map entry_call ?t) |- _ =>
      exact (False_ind _ (call_in_record replays_nothing t c (proj1 F) H))
  | F : Forall (fun e => reads_only _ _ (entry_call e)) ?t,
    H : In (trials_dataframe ?s) (map entry_call ?t) |- _ =>
      exact (False_ind _ (call_in_record _ t _ F H))
  | F : _ /\ (forall column i, ~ In (getitem_int column i) (calls_of ?t)) /\ _,
    H : In (getitem_int ?c ?i) (map entry_call ?t) |- _ =>
      exact (False_ind _ (proj1 (proj2 F) c i H))
  | H : In _ (map entry_call []) |- _ => destruct H
  end.

Section Replayed.

Variable L : library.
Local Abbreviation W := (world L).

(** X13.  The sequential replay replays the first study.  In every run of
    cells 6 to 19: the only study whose trials are read as a dataframe is
    the one that cell 9 created under the name "optuna-joblib-dask-backend";
    and every element that the loop of cell 15 reads by position comes from
    the column [params_max_depth] or the column [params_n_estimators] of
    that dataframe. *)
Theorem replays_read_the_first_study g (w : W) :
  let tr := trace (cells L g w) in
  (forall s, In (trials_dataframe s) (calls_of tr) ->
     exists sampler,
       In (Entry (create_study sampler "optuna-joblib-dask-backend"
                    (storage_url "optuna-joblib-dask-backend") "maximize" true)
                 (Ok s) []) tr)
  /\ (forall column i, In (getitem_int column i) (calls_of tr) ->
        exists s df,
          In (Entry (trials_dataframe s) (Ok df) []) tr
          /\ (In (Entry (getitem df "params_max_depth") (Ok column) []) tr
              \/ In (Entry (getitem df "params_n_estimators") (Ok column) []) tr)).
Proof.
  cbv zeta. pattern (trace (cells L g w)).
  match goal with |- ?Q _ => set (replayed := Q) end.
  unfold cells.
  repeat run_cell.
  all: subst replayed; cbv beta; unfold calls_of; cbn [trace pure];
    rewrite ?app_nil_r.
  all: split; [intros s H | intros column i H];
    rewrite ?map_app, ?in_app_iff in H;
    repeat (destruct H as [H|H]); try not_replayed.
  all: match goal with
       | F9 : _ /\ (forall s, Ok ?a = Ok (Some s) -> _),
         F12 : (forall s, In (trials_dataframe s) (calls_of ?t) -> ?a = Some s) /\ _,
         H : In (trials_dataframe ?s) (map entry_call ?t) |- _ =>
           pose proof (proj1 F12 s H) as E; subst a;
           destruct (proj2 F9 s eq_refl) as (sampler & Hin);
           exists sampler; rewrite ?in_app_iff; tauto
       | F12 : _ /\ _ /\ (forall pmd pne, Ok (?r, ?r0) = Ok (pmd, pne) -> _),
         F15 : Forall (fun e => reads_only ?r ?r0 (entry_call e)) ?t,
         H : In (getitem_int ?c ?i) (map entry_call ?t) |- _ =>
           destruct (proj2 (proj2 F12) r r0 eq_refl) as (s & df & I1 & I2 & I3);
           destruct (call_in_record _ t _ F15 H) as [-> | ->];
           exists s, df; rewrite ?in_app_iff; tauto
       end.
Qed.

End Replayed.

(** ** The data, and the parallel replay *)

Ltac answer_Parallel :=
  match goal with
  | |- context [do_Parallel ?L ?p ?tasks ?w] =>
      is_var w; unfold do_Parallel;
      destruct (lib_Parallel L p tasks w) as [[?rs|?e] ?w ?sub] eqn:?EP;
      cbn [res final trace after app pure raise]
  end.

Section Globals.

Variable L : library.
Local Abbreviation W := (world L).

(** X14.  What cells 3 and 4 bind, when they run to their end: the client
    [c] is the client of the cluster that was started; the features [X] and
    the target [y] come from the one dataframe read from [INPUT_FILE], [X]
    being that frame without the column "ArrDelayBinary" and [y] that very
    column as int32; and [n_streams] is 8.  Nothing reads [n_streams]:
    [run_study], [objective_mg] and the cells are the same computations
    whatever its value. *)
Theorem setup_binds_features_and_target :
  (forall (w : W) g,
      res (setup L w) = Ok g ->
      let tr := trace (setup L w) in
      n_streams g = 8
      /\ exists cluster df label,
           In (Entry (LocalCUDACluster 1 EmptyString "8002") (Ok cluster) []) tr
           /\ In (Entry (Client cluster) (Ok (c g)) []) tr
           /\ In (Entry (read_parquet INPUT_FILE) (Ok df) []) tr
           /\ In (Entry (drop df ["ArrDelayBinary"] 1) (Ok (X g)) []) tr
           /\ In (Entry (getitem df "ArrDelayBinary") (Ok label) []) tr
           /\ In (Entry (astype label "int32") (Ok (y g)) []) tr)
  /\ (forall g n,
         let g' := Globals (c g) (workers g) (n_workers g) n (X g) (y g) in
         cells L g' = cells L g
         /\ (forall sampler name callbacks,
                run_study L g' sampler name callbacks
                = run_study L g sampler name callbacks)
         /\ (forall trial X y, objective_mg L g' trial X y = objective_mg L g trial X y)).
Proof.
  split.
  - intros w g. cbv zeta. pattern (setup L w).
    match goal with |- ?Q _ => set (binds := Q) end.
    unfold setup, keys_, len_. next_calls.
    all: subst binds; cbv beta; cbn [res trace]; intros H; try discriminate H.
    injection H as <-. cbn [n_streams c X y]. split; [reflexivity|].
    do 3 eexists.
    split; [find_in|]. split; [find_in|]. split; [find_in|].
    split; [find_in|]. split; find_in.
  - intros [c0 ws nw ns X0 y0] n. cbv zeta. cbn [c workers n_workers X y].
    split; [reflexivity|]. split; reflexivity.
Qed.

(** X15.  Cell 14, when it runs to its end: under [timed] and under the
    dask backend it makes one [Parallel()] and one call of it over
    [range(N_TRIALS)], and prints the whole list that the call returned, one
    tuple for each result in the order returned, before [timed] prints its
    line.  It cannot return unless the call of [Parallel()] returned. *)
Theorem cell_14_prints_every_result g pmd pne (w : W) r :
  res (cell_14 L g pmd pne w) = Ok (Some r) ->
  let tr := trace (cell_14 L g pmd pne w) in
  names_of tr
  = ["time.time"; "parallel_backend"; "__enter__"; "Parallel"; "range";
     "Parallel.__call__"; "__exit__"; "print"; "time.time"; "print"]
  /\ exists p rs sub t0 t1,
       In (Entry Parallel (Ok p) []) tr
       /\ In (Entry (Parallel_call p) (Ok rs) sub) tr
       /\ r = VList (map of_result rs)
       /\ shown tr = [[r]; timing_line "joblib-dask-backend" t0 t1].
Proof.
  cbv zeta. pattern (cell_14 L g pmd pne w).
  match goal with |- ?Q _ => set (prints := Q) end.
  unfold cell_14, range_, print_. cbv zeta.
  repeat first [next_call | answer_Parallel].
  all: repeat match goal with u : unit |- _ => destruct u end.
  all: subst prints; cbv beta; cbn [res trace]; intros H; try discriminate H.
  injection H as <-. split; [reflexivity|].
  do 5 eexists. split; [find_in|]. split; [find_in|]. split; reflexivity.
Qed.

End Globals.

(** ** What the other cells print *)

Section Inline.

Variable L : library.
Local Abbreviation W := (world L).

(** X16.  What cells 6, 10, 11 and 19 print.  Cell 6 prints one line, the
    score that [accuracy_score] answered, when the training returns, and
    nothing when it raises.  Cells 10 and 11 print one line, that of
    [timed] (labelled with the study's name in cell 10, with
    "no-dask-no-joblib" in cell 11), when the study runs to its end, and
    nothing when something raises; none of them prints a report of the
    study.  Cell 19 prints the line of [timed] when its study runs to its
    end, and nothing when the block was cut short; if it raises after
    having printed that line, the exception is that of the [__exit__] of the
    performance report. *)
Theorem inline_cells_print_one_line_or_nothing g (w : W) :
  (let o := cell_6 L g w in
   match res o with
   | Ok _ =>
       exists y_valid y_pred score,
         In (Entry (accuracy_score y_valid y_pred) (Ok score) []) (trace o)
         /\ shown (trace o) = [[VStr "Score with default parameters : "; VFloat score]]
   | Raise _ => shown (trace o) = []
   end)
  /\ (let o := cell_10 L g w in
      match res o with
      | Ok r =>
          r <> None
          /\ exists t0 t1,
               shown (trace o) = [timing_line "optuna-joblib-loky-backend" t0 t1]
      | Raise _ => shown (trace o) = []
      end)
  /\ (let o := cell_11 L g w in
      match res o with
      | Ok r =>
          r <> None
          /\ exists t0 t1, shown (trace o) = [timing_line "no-dask-no-joblib" t0 t1]
      | Raise _ => shown (trace o) = []
      end)
  /\ (let o := cell_19 L g w in
      match res o with
      | Ok (Some r) =>
          r <> None
          /\ exists t0 t1, shown (trace o) = [timing_line "optuna-mnmg-joblib---" t0 t1]
      | Ok None => shown (trace o) = []
      | Raise e =>
          shown (trace o) = []
          \/ exists t0 t1 report,
               shown (trace o) = [timing_line "optuna-mnmg-joblib---" t0 t1]
               /\ In (Entry (ctx_exit report None) (Raise e) []) (trace o)
      end).
Proof.
  split; [|split; [|split]]; cbv zeta.
  - pattern (cell_6 L g w).
    match goal with |- ?Q _ => set (prints := Q) end.
    unfold cell_6, train_and_eval, print_. next_calls.
    all: subst prints; cbv beta; cbn [res trace]; try reflexivity.
    do 3 eexists. split; [find_in | reflexivity].
  - pattern (cell_10 L g w).
    match goal with |- ?Q _ => set (prints := Q) end.
    unfold cell_10, print_. cbv zeta. next_calls.
    all: subst prints; cbv beta; cbn [res trace]; try reflexivity.
    all: split; [discriminate | do 2 eexists; reflexivity].
  - pattern (cell_11 L g w).
    match goal with |- ?Q _ => set (prints := Q) end.
    unfold cell_11, print_. cbv zeta. next_calls.
    all: subst prints; cbv beta; cbn [res trace]; try reflexivity.
    all: split; [discriminate | do 2 eexists; reflexivity].
  - pattern (cell_19 L g w).
    match goal with |- ?Q _ => set (prints := Q) end.
    unfold cell_19, print_. cbv zeta. next_calls.
    all: subst prints; cbv beta; cbn [res trace]; try reflexivity.
    all: first [ left; reflexivity
               | right; do 3 eexists; split; [reflexivity | find_in]
               | split; [discriminate | do 2 eexists; reflexivity] ].
Qed.

End Inline.

(** ** The further theorems at work on the small library *)

(** X2 on a study of twenty trials. *)
Lemma run_study_prints_its_report_witness :
  let tr := trace (run_study Toy.lib Toy.g0 0%nat "demo" None Toy.loaded) in
  exists t0 t1 ts t,
    hd_error tr = Some (Entry time_time (Ok t0) [])
    /\ nth_error tr 6 = Some (Entry time_time (Ok t1) [])
    /\ In (Entry (trials 6%nat) (Ok ts) []) tr
    /\ In (Entry (best_trial 6%nat) (Ok t) []) tr
    /\ shown tr
       = ([timing_line "demo" t0 t1; count_line ts; [VStr "Best trial:"];
           value_line t; [VStr "  Params: "]]
            ++ map param_line (params t))%list.
Proof.
  refine (run_study_prints_its_report Toy.lib Toy.g0 0%nat "demo" None Toy.loaded
            6%nat _).
  vm_compute. reflexivity.
Defined.

(** X3 on a study whose data was never loaded: the first trial fails. *)
Lemma run_study_fails_with_a_partial_report_witness :
  let tr := trace (run_study Toy.lib Toy.g0 0%nat "demo" None Toy.init) in
  let e := Exception "TypeError" "not a frame" in
  last_raising tr = Some e
  /\ ((shown tr = []
       /\ exists n, (n <= 7)%nat /\ names_of tr = firstn n run_study_calls)
      \/ (exists t0 t1 study,
             shown tr = [timing_line "demo" t0 t1]
             /\ In (Entry (trials study) (Raise e) []) tr)
      \/ (exists t0 t1 study ts,
             shown tr = [timing_line "demo" t0 t1; count_line ts; [VStr "Best trial:"]]
             /\ In (Entry (trials study) (Ok ts) []) tr
             /\ In (Entry (best_trial study) (Raise e) []) tr)).
Proof.
  refine (run_study_fails_with_a_partial_report Toy.lib Toy.g0 0%nat "demo" None
            Toy.init (Exception "TypeError" "not a frame") _).
  vm_compute. reflexivity.
Defined.

(** X4 on a run of the whole notebook. *)
Lemma notebook_raises_only_what_a_call_raised_witness :
  raised (res (notebook Toy.lib Toy.init))
  = last_raising (trace (notebook Toy.lib Toy.init)).
Proof.
  destruct (notebook_raises_only_what_a_call_raised Toy.lib toy_exit_never_swallows)
    as (N & _).
  destruct (N Toy.init) as [U _].
  exact U.
Defined.

(** X6 on a trial with a value: the run is left after both were logged. *)
Lemma mlflow_callback_logs_the_trial_witness :
  let tr := trace (mlflow_callback Toy.lib 0%nat Toy.complete_trial Toy.studied) in
  (exists n, In (Entry (start_run n) (Ok 1%nat) []) tr)
  /\ In (Entry (log_metrics [("accuracy", 0.5%float)]) (Ok tt) []) tr.
Proof.
  refine (proj2 (proj2 (proj2 (proj2
            (mlflow_callback_logs_the_trial Toy.lib 0%nat Toy.complete_trial
               Toy.studied))))
            1%nat None _).
  vm_compute. tauto.
Defined.

(** X7 on two columns of twenty rows. *)
Lemma cell_15_keeps_the_last_result_witness :
  let tr := trace (cell_15 Toy.lib Toy.g0 6%nat 6%nat None Toy.replayed) in
  let r := VTuple [VFloat 1%float; VInt 12; VInt 12] in
  names_of tr
  = ("time.time" :: "range" :: flat_map (fun _ => round_calls) (seq 0 20)
       ++ ["print"; "time.time"; "print"])%list
  /\ indices_read tr
     = flat_map (fun i => [(6%nat, i); (6%nat, i)]) (map Z.of_nat (seq 0 20))
  /\ exists score md ne w' t0 t1 pre,
       r = of_result (score, md, ne)
       /\ res (train_and_eval Toy.lib (X Toy.g0) (y Toy.g0) md ne w') = Ok score
       /\ tr = (pre ++ Entry (getitem_int 6%nat 19) (Ok md) []
                     :: Entry (getitem_int 6%nat 19) (Ok ne) []
                     :: trace (train_and_eval Toy.lib (X Toy.g0) (y Toy.g0) md ne w')
                     ++ [Entry (print [r]) (Ok tt) [];
                         Entry time_time (Ok t1) [];
                         Entry (print (timing_line "sequential-calls" t0 t1))
                               (Ok tt) []])%list
       /\ shown tr = [[r]; timing_line "sequential-calls" t0 t1].
Proof.
  refine (cell_15_keeps_the_last_result Toy.lib Toy.g0 6%nat 6%nat None Toy.replayed
            (VTuple [VFloat 1%float; VInt 12; VInt 12]) _).
  vm_compute. reflexivity.
Defined.

(** X9 on a run of the whole notebook. *)
Lemma studies_are_set_up_alike_witness :
  Forall (fun e => maximizes_over_n_trials (n_workers Toy.g0) (entry_call e))
    (trace (notebook Toy.lib Toy.init)).
Proof.
  refine (proj2 (proj2 (studies_are_set_up_alike Toy.lib)) Toy.init Toy.g0 _).
  vm_compute. reflexivity.
Defined.

(** X10 on a clock that has stopped, and on one that stops after its first
    reading. *)
Lemma timed_with_a_failing_clock_witness :
  with_ (Toy.lib_until 0) (timed (Toy.lib_until 0) "demo")
    (print_ (Toy.lib_until 0) [VStr "hi"]) Toy.init
  = Outcome (Raise (Exception "OSError" "the clock has stopped")) Toy.init
      [Entry time_time (Raise (Exception "OSError" "the clock has stopped")) []]
  /\ (let L := Toy.lib_until 1 in
      let w0 := snd (Toy.tick Toy.init) in
      let e := Exception "OSError" "the clock has stopped" in
      let o := with_ L (timed L "demo") (print_ L [VStr "hi"]) Toy.init in
      res o = Raise e
      /\ final o = w0
      /\ trace o
         = (Entry time_time (Ok 0%float) [] :: trace (print_ L [VStr "hi"] w0)
              ++ [Entry time_time (Raise e) []])%list
      /\ printed (trace o) = printed (trace (print_ L [VStr "hi"] w0))
      /\ shown (trace o) = shown (trace (print_ L [VStr "hi"] w0))).
Proof.
  split.
  - refine (proj1 (timed_with_a_failing_clock (Toy.lib_until 0) unit "demo"
                     (print_ (Toy.lib_until 0) [VStr "hi"]) Toy.init)
                  (Exception "OSError" "the clock has stopped") Toy.init _).
    reflexivity.
  - refine (proj2 (timed_with_a_failing_clock (Toy.lib_until 1) unit "demo"
                     (print_ (Toy.lib_until 1) [VStr "hi"]) Toy.init)
                  0%float (snd (Toy.tick Toy.init)) tt
                  (Exception "OSError" "the clock has stopped")
                  (snd (Toy.tick Toy.init)) _ _ _);
      reflexivity.
Defined.

(** X11 on the loaded data: what the classifier is fitted on. *)
Lemma train_and_eval_scores_held_out_data_witness :
  let tr := trace (train_and_eval Toy.lib 3%nat 5%nat 16 100 Toy.loaded) in
  In (Entry (RandomForestClassifier 16 100) (Ok 10%nat) []) tr
  /\ exists X_valid y_valid,
       In (Entry (train_test_split 3%nat 5%nat 77)
             (Ok (6%nat, X_valid, 8%nat, y_valid)) []) tr.
Proof.
  refine (proj1 (train_and_eval_scores_held_out_data Toy.lib 3%nat 5%nat 16 100
                   Toy.loaded)
            10%nat 6%nat 8%nat _).
  vm_compute. tauto.
Defined.

(** X12 on the loaded data: what the score compares. *)
Lemma objective_mg_scores_held_out_data_witness :
  let tr := trace (objective_mg Toy.lib Toy.g0 9%nat 3%nat 5%nat Toy.loaded) in
  exists X_train X_valid y_train cl Xv' y_pred,
    In (Entry (train_test_split 3%nat 5%nat 77)
          (Ok (X_train, X_valid, y_train, 9%nat)) []) tr
    /\ In (Entry (predict cl Xv') (Ok y_pred) []) tr
    /\ In (Entry (compute y_pred) (Ok 15%nat) []) tr.
Proof.
  refine (proj1 (proj2 (proj2
            (objective_mg_scores_held_out_data Toy.lib Toy.g0 9%nat 3%nat 5%nat
               Toy.loaded)))
            9%nat 15%nat _).
  vm_compute. tauto.
Defined.

(** X13 on a run of cells 6 to 19: the study read in cell 12 is the one
    that cell 9 created. *)
Lemma replays_read_the_first_study_witness :
  exists sampler,
    In (Entry (create_study sampler "optuna-joblib-dask-backend"
                 (storage_url "optuna-joblib-dask-backend") "maximize" true)
              (Ok 15%nat) [])
       (trace (cells Toy.lib Toy.g0 Toy.loaded)).
Proof.
  refine (proj1 (replays_read_the_first_study Toy.lib Toy.g0 Toy.loaded) 15%nat _).
  apply (nth_error_In _ 46). vm_compute. reflexivity.
Defined.

(** X14 on the set-up cells. *)
Lemma setup_binds_features_and_target_witness :
  let tr := trace (setup Toy.lib Toy.init) in
  n_streams Toy.g0 = 8
  /\ exists cluster df label,
       In (Entry (LocalCUDACluster 1 EmptyString "8002") (Ok cluster) []) tr
       /\ In (Entry (Client cluster) (Ok (c Toy.g0)) []) tr
       /\ In (Entry (read_parquet INPUT_FILE) (Ok df) []) tr
       /\ In (Entry (drop df ["ArrDelayBinary"] 1) (Ok (X Toy.g0)) []) tr
       /\ In (Entry (getitem df "ArrDelayBinary") (Ok label) []) tr
       /\ In (Entry (astype label "int32") (Ok (y Toy.g0)) []) tr.
Proof.
  refine (proj1 (setup_binds_features_and_target Toy.lib) Toy.init Toy.g0 _).
  vm_compute. reflexivity.
Defined.

(** X15 on two columns of twenty rows. *)
Lemma cell_14_prints_every_result_witness :
  let tr := trace (cell_14 Toy.lib Toy.g0 6%nat 6%nat Toy.replayed) in
  names_of tr
  = ["time.time"; "parallel_backend"; "__enter__"; "Parallel"; "range";
     "Parallel.__call__"; "__exit__"; "print"; "time.time"; "print"]
  /\ exists p rs sub t0 t1,
       In (Entry Parallel (Ok p) []) tr
       /\ In (Entry (Parallel_call p) (Ok rs) sub) tr
       /\ Toy.replay_results = VList (map of_result rs)
       /\ shown tr = [[Toy.replay_results]; timing_line "joblib-dask-backend" t0 t1].
Proof.
  refine (cell_14_prints_every_result Toy.lib Toy.g0 6%nat 6%nat Toy.replayed
            Toy.replay_results _).
  vm_compute. reflexivity.
Defined.
